(** * ftpServer firmware: the status/log pipeline and the boot, WiFi,
      toggle and monitoring state machines

    A shallow embedding of [main/ftpUiScreen.cpp], [main/main.cpp] and
    [main/filesystem.cpp].  Every C++ function that the properties below
    talk about is a Rocq function of the same name over one record
    [world] that holds the file-scope variables of the two translation
    units, the state of the widgets they drive and the list of calls made
    to the external collaborators (LVGL, the WiFi driver, the FTP
    service, the SD driver).  [ESP_LOGx] console output and the two locks
    are not part of the state: a call is modelled as running to
    completion. *)

From Stdlib Require Import ZArith Ascii String Lia.
From stdpp Require Import base list strings.

#[local] Open Scope Z_scope.
Set Warnings "-abstract-large-number".

(** ** C strings *)

(** A C string is the sequence of its characters before the terminator.
    A [char] array of size [n] can hold a string of length at most
    [n - 1]; the functions below are the libc ones on that reading. *)
Abbreviation c_str := (list ascii).

Definition lit (s : string) : c_str := list_ascii_of_string s.
Arguments lit : simpl never.

Definition NL : ascii := "010"%char.

(** [size_t] is 32 bits wide on the target. *)
Definition size_t (z : Z) : Z := z mod 2 ^ 32.

Definition strlen (s : c_str) : Z := Z.of_nat (length s).

(** [strchr s c]: offset of the first [c] in [s], [None] for a null result. *)
Fixpoint strchr (s : c_str) (c : ascii) : option nat :=
  match s with
  | [] => None
  | x :: r => if Ascii.eqb x c then Some 0%nat else S <$> strchr r c
  end.

(** [strcmp a b == 0]. *)
Definition streq (a b : c_str) : bool := bool_decide (a = b).

Fixpoint is_prefix (p s : c_str) : bool :=
  match p, s with
  | [], _ => true
  | _ :: _, [] => false
  | a :: p', b :: s' => Ascii.eqb a b && is_prefix p' s'
  end.

(** [strstr hay needle != nullptr]. *)
Fixpoint strstr (hay needle : c_str) : bool :=
  is_prefix needle hay ||
  match hay with
  | [] => false
  | _ :: r => strstr r needle
  end.

(** [snprintf(dst, size, ...)] of an already expanded format: the output
    is cut to [size - 1] characters. *)
Definition snprintf (size : Z) (expanded : c_str) : c_str :=
  take (Z.to_nat (size - 1)) expanded.

(** [strncpy(dst, src, n); dst[n] = 0]: at most [n] characters of [src]. *)
Definition strncpy (src : c_str) (n : Z) : c_str := take (Z.to_nat n) src.

(** [strncat(dst, src, n)]: [dst] followed by at most [n] characters of [src]. *)
Definition strncat (dst src : c_str) (n : Z) : c_str := dst ++ take (Z.to_nat n) src.

(** ** Wall clock *)

(** The fields of [struct tm] that ["%H:%M:%S"] prints. *)
Record tm := { tm_hour : nat; tm_min : nat; tm_sec : nat }.

Definition digit (n : nat) : ascii := ascii_of_nat (48 + n mod 10).

Definition two_digits (n : nat) : c_str := [digit (n / 10); digit n].

(** [strftime(buf, size, "%H:%M:%S", &timeinfo)] *)
Definition strftime_HMS (t : tm) : c_str :=
  two_digits (tm_hour t) ++ lit ":" ++ two_digits (tm_min t) ++ lit ":" ++
  two_digits (tm_sec t).

(** Decimal print of an octet, as ["%d"] does. *)
Definition dec_octet (n : nat) : c_str :=
  if (n <? 10)%nat then [digit n]
  else if (n <? 100)%nat then [digit (n / 10); digit n]
  else [digit (n / 100); digit (n / 10); digit n].

(** ** External collaborators *)

Definition esp_err_t := Z.
Definition ESP_OK : esp_err_t := 0.
Definition ESP_FAIL : esp_err_t := -1.
Definition ESP_ERR_NVS_NO_FREE_PAGES : esp_err_t := 0x110d.
Definition ESP_ERR_NVS_NEW_VERSION_FOUND : esp_err_t := 0x1110.

(** The [FtpServer::Server] object is a black box; only its address matters. *)
Inductive Server := ServerInstance.

(** An [sdmmc_card_t] filled in by the SD driver. *)
Inductive sdmmc_card_t := SdCard.

(** The only function ever stored in [ftp_control_callback]. *)
Inductive control_fn := ftp_control_handler_ptr.

(** Calls made to collaborators, oldest first. *)
Inductive call :=
| lv_textarea_set_text (text : c_str)
| lv_label_set_text_status (text : c_str)
| lv_label_set_text_ip (text : c_str)
| esp_wifi_connect
| xEventGroupSetBits (bits : Z)
| Server_start
| Server_stop
| Server_isEnabled
| Server_getState
| vTaskDelay (ms : Z)
| lv_obj_scroll_to_y
| sdmmc_get_status
| wifi_init_call
| initialize_sntp_call
| new_Server
| register_screen_log_callback
| log_storage_info_call.

(** ** displayConfig.cpp *)

(** Pointers to driver objects; [nullptr] is [0]. *)
Definition handle := Z.
Definition nullptr : handle := 0.

(** The driver calls of displayConfig.cpp, in the order they are made. *)
Inductive display_call :=
| i2c_param_config
| i2c_driver_install
| i2c_driver_delete
| esp_lcd_new_rgb_panel
| esp_lcd_panel_reset (panel : handle)
| esp_lcd_panel_init (panel : handle)
| esp_lcd_panel_del (panel : handle)
| ledc_timer_config
| ledc_channel_config
| ledc_set_duty (duty : Z)
| ledc_update_duty
| esp_lcd_new_panel_io_i2c
| esp_lcd_touch_new_i2c_gt911
| esp_lcd_touch_del (touch : handle)
| lvgl_port_init
| lvgl_port_deinit
| lvgl_port_add_disp_rgb (panel : handle)
| lvgl_port_add_touch (disp touch : handle).

(** The file-scope variables of displayConfig.cpp and the calls made. *)
Record display_state := {
  panel_handle : handle;
  touch_handle : handle;
  lvgl_disp : handle;
  backlight_initialized : bool;
  i2c_initialized : bool;
  driver_calls : list display_call
}.

Definition set_panel_handle (v : handle) (s : display_state) : display_state :=
  {| panel_handle := v; touch_handle := touch_handle s; lvgl_disp := lvgl_disp s;
     backlight_initialized := backlight_initialized s;
     i2c_initialized := i2c_initialized s; driver_calls := driver_calls s |}.

Definition set_touch_handle (v : handle) (s : display_state) : display_state :=
  {| panel_handle := panel_handle s; touch_handle := v; lvgl_disp := lvgl_disp s;
     backlight_initialized := backlight_initialized s;
     i2c_initialized := i2c_initialized s; driver_calls := driver_calls s |}.

Definition set_lvgl_disp (v : handle) (s : display_state) : display_state :=
  {| panel_handle := panel_handle s; touch_handle := touch_handle s; lvgl_disp := v;
     backlight_initialized := backlight_initialized s;
     i2c_initialized := i2c_initialized s; driver_calls := driver_calls s |}.

Definition set_backlight_initialized (v : bool) (s : display_state) : display_state :=
  {| panel_handle := panel_handle s; touch_handle := touch_handle s;
     lvgl_disp := lvgl_disp s; backlight_initialized := v;
     i2c_initialized := i2c_initialized s; driver_calls := driver_calls s |}.

Definition set_i2c_initialized (v : bool) (s : display_state) : display_state :=
  {| panel_handle := panel_handle s; touch_handle := touch_handle s;
     lvgl_disp := lvgl_disp s; backlight_initialized := backlight_initialized s;
     i2c_initialized := v; driver_calls := driver_calls s |}.

Definition drv (c : display_call) (s : display_state) : display_state :=
  {| panel_handle := panel_handle s; touch_handle := touch_handle s;
     lvgl_disp := lvgl_disp s; backlight_initialized := backlight_initialized s;
     i2c_initialized := i2c_initialized s; driver_calls := driver_calls s ++ [c] |}.

(** What the drivers answer during one run of [suntonEsp32s3LcdInit].
    The two [_out] fields are what a constructor stores through its
    result pointer, [None] when it stores nothing. *)
Record display_env := {
  i2c_param_config_ret : esp_err_t;
  i2c_driver_install_ret : esp_err_t;
  new_rgb_panel_ret : esp_err_t;
  new_rgb_panel_out : option handle;
  panel_reset_ret : esp_err_t;
  panel_init_ret : esp_err_t;
  ledc_timer_config_ret : esp_err_t;
  ledc_channel_config_ret : esp_err_t;
  ledc_set_duty_ret : esp_err_t;
  ledc_update_duty_ret : esp_err_t;
  new_panel_io_i2c_ret : esp_err_t;
  new_i2c_gt911_ret : esp_err_t;
  new_i2c_gt911_out : option handle;
  lvgl_port_init_ret : esp_err_t;
  add_disp_rgb_ret : handle;
  add_touch_ret : handle
}.

(** A function with [ESP_ERROR_CHECK]s either comes back or aborts. *)
Inductive checked (A : Type) :=
| Passed (a : A) (s : display_state)
| Abort (s : display_state).
Arguments Passed {A} a s.
Arguments Abort {A} s.

Definition backlight_init (env : display_env) (s : display_state) : checked unit :=
  let s := drv ledc_timer_config s in
  if negb (ledc_timer_config_ret env =? ESP_OK) then Abort s else
  let s := drv ledc_channel_config s in
  if negb (ledc_channel_config_ret env =? ESP_OK) then Abort s else
  let s := drv (ledc_set_duty 255) s in
  if negb (ledc_set_duty_ret env =? ESP_OK) then Abort s else
  let s := drv ledc_update_duty s in
  if negb (ledc_update_duty_ret env =? ESP_OK) then Abort s else
  Passed tt (set_backlight_initialized true s).

(** [suntonEsp32s3SetBrightness(brightness)], [brightness] a [uint8_t];
    [set_ret] and [update_ret] are the answers of the two LEDC calls. *)
Definition suntonEsp32s3SetBrightness (brightness : Z) (set_ret update_ret : esp_err_t)
    (s : display_state) : checked unit :=
  if negb (backlight_initialized s) then Passed tt s else
  let s := drv (ledc_set_duty brightness) s in
  if negb (set_ret =? ESP_OK) then Abort s else
  let s := drv ledc_update_duty s in
  if negb (update_ret =? ESP_OK) then Abort s else
  Passed tt s.

Definition cleanup_resources (s : display_state) : display_state :=
  let s :=
    if negb (touch_handle s =? nullptr)
    then set_touch_handle nullptr (drv (esp_lcd_touch_del (touch_handle s)) s)
    else s in
  let s :=
    if negb (panel_handle s =? nullptr)
    then set_panel_handle nullptr (drv (esp_lcd_panel_del (panel_handle s)) s)
    else s in
  if i2c_initialized s
  then set_i2c_initialized false (drv i2c_driver_delete s)
  else s.

Definition i2c_init (env : display_env) (s : display_state)
    : esp_err_t * display_state :=
  let s := drv i2c_param_config s in
  let ret := i2c_param_config_ret env in
  if negb (ret =? ESP_OK) then (ret, s) else
  let s := drv i2c_driver_install s in
  let ret := i2c_driver_install_ret env in
  if negb (ret =? ESP_OK) then (ret, s) else
  (ESP_OK, set_i2c_initialized true s).

Definition lcd_panel_init (env : display_env) (s : display_state)
    : esp_err_t * display_state :=
  let s := drv esp_lcd_new_rgb_panel s in
  let s := match new_rgb_panel_out env with
           | Some h => set_panel_handle h s
           | None => s
           end in
  let ret := new_rgb_panel_ret env in
  if negb (ret =? ESP_OK) then (ret, s) else
  let s := drv (esp_lcd_panel_reset (panel_handle s)) s in
  let ret := panel_reset_ret env in
  if negb (ret =? ESP_OK) then (ret, s) else
  let s := drv (esp_lcd_panel_init (panel_handle s)) s in
  let ret := panel_init_ret env in
  if negb (ret =? ESP_OK) then (ret, s) else
  (ESP_OK, s).

Definition touch_init (env : display_env) (s : display_state)
    : esp_err_t * display_state :=
  let s := drv esp_lcd_new_panel_io_i2c s in
  let ret := new_panel_io_i2c_ret env in
  if negb (ret =? ESP_OK) then (ret, s) else
  let s := drv esp_lcd_touch_new_i2c_gt911 s in
  let s := match new_i2c_gt911_out env with
           | Some h => set_touch_handle h s
           | None => s
           end in
  let ret := new_i2c_gt911_ret env in
  if negb (ret =? ESP_OK) then (ret, s) else
  (ESP_OK, s).

Definition suntonEsp32s3LcdInit (env : display_env) (s : display_state)
    : checked handle :=
  (* 1 *)
  let (ret, s) := i2c_init env s in
  if negb (ret =? ESP_OK) then Passed nullptr (cleanup_resources s) else
  (* 2 *)
  let (ret, s) := lcd_panel_init env s in
  if negb (ret =? ESP_OK) then Passed nullptr (cleanup_resources s) else
  (* 3 *)
  match backlight_init env s with
  | Abort s => Abort s
  | Passed _ s =>
  (* 4 *)
  let (ret, s) := touch_init env s in
  if negb (ret =? ESP_OK) then Passed nullptr (cleanup_resources s) else
  (* 5 *)
  let s := drv lvgl_port_init s in
  let ret := lvgl_port_init_ret env in
  if negb (ret =? ESP_OK) then Passed nullptr (cleanup_resources s) else
  (* 7 *)
  let s := set_lvgl_disp (add_disp_rgb_ret env)
             (drv (lvgl_port_add_disp_rgb (panel_handle s)) s) in
  if lvgl_disp s =? nullptr then
    let s := drv lvgl_port_deinit s in
    Passed nullptr (cleanup_resources s)
  else
  (* 8 *)
  let s := drv (lvgl_port_add_touch (lvgl_disp s) (touch_handle s)) s in
  let touch_indev := add_touch_ret env in
  if touch_indev =? nullptr then
    let s := drv lvgl_port_deinit s in
    Passed nullptr (cleanup_resources s)
  else
  Passed (lvgl_disp s) s
  end.

(** The file-scope variables of displayConfig.cpp at reset. *)
Definition display_power_on : display_state :=
  {| panel_handle := nullptr; touch_handle := nullptr; lvgl_disp := nullptr;
     backlight_initialized := false; i2c_initialized := false;
     driver_calls := [] |}.

(** Answers with which every stage succeeds. *)
Definition display_ok_env : display_env :=
  {| i2c_param_config_ret := ESP_OK; i2c_driver_install_ret := ESP_OK;
     new_rgb_panel_ret := ESP_OK; new_rgb_panel_out := Some 0x3FC90000;
     panel_reset_ret := ESP_OK; panel_init_ret := ESP_OK;
     ledc_timer_config_ret := ESP_OK; ledc_channel_config_ret := ESP_OK;
     ledc_set_duty_ret := ESP_OK; ledc_update_duty_ret := ESP_OK;
     new_panel_io_i2c_ret := ESP_OK;
     new_i2c_gt911_ret := ESP_OK; new_i2c_gt911_out := Some 0x3FC91000;
     lvgl_port_init_ret := ESP_OK;
     add_disp_rgb_ret := 0x3FC92000; add_touch_ret := 0x3FC93000 |}.

(** The same, except that LVGL refuses the touch input. *)
Definition no_touch_input_env : display_env :=
  {| i2c_param_config_ret := ESP_OK; i2c_driver_install_ret := ESP_OK;
     new_rgb_panel_ret := ESP_OK; new_rgb_panel_out := Some 0x3FC90000;
     panel_reset_ret := ESP_OK; panel_init_ret := ESP_OK;
     ledc_timer_config_ret := ESP_OK; ledc_channel_config_ret := ESP_OK;
     ledc_set_duty_ret := ESP_OK; ledc_update_duty_ret := ESP_OK;
     new_panel_io_i2c_ret := ESP_OK;
     new_i2c_gt911_ret := ESP_OK; new_i2c_gt911_out := Some 0x3FC91000;
     lvgl_port_init_ret := ESP_OK;
     add_disp_rgb_ret := 0x3FC92000; add_touch_ret := nullptr |}.

(** ** Program state *)

Definition MAX_LOG_LINES : Z := 50.
Definition MAX_LINE_LENGTH : Z := 100.
(** [sizeof(log_buffer)] *)
Definition sizeof_log_buffer : Z := MAX_LOG_LINES * MAX_LINE_LENGTH.

Definition BIT0 : Z := 1.
Definition BIT1 : Z := 2.
Definition WIFI_CONNECTED_BIT : Z := BIT0.
Definition WIFI_FAIL_BIT : Z := BIT1.

(** File-scope state of [ftpUiScreen.cpp].  A widget pointer is [None]
    while null; otherwise it carries what the widget shows.  The title,
    port and time labels and the clear button carry no state of interest
    and are left out. *)
Record ui_state := {
  log_textarea : option c_str;          (* text shown *)
  status_label : option c_str;
  ip_label : option c_str;
  server_switch : option bool;          (* LV_STATE_CHECKED *)
  spinner : option bool;                (* LV_OBJ_FLAG_HIDDEN *)
  ftp_operation_in_progress : bool;
  log_buffer : c_str;
  log_line_count : Z;
  ftp_control_callback : option control_fn
}.

(** File-scope state of [main.cpp]. *)
Record main_state := {
  ftpServer : option Server;
  s_wifi_event_group : Z;
  s_retry_num : Z;
  screen_created : bool;
  sdcard_was_present : bool;
  sdcard : option sdmmc_card_t;
  wl_handle : Z
}.

Record world := {
  ui : ui_state;
  main : main_state;
  display : display_state;              (* file-scope state of displayConfig.cpp *)
  clock : nat -> tm;                    (* successive readings of time() *)
  clock_reads : nat;
  trace : list call
}.

(** Field updates. *)
Definition set_log_textarea (v : option c_str) (s : ui_state) : ui_state :=
  {| log_textarea := v; status_label := status_label s;
     ip_label := ip_label s; server_switch := server_switch s;
     spinner := spinner s;
     ftp_operation_in_progress := ftp_operation_in_progress s;
     log_buffer := log_buffer s; log_line_count := log_line_count s;
     ftp_control_callback := ftp_control_callback s |}.

Definition set_status_label (v : option c_str) (s : ui_state) : ui_state :=
  {| log_textarea := log_textarea s; status_label := v;
     ip_label := ip_label s; server_switch := server_switch s;
     spinner := spinner s;
     ftp_operation_in_progress := ftp_operation_in_progress s;
     log_buffer := log_buffer s; log_line_count := log_line_count s;
     ftp_control_callback := ftp_control_callback s |}.

Definition set_ip_label (v : option c_str) (s : ui_state) : ui_state :=
  {| log_textarea := log_textarea s; status_label := status_label s;
     ip_label := v; server_switch := server_switch s; spinner := spinner s;
     ftp_operation_in_progress := ftp_operation_in_progress s;
     log_buffer := log_buffer s; log_line_count := log_line_count s;
     ftp_control_callback := ftp_control_callback s |}.

Definition set_server_switch (v : option bool) (s : ui_state) : ui_state :=
  {| log_textarea := log_textarea s; status_label := status_label s;
     ip_label := ip_label s; server_switch := v; spinner := spinner s;
     ftp_operation_in_progress := ftp_operation_in_progress s;
     log_buffer := log_buffer s; log_line_count := log_line_count s;
     ftp_control_callback := ftp_control_callback s |}.

Definition set_spinner (v : option bool) (s : ui_state) : ui_state :=
  {| log_textarea := log_textarea s; status_label := status_label s;
     ip_label := ip_label s; server_switch := server_switch s; spinner := v;
     ftp_operation_in_progress := ftp_operation_in_progress s;
     log_buffer := log_buffer s; log_line_count := log_line_count s;
     ftp_control_callback := ftp_control_callback s |}.

Definition set_ftp_operation_in_progress (v : bool) (s : ui_state) : ui_state :=
  {| log_textarea := log_textarea s; status_label := status_label s;
     ip_label := ip_label s; server_switch := server_switch s;
     spinner := spinner s; ftp_operation_in_progress := v;
     log_buffer := log_buffer s; log_line_count := log_line_count s;
     ftp_control_callback := ftp_control_callback s |}.

Definition set_log_buffer (v : c_str) (s : ui_state) : ui_state :=
  {| log_textarea := log_textarea s; status_label := status_label s;
     ip_label := ip_label s; server_switch := server_switch s;
     spinner := spinner s;
     ftp_operation_in_progress := ftp_operation_in_progress s;
     log_buffer := v; log_line_count := log_line_count s;
     ftp_control_callback := ftp_control_callback s |}.

Definition set_log_line_count (v : Z) (s : ui_state) : ui_state :=
  {| log_textarea := log_textarea s; status_label := status_label s;
     ip_label := ip_label s; server_switch := server_switch s;
     spinner := spinner s;
     ftp_operation_in_progress := ftp_operation_in_progress s;
     log_buffer := log_buffer s; log_line_count := v;
     ftp_control_callback := ftp_control_callback s |}.

Definition set_ftp_control_callback (v : option control_fn) (s : ui_state) : ui_state :=
  {| log_textarea := log_textarea s; status_label := status_label s;
     ip_label := ip_label s; server_switch := server_switch s;
     spinner := spinner s;
     ftp_operation_in_progress := ftp_operation_in_progress s;
     log_buffer := log_buffer s; log_line_count := log_line_count s;
     ftp_control_callback := v |}.

Definition set_ftpServer (v : option Server) (s : main_state) : main_state :=
  {| ftpServer := v; s_wifi_event_group := s_wifi_event_group s;
     s_retry_num := s_retry_num s; screen_created := screen_created s;
     sdcard_was_present := sdcard_was_present s; sdcard := sdcard s;
     wl_handle := wl_handle s |}.

Definition set_s_wifi_event_group (v : Z) (s : main_state) : main_state :=
  {| ftpServer := ftpServer s; s_wifi_event_group := v;
     s_retry_num := s_retry_num s; screen_created := screen_created s;
     sdcard_was_present := sdcard_was_present s; sdcard := sdcard s;
     wl_handle := wl_handle s |}.

Definition set_s_retry_num (v : Z) (s : main_state) : main_state :=
  {| ftpServer := ftpServer s; s_wifi_event_group := s_wifi_event_group s;
     s_retry_num := v; screen_created := screen_created s;
     sdcard_was_present := sdcard_was_present s; sdcard := sdcard s;
     wl_handle := wl_handle s |}.

Definition set_screen_created (v : bool) (s : main_state) : main_state :=
  {| ftpServer := ftpServer s; s_wifi_event_group := s_wifi_event_group s;
     s_retry_num := s_retry_num s; screen_created := v;
     sdcard_was_present := sdcard_was_present s; sdcard := sdcard s;
     wl_handle := wl_handle s |}.

Definition set_sdcard_was_present (v : bool) (s : main_state) : main_state :=
  {| ftpServer := ftpServer s; s_wifi_event_group := s_wifi_event_group s;
     s_retry_num := s_retry_num s; screen_created := screen_created s;
     sdcard_was_present := v; sdcard := sdcard s;
     wl_handle := wl_handle s |}.

Definition set_sdcard (v : option sdmmc_card_t) (s : main_state) : main_state :=
  {| ftpServer := ftpServer s; s_wifi_event_group := s_wifi_event_group s;
     s_retry_num := s_retry_num s; screen_created := screen_created s;
     sdcard_was_present := sdcard_was_present s; sdcard := v;
     wl_handle := wl_handle s |}.

Definition set_wl_handle (v : Z) (s : main_state) : main_state :=
  {| ftpServer := ftpServer s; s_wifi_event_group := s_wifi_event_group s;
     s_retry_num := s_retry_num s; screen_created := screen_created s;
     sdcard_was_present := sdcard_was_present s; sdcard := sdcard s;
     wl_handle := v |}.

Definition with_ui (f : ui_state -> ui_state) (w : world) : world :=
  {| ui := f (ui w); main := main w; display := display w; clock := clock w;
     clock_reads := clock_reads w; trace := trace w |}.

Definition with_main (f : main_state -> main_state) (w : world) : world :=
  {| ui := ui w; main := f (main w); display := display w; clock := clock w;
     clock_reads := clock_reads w; trace := trace w |}.

Definition set_display (v : display_state) (w : world) : world :=
  {| ui := ui w; main := main w; display := v; clock := clock w;
     clock_reads := clock_reads w; trace := trace w |}.

(** Record one call to a collaborator. *)
Definition emit (c : call) (w : world) : world :=
  {| ui := ui w; main := main w; display := display w; clock := clock w;
     clock_reads := clock_reads w; trace := trace w ++ [c] |}.

(** [time(&now); localtime_r(&now, &timeinfo)]: take the next reading. *)
Definition read_clock (w : world) : tm * world :=
  (clock w (clock_reads w),
   {| ui := ui w; main := main w; display := display w; clock := clock w;
      clock_reads := S (clock_reads w); trace := trace w |}).

(** ** ftpUiScreen.cpp *)

Definition reset_ftp_operation_flag (w : world) : world :=
  with_ui (set_ftp_operation_in_progress false) w.

Definition register_ftp_control_callback (callback : option control_fn)
    (w : world) : world :=
  with_ui (set_ftp_control_callback callback) w.

Definition update_ip_label (ip : c_str) (w : world) : world :=
  match ip_label (ui w) with
  | None => w
  | Some _ =>
      let ip_str := snprintf 64 (lit "IP: " ++ ip) in
      emit (lv_label_set_text_ip ip_str) (with_ui (set_ip_label (Some ip_str)) w)
  end.

Definition update_status (status : c_str) (w : world) : world :=
  match status_label (ui w) with
  | None => w
  | Some _ =>
      let w := emit (lv_label_set_text_status status)
                 (with_ui (set_status_label (Some status)) w) in
      match spinner (ui w) with
      | None => w
      | Some _ =>
          if streq status (lit "Starting...") || streq status (lit "Stopping...")
             || streq status (lit "Ready") || strstr status (lit "File")
          then with_ui (set_spinner (Some false)) w
          else with_ui (set_spinner (Some true)) w
      end
  end.

Definition set_server_switch_state (enabled : bool) (w : world) : world :=
  match server_switch (ui w) with
  | None => w
  | Some _ => with_ui (set_server_switch (Some enabled)) w
  end.

(** The local variables the two eviction loops of [addLog] work on. *)
Record log_regs := {
  r_buffer : c_str;        (* log_buffer *)
  r_count : Z;             (* log_line_count *)
  r_current_len : Z        (* current_len *)
}.

(** [while (current_len + line_len > max_len && log_line_count > 0)].
    Every round that does not leave the loop lowers [log_line_count],
    which the condition wants positive, so [Z.to_nat log_line_count]
    rounds are all there can be; [addLog] passes that as [rounds]. *)
Fixpoint evict_for_bytes (rounds : nat) (line_len max_len : Z) (r : log_regs)
    : log_regs :=
  match rounds with
  | O => r
  | S rounds' =>
      if (max_len <? size_t (r_current_len r + line_len)) && (0 <? r_count r)
      then
        match strchr (r_buffer r) NL with
        | Some first_newline =>
            let bytes_to_remove := size_t (Z.of_nat first_newline + 1) in
            evict_for_bytes rounds' line_len max_len
              {| r_buffer := drop (S first_newline) (r_buffer r);
                 r_count := r_count r - 1;
                 r_current_len := size_t (r_current_len r - bytes_to_remove) |}
        | None =>
            {| r_buffer := []; r_count := 0; r_current_len := 0 |}
        end
      else r
  end.

(** [while (log_line_count >= MAX_LOG_LINES)]; [current_len] is not
    touched here. *)
Fixpoint evict_for_lines (rounds : nat) (r : log_regs) : log_regs :=
  match rounds with
  | O => r
  | S rounds' =>
      if MAX_LOG_LINES <=? r_count r then
        match strchr (r_buffer r) NL with
        | Some first_newline =>
            evict_for_lines rounds'
              {| r_buffer := drop (S first_newline) (r_buffer r);
                 r_count := r_count r - 1;
                 r_current_len := r_current_len r |}
        | None =>
            {| r_buffer := []; r_count := 0;
               r_current_len := r_current_len r |}
        end
      else r
  end.

(** ["[%s] %s\n"] printed into [log_line]. *)
Definition format_log_line (timestamp message : c_str) : c_str :=
  snprintf MAX_LINE_LENGTH
    (lit "[" ++ timestamp ++ lit "] " ++ message ++ [NL]).

(** The block of [addLog] that runs under [logMutex]: new contents of
    [log_buffer] and [log_line_count]. *)
Definition log_append (log_line : c_str) (buf : c_str) (cnt : Z) : c_str * Z :=
  let current_len := size_t (strlen buf) in
  let line_len := size_t (strlen log_line) in
  let max_len := size_t (sizeof_log_buffer - 1) in
  let r := evict_for_bytes (Z.to_nat cnt) line_len max_len
             {| r_buffer := buf; r_count := cnt; r_current_len := current_len |} in
  let r := evict_for_lines (Z.to_nat (r_count r)) r in
  let current_len := size_t (strlen (r_buffer r)) in
  if size_t (current_len + line_len) <=? max_len then
    ((if current_len =? 0 then strncpy log_line max_len
      else strncat (r_buffer r) log_line (size_t (max_len - current_len))),
     r_count r + 1)
  else
    (strncpy log_line max_len, 1).

(** [message] is [None] for a null pointer. *)
Definition addLog (message : option c_str) (w : world) : world :=
  match log_textarea (ui w), message with
  | Some _, Some msg =>
      let (timeinfo, w) := read_clock w in
      let timestamp := strftime_HMS timeinfo in
      let log_line := format_log_line timestamp msg in
      let (buf, cnt) :=
        log_append log_line (log_buffer (ui w)) (log_line_count (ui w)) in
      let w := with_ui (fun u => set_log_line_count cnt (set_log_buffer buf u)) w in
      let w := emit (lv_textarea_set_text buf)
                 (with_ui (set_log_textarea (Some buf)) w) in
      emit lv_obj_scroll_to_y w
  | _, _ => w
  end.

Definition clearLog (w : world) : world :=
  match log_textarea (ui w) with
  | None => w
  | Some _ =>
      let w := with_ui (fun u => set_log_line_count 0 (set_log_buffer [] u)) w in
      emit (lv_textarea_set_text []) (with_ui (set_log_textarea (Some [])) w)
  end.

Inductive lv_event_code_t :=
| LV_EVENT_CLICKED
| LV_EVENT_VALUE_CHANGED
| LV_EVENT_other.

Definition clear_button_event_cb (code : lv_event_code_t) (w : world) : world :=
  match code with
  | LV_EVENT_CLICKED => addLog (Some (lit "#00ff00 [OK] Log cleared#")) (clearLog w)
  | _ => w
  end.

(** [create_screen_ftp]: every widget pointer becomes non-null with its
    initial contents, the log buffer is zeroed. *)
Definition create_screen_ftp (w : world) : world :=
  let w := emit (lv_label_set_text_status (lit "Disabled"))
             (with_ui (set_status_label (Some (lit "Disabled"))) w) in
  let w := with_ui (set_spinner (Some true)) w in
  let w := emit (lv_label_set_text_ip (lit "IP: Connecting..."))
             (with_ui (set_ip_label (Some (lit "IP: Connecting..."))) w) in
  let w := with_ui (set_server_switch (Some false)) w in
  let w := emit (lv_textarea_set_text []) (with_ui (set_log_textarea (Some [])) w) in
  with_ui (fun u => set_log_line_count 0 (set_log_buffer [] u)) w.

(** ** filesystem.cpp *)

(** [mountFATFS]: [ret] and [handle] are what
    [esp_vfs_fat_spiflash_mount_rw_wl] returns and writes to [s_wl_handle]. *)
Definition mountFATFS (ret : esp_err_t) (handle : Z) : Z :=
  if negb (ret =? ESP_OK) then -1 else handle.

(** [mountSDCARD(mount_point, &sdcard)]: [bus_ret] is the result of
    [spi_bus_initialize], [mount_ret] that of [esp_vfs_fat_sdspi_mount],
    which fills [*out_card] only when it succeeds. *)
Definition mountSDCARD (bus_ret mount_ret : esp_err_t) (w : world)
    : esp_err_t * world :=
  if negb (bus_ret =? ESP_OK) then (bus_ret, w)
  else if negb (mount_ret =? ESP_OK) then (mount_ret, w)
  else (mount_ret, with_main (set_sdcard (Some SdCard)) w).

(** ** filesystem.cpp: unmounting *)

(** The driver calls of the two unmount functions. *)
Inductive storage_call :=
| esp_vfs_fat_spiflash_unmount_rw_wl (wl_handle : Z)
| esp_vfs_fat_sdcard_unmount (card : sdmmc_card_t)
| spi_bus_free.

(** [unmountFATFS(mount_point, wl_handle)]; the answer of the driver
    only decides which line is logged. *)
Definition unmountFATFS (mount_point : option c_str) (wl_handle : Z)
    : list storage_call :=
  if (wl_handle <? 0) || negb (bool_decide (is_Some mount_point)) then []
  else [esp_vfs_fat_spiflash_unmount_rw_wl wl_handle].

(** [unmountSDCARD(mount_point, card)]; [ret] is what
    [esp_vfs_fat_sdcard_unmount] answers. *)
Definition unmountSDCARD (mount_point : option c_str) (card : option sdmmc_card_t)
    (ret : esp_err_t) : list storage_call :=
  match mount_point, card with
  | Some _, Some c =>
      if negb (ret =? ESP_OK) then [esp_vfs_fat_sdcard_unmount c]
      else [esp_vfs_fat_sdcard_unmount c; spi_bus_free]
  | _, _ => []
  end.

(** ** main.cpp *)

Inductive esp_event :=
| WIFI_EVENT_STA_START
| WIFI_EVENT_STA_DISCONNECTED
| WIFI_EVENT_other
| IP_EVENT_STA_GOT_IP (addr : Z).       (* event->ip_info.ip.addr *)

(** [IPSTR] with [IP2STR]: the four octets, lowest address first. *)
Definition ip_octet (addr : Z) (k : Z) : nat :=
  Z.to_nat (Z.land (Z.shiftr addr (8 * k)) 255).

Definition IPSTR (addr : Z) : c_str :=
  dec_octet (ip_octet addr 0) ++ lit "." ++ dec_octet (ip_octet addr 1) ++
  lit "." ++ dec_octet (ip_octet addr 2) ++ lit "." ++ dec_octet (ip_octet addr 3).

Definition safe_log (message : c_str) (w : world) : world :=
  if screen_created (main w) then addLog (Some message) w else w.

Definition set_event_bits (bits : Z) (w : world) : world :=
  emit (xEventGroupSetBits bits)
    (with_main (fun a => set_s_wifi_event_group (Z.lor (s_wifi_event_group a) bits) a) w).

Definition wifi_event_handler (e : esp_event) (w : world) : world :=
  match e with
  | WIFI_EVENT_STA_START => emit esp_wifi_connect w
  | WIFI_EVENT_STA_DISCONNECTED =>
      if s_retry_num (main w) <? 10 then
        let w := emit esp_wifi_connect w in
        with_main (fun a => set_s_retry_num (s_retry_num a + 1) a) w
      else
        let w := set_event_bits WIFI_FAIL_BIT w in
        safe_log (lit "WiFi connection failed") w
  | IP_EVENT_STA_GOT_IP addr =>
      let ip_msg := snprintf 64 (lit "IP: " ++ IPSTR addr) in
      let w := safe_log ip_msg w in
      let ip_msg := snprintf 64 (IPSTR addr) in
      let w := if screen_created (main w) then update_ip_label ip_msg w else w in
      let w := with_main (set_s_retry_num 0) w in
      set_event_bits WIFI_CONNECTED_BIT w
  | WIFI_EVENT_other => w
  end.

(** The event loop task hands the events to [wifi_event_handler] one
    after the other. *)
Definition deliver (events : list esp_event) (w : world) : world :=
  fold_left (fun w e => wifi_event_handler e w) events w.

(** Enumerators of [FtpServer::Server] that the monitoring loop names;
    [ftpServer.h], which gives them their values, is not among the
    sources. *)
Record ftp_state_enum := {
  E_FTP_STE_DISABLED : Z;
  E_FTP_STE_READY : Z;
  E_FTP_STE_CONNECTED : Z;
  E_FTP_STE_CONTINUE_FILE_TX : Z;
  E_FTP_STE_CONTINUE_FILE_RX : Z;
  E_FTP_STE_END_TRANSFER : Z
}.

(** Local variables of the monitoring loop. *)
Record loop_vars := {
  last_ftp_state : Z;      (* int *)
  iteration : Z            (* uint32_t *)
}.

(** What the environment answers during one run of [app_main] up to the
    monitoring loop. *)
Record boot_env := {
  nvs_flash_init_first : esp_err_t;
  nvs_flash_erase_ret : esp_err_t;
  nvs_flash_init_second : esp_err_t;
  display_answers : display_env;     (* the drivers of suntonEsp32s3LcdInit *)
  spiflash_mount_ret : esp_err_t;
  spiflash_handle : Z;
  spi_bus_initialize_ret : esp_err_t;
  sdspi_mount_ret : esp_err_t;
  wifi_setup_ok : bool;              (* every ESP_ERROR_CHECK of wifi_init passes *)
  wifi_events : list esp_event;      (* delivered before xEventGroupWaitBits returns *)
  server_alloc : option Server       (* new FtpServer::Server() *)
}.

Inductive app_main_result :=
| Aborted                (* an ESP_ERROR_CHECK failed *)
| Returned               (* a return statement was reached *)
| MonitoringLoop.        (* while (1) was entered *)

Section Main.

(** Build-time constants that are not in the sources. *)
Variable CONFIG_FTP_USER : c_str.
Variable ste : ftp_state_enum.

(** [enabled] is what [ftpServer->isEnabled()] answers after the settle
    delay. *)
Definition ftp_control_handler (enabled : bool) (start : bool) (w : world)
    : world :=
  match ftpServer (main w) with
  | None => reset_ftp_operation_flag w
  | Some _ =>
      let w :=
        if start then
          let w := emit Server_start w in
          let w := emit (vTaskDelay 500) w in
          let w := emit Server_isEnabled w in
          if enabled then
            let w := addLog (Some (lit "#00ff00 [OK] FTP server started#")) w in
            let w := update_status (lit "Ready") w in
            let ftp_msg :=
              snprintf 64 (lit "User: " ++ CONFIG_FTP_USER ++ lit " | Port: 21") in
            addLog (Some ftp_msg) w
          else
            let w := addLog (Some (lit "#ff0000 [!!] FTP failed to start#")) w in
            let w := update_status (lit "Error") w in
            set_server_switch_state false w
        else
          let w := emit Server_stop w in
          let w := addLog (Some (lit "#00ff00 [OK] FTP server stopped#")) w in
          update_status (lit "Stopped") w
      in
      reset_ftp_operation_flag w
  end.

(** [server_switch_event_cb] of ftpUiScreen.cpp; it is registered on
    [server_switch] only, so that widget is the event target.  The call
    through the pointer [ftp_control_callback] is [call]: [call f start]
    is what calling [f(start)] does. *)
Definition server_switch_event_cb_via (call : control_fn -> bool -> world -> world)
    (code : lv_event_code_t) (w : world) : world :=
  match code, server_switch (ui w) with
  | LV_EVENT_VALUE_CHANGED, Some is_checked =>
      if ftp_operation_in_progress (ui w) then
        if is_checked then with_ui (set_server_switch (Some false)) w
        else with_ui (set_server_switch (Some true)) w
      else
        let w := with_ui (set_ftp_operation_in_progress true) w in
        let w :=
          if is_checked then
            update_status (lit "Starting...")
              (addLog (Some (lit "Starting FTP server...")) w)
          else
            update_status (lit "Stopping...")
              (addLog (Some (lit "Stopping FTP server...")) w) in
        match ftp_control_callback (ui w) with
        | Some f => call f is_checked w
        | None => w
        end
  | _, _ => w
  end.

(** The one function a [control_fn] can point to. *)
Definition call_control_fn (enabled : bool) (f : control_fn) (start : bool)
    (w : world) : world :=
  match f with
  | ftp_control_handler_ptr => ftp_control_handler enabled start w
  end.

(** The callback with the pointer resolved. *)
Definition server_switch_event_cb (enabled : bool) (code : lv_event_code_t)
    (w : world) : world :=
  server_switch_event_cb_via (call_control_fn enabled) code w.

(** A user tap on the switch: LVGL flips [LV_STATE_CHECKED] and then
    sends [LV_EVENT_VALUE_CHANGED] to the registered callback. *)
Definition user_toggle_via (call : control_fn -> bool -> world -> world) (w : world)
    : world :=
  match server_switch (ui w) with
  | Some checked =>
      server_switch_event_cb_via call LV_EVENT_VALUE_CHANGED
        (with_ui (set_server_switch (Some (negb checked))) w)
  | None => w
  end.

Definition user_toggle (enabled : bool) (w : world) : world :=
  user_toggle_via (call_control_fn enabled) w.

(** [CHECKPOINT(msg)]: a line on the console and a delay of 50 ms. *)
Definition CHECKPOINT (w : world) : world := emit (vTaskDelay 50) w.

(** Phase 1 of [app_main]: [true] when neither [ESP_ERROR_CHECK] fires. *)
Definition core_init (env : boot_env) : bool :=
  let ret := nvs_flash_init_first env in
  if (ret =? ESP_ERR_NVS_NO_FREE_PAGES) || (ret =? ESP_ERR_NVS_NEW_VERSION_FOUND)
  then (nvs_flash_erase_ret env =? ESP_OK) && (nvs_flash_init_second env =? ESP_OK)
  else ret =? ESP_OK.

(** Phase 4 of [app_main] up to the test of [has_storage]. *)
Definition storage_init (env : boot_env) (w : world) : bool * world :=
  let w := addLog (Some (lit "Initializing storage...")) w in
  let has_storage := false in
  let w := with_main (set_wl_handle
             (mountFATFS (spiflash_mount_ret env) (spiflash_handle env))) w in
  let has_storage := if 0 <=? wl_handle (main w) then true else has_storage in
  let (sd_ret, w) :=
    mountSDCARD (spi_bus_initialize_ret env) (sdspi_mount_ret env) w in
  let has_storage := if sd_ret =? ESP_OK then true else has_storage in
  (has_storage, w).

(** [wifi_init] followed by the events that arrive while [app_main]
    waits on the event group; the flag is [false] when an
    [ESP_ERROR_CHECK] of [wifi_init] fires. *)
Definition wifi_init (env : boot_env) (w : world) : bool * world :=
  let w := emit wifi_init_call (with_main (set_s_wifi_event_group 0) w) in
  if wifi_setup_ok env then (true, deliver (wifi_events env) w) else (false, w).

(** Phases 5 to 8 of [app_main], up to the entry of the monitoring loop. *)
Definition connect_and_serve (env : boot_env) (w : world) : app_main_result * world :=
  (* Phase 5 *)
  let w := CHECKPOINT w in
  let w := addLog (Some (lit "Connecting to WiFi...")) w in
  let (ok, w) := wifi_init env w in
  if negb ok then (Aborted, w) else
  let bits := s_wifi_event_group (main w) in
  let w :=
    if negb (Z.land bits WIFI_CONNECTED_BIT =? 0) then
      addLog (Some (lit "#00ff00 [OK] WiFi connected#")) w
    else if negb (Z.land bits WIFI_FAIL_BIT =? 0) then
      addLog (Some (lit "#ff0000 [!!] WiFi failed#")) w
    else
      addLog (Some (lit "#ff0000 [!!] WiFi timeout#")) w in
  let w := CHECKPOINT w in
  (* Phase 6 *)
  let w := CHECKPOINT w in
  let w :=
    if negb (Z.land bits WIFI_CONNECTED_BIT =? 0) then
      emit initialize_sntp_call (addLog (Some (lit "Syncing time...")) w)
    else w in
  let w := CHECKPOINT w in
  (* Phase 7 *)
  let w := CHECKPOINT w in
  let w := emit new_Server (with_main (set_ftpServer (server_alloc env)) w) in
  match ftpServer (main w) with
  | None =>
      (Returned, addLog (Some (lit "#ff0000 [!!] ERROR: FTP alloc failed#")) w)
  | Some _ =>
      let w := emit register_screen_log_callback w in
      let w := addLog (Some (lit "#00ff00 [OK] FTP server ready#")) w in
      let w := update_status (lit "Stopped") w in
      let w := CHECKPOINT w in
      (* Phase 8 *)
      (MonitoringLoop, addLog (Some (lit "#00ff00 [OK] === System Ready ===#")) w)
  end.

(** Phases 3 and 4 of [app_main] and, with storage, the phases after
    them. *)
Definition screen_and_storage (env : boot_env) (w : world) : app_main_result * world :=
  (* Phase 3 *)
  let w := CHECKPOINT w in
  let w := create_screen_ftp w in
  let w := with_main (set_screen_created true) w in
  let w := register_ftp_control_callback (Some ftp_control_handler_ptr) w in
  let w := addLog (Some (lit "=== System Starting ===")) w in
  let w := CHECKPOINT w in
  (* Phase 4 *)
  let w := CHECKPOINT w in
  let (has_storage, w) := storage_init env w in
  if negb has_storage then
    (Returned, addLog (Some (lit "#ff0000 [!!] No storage - cannot start FTP#")) w)
  else
  let w := emit log_storage_info_call w in
  let w := CHECKPOINT w in
  connect_and_serve env w.

(** [app_main] from reset to the entry of the monitoring loop.  The
    value [suntonEsp32s3LcdInit] returns is not looked at. *)
Definition app_main (env : boot_env) (w : world) : app_main_result * world :=
  (* Phase 1 *)
  let w := CHECKPOINT w in
  if negb (core_init env) then (Aborted, w) else
  let w := CHECKPOINT w in
  (* Phase 2 *)
  let w := CHECKPOINT w in
  match suntonEsp32s3LcdInit (display_answers env) (display w) with
  | Abort s => (Aborted, set_display s w)
  | Passed _ s =>
      let w := set_display s w in
      let w := CHECKPOINT w in
      screen_and_storage env w
  end.

(** The [switch (ftp_state & 0xFF)] of the monitoring loop. *)
Definition report_ftp_state (ftp_state : Z) (w : world) : world :=
  let s := Z.land ftp_state 0xFF in
  if s =? E_FTP_STE_DISABLED ste then
    update_status (lit "Disabled") (addLog (Some (lit "#ffaa00 [--] FTP: Disabled#")) w)
  else if s =? E_FTP_STE_READY ste then
    update_status (lit "Ready") (addLog (Some (lit "#00ff00 [OK] FTP: Ready#")) w)
  else if s =? E_FTP_STE_CONNECTED ste then
    update_status (lit "Client Connected")
      (addLog (Some (lit "#00ff00 [**] FTP Client Connected#")) w)
  else if s =? E_FTP_STE_CONTINUE_FILE_TX ste then
    update_status (lit "Sending File") (addLog (Some (lit "#00ffff [>>] Sending file...#")) w)
  else if s =? E_FTP_STE_CONTINUE_FILE_RX ste then
    update_status (lit "Receiving File")
      (addLog (Some (lit "#00ffff [<<] Receiving file...#")) w)
  else if s =? E_FTP_STE_END_TRANSFER ste then
    update_status (lit "Ready") (addLog (Some (lit "#00ff00 [OK] Transfer complete#")) w)
  else w.

(** The SD liveness block of the monitoring loop; [ret] is what
    [sdmmc_get_status] answers when it is asked. *)
Definition check_sdcard (iteration : Z) (ret : esp_err_t) (w : world) : world :=
  if (iteration mod 10 =? 0) && bool_decide (sdcard (main w) <> None) then
    let w := emit sdmmc_get_status w in
    if negb (ret =? ESP_OK) && sdcard_was_present (main w) then
      let w := addLog (Some (lit "#ff8800 [!!] SD Card removed!#")) w in
      with_main (set_sdcard_was_present false) w
    else if (ret =? ESP_OK) && negb (sdcard_was_present (main w)) then
      let w := addLog (Some (lit "#00ff00 [OK] SD Card accessible#")) w in
      with_main (set_sdcard_was_present true) w
    else w
  else w.

(** The "log FTP state changes" block of the monitoring loop:
    [ftp_state] is what [getState()] reports; the result is the new
    [last_ftp_state]. *)
Definition watch_ftp_state (ftp_state last : Z) (w : world) : Z * world :=
  let w := emit Server_getState w in
  if negb (ftp_state =? last)
  then (ftp_state, report_ftp_state ftp_state w)
  else (last, w).

(** One round of [while (1)]. *)
Definition monitor_tick (ftp_state : Z) (sd_ret : esp_err_t)
    (s : loop_vars * world) : loop_vars * world :=
  let (v, w) := s in
  let (last, w) := watch_ftp_state ftp_state (last_ftp_state v) w in
  let w := check_sdcard (iteration v) sd_ret w in
  ({| last_ftp_state := last; iteration := (iteration v + 1) mod 2 ^ 32 |},
   emit (vTaskDelay 1000) w).

Definition loop_entry : loop_vars := {| last_ftp_state := -1; iteration := 0 |}.

(** The monitoring loop over the answers of successive rounds. *)
Definition monitor_loop (answers : list (Z * esp_err_t))
    (s : loop_vars * world) : loop_vars * world :=
  fold_left (fun s a => monitor_tick a.1 a.2 s) answers s.

End Main.

(** The state at reset: every file-scope variable zero-initialised, no
    call made yet; [clk] gives the readings of the clock. *)
Definition power_on (clk : nat -> tm) : world :=
  {| ui := {| log_textarea := None; status_label := None; ip_label := None;
              server_switch := None; spinner := None;
              ftp_operation_in_progress := false; log_buffer := [];
              log_line_count := 0; ftp_control_callback := None |};
     main := {| ftpServer := None; s_wifi_event_group := 0; s_retry_num := 0;
               screen_created := false; sdcard_was_present := false;
               sdcard := None; wl_handle := 0 |};
     display := display_power_on;
     clock := clk; clock_reads := 0; trace := [] |}.

(** Number of entries of a trace that satisfy [p]. *)
Fixpoint count_calls (p : call -> bool) (t : list call) : nat :=
  match t with
  | [] => 0%nat
  | c :: r => ((if p c then 1 else 0) + count_calls p r)%nat
  end.

(** [fold] of [addLog] over successive messages. *)
Definition addLog_all (msgs : list (option c_str)) (w : world) : world :=
  fold_left (fun w m => addLog m w) msgs w.

(** ** Source/SettingsView.cpp *)

(** [isspace] and [isdigit] of the "C" locale. *)
Definition isspace (c : ascii) : bool :=
  let n := nat_of_ascii c in
  Nat.eqb n 32 || (Nat.leb 9 n && Nat.leb n 13).

Definition isdigit (c : ascii) : bool :=
  let n := nat_of_ascii c in
  Nat.leb 48 n && Nat.leb n 57.

Fixpoint skip_spaces (s : c_str) : c_str :=
  match s with
  | c :: r => if isspace c then skip_spaces r else s
  | [] => []
  end.

(** The value of the leading digits of [s], continuing from [acc]. *)
Fixpoint leading_digits (acc : Z) (s : c_str) : Z :=
  match s with
  | c :: r =>
      if isdigit c then leading_digits (acc * 10 + (Z.of_nat (nat_of_ascii c) - 48)) r
      else acc
  | [] => acc
  end.

(** [atoi]: white space, an optional sign, digits.  The result is the
    mathematical value; C defines [atoi] only where it fits an [int]. *)
Definition atoi (s : c_str) : Z :=
  match skip_spaces s with
  | c :: r =>
      if Ascii.eqb c "-" then - leading_digits 0 r
      else if Ascii.eqb c "+" then leading_digits 0 r
      else leading_digits 0 (c :: r)
  | [] => 0
  end.

(** The digits of [n >= 0], most significant first; [fuel] bounds their
    number. *)
Fixpoint dec_digits (fuel : nat) (n : Z) : c_str :=
  match fuel with
  | O => []
  | S f =>
      if n <? 10 then [digit (Z.to_nat n)]
      else dec_digits f (n / 10) ++ [digit (Z.to_nat (n mod 10))]
  end.

(** ["%d"] of an [int]: at most a sign and ten digits. *)
Definition print_int (n : Z) : c_str :=
  if n <? 0 then "-"%char :: dec_digits 10 (- n) else dec_digits 10 n.

(** The members of [SettingsView] as SettingsView.cpp uses them
    (SettingsView.h, which declares them, is not among the sources).  A
    text area is its text; [None] is [nullptr].  A callback is either
    set or empty. *)
Record SettingsView := {
  usernameInput : option c_str;
  passwordInput : option c_str;
  portInput : option c_str;
  currentUsername : c_str;
  currentPassword : c_str;
  currentPort : Z;
  onSave : bool;
  onCancel : bool
}.

(** Invocations of the two callbacks. *)
Inductive view_call :=
| onSave_call (username password : c_str) (port : Z)
| onCancel_call.

Definition handleCancel (v : SettingsView) : list view_call :=
  if onCancel v then [onCancel_call] else [].

(** [lv_textarea_get_text] hands back the text of the text area, which
    is never null. *)
Definition handleSave (v : SettingsView) : list view_call :=
  match usernameInput v, passwordInput v, portInput v with
  | Some newUser, Some newPass, Some newPortStr =>
      let port := currentPort v in
      let port :=
        if 0 <? strlen newPortStr then
          let p := atoi newPortStr in
          if (0 <? p) && (p <=? 65535) then p else port
        else port in
      if onSave v then [onSave_call newUser newPass port] else []
  | _, _, _ => if onCancel v then [onCancel_call] else []
  end.

(** [onStart]: the three text areas are created and filled. *)
Definition onStart (username password : c_str) (port : Z) (v : SettingsView)
    : SettingsView :=
  {| usernameInput := Some username;
     passwordInput := Some password;
     portInput := Some (snprintf 8 (print_int port));
     currentUsername := username;
     currentPassword := password;
     currentPort := port;
     onSave := onSave v;
     onCancel := onCancel v |}.

Definition onStop (v : SettingsView) : SettingsView :=
  {| usernameInput := None;
     passwordInput := None;
     portInput := None;
     currentUsername := currentUsername v;
     currentPassword := currentPassword v;
     currentPort := currentPort v;
     onSave := onSave v;
     onCancel := onCancel v |}.

(** A user edit of the port field replaces its text. *)
Definition edit_port (text : c_str) (v : SettingsView) : SettingsView :=
  {| usernameInput := usernameInput v;
     passwordInput := passwordInput v;
     portInput := match portInput v with Some _ => Some text | None => None end;
     currentUsername := currentUsername v;
     currentPassword := currentPassword v;
     currentPort := currentPort v;
     onSave := onSave v;
     onCancel := onCancel v |}.

(** * Observations and statements

    What the properties below observe of a state or a trace, the
    predicates their statements are written with, and the sample
    states and environments they are evaluated on. *)

Section Statements.

(** Build-time constants that are not in the sources. *)
Variable CONFIG_FTP_USER : c_str.
Variable ste : ftp_state_enum.

(** [current_len] tracks the length of the buffer, which fits the array. *)
Definition regs_ok (r : log_regs) : Prop :=
  r_current_len r = strlen (r_buffer r) /\ strlen (r_buffer r) <= 4999.

(** The line [addLog] builds from the next clock reading. *)
Definition next_log_line (msg : c_str) (w : world) : c_str :=
  format_log_line (strftime_HMS (clock w (clock_reads w))) msg.

(** The budgets as an invariant of the state. *)
Definition log_within_budget (w : world) : Prop :=
  strlen (log_buffer (ui w)) + 1 <= sizeof_log_buffer /\
  0 <= log_line_count (ui w) <= MAX_LOG_LINES.

(** Number of line terminators in a text: the lines it holds. *)
Fixpoint terminators (s : c_str) : Z :=
  match s with
  | [] => 0
  | c :: r => (if Ascii.eqb c NL then 1 else 0) + terminators r
  end.

(** A message, if there is one, without a line terminator in it. *)
Definition on_one_line (m : option c_str) : Prop :=
  forall t, m = Some t -> NL ∉ t.

(** A message of three lines. *)
Definition three_lines : c_str := lit "a" ++ [NL] ++ lit "b" ++ [NL] ++ lit "c".

(** The budgets after [k] of the calls [msgs]. *)
Definition budgets_kept (msgs : list (option c_str)) (k : nat) (w : world) : Prop :=
  let w' := addLog_all (take k msgs) (create_screen_ftp w) in
  strlen (log_buffer (ui w')) + 1 <= 5000 /\
  0 <= log_line_count (ui w') <= 50 /\
  (Forall on_one_line msgs ->
   0 <= terminators (log_buffer (ui w')) <= log_line_count (ui w')).

(** What [addLog] does with an over-long message: the line it adds and
    what is left of the earlier text. *)
Definition overlong_appended (msg : c_str) (w : world) : Prop :=
  let line :=
    lit "[" ++ strftime_HMS (clock w (clock_reads w)) ++ lit "] " ++ take 88 msg in
  let w' := addLog (Some msg) w in
  strlen line = 99 /\
  (exists kept, kept `suffix_of` log_buffer (ui w) /\
                log_buffer (ui w') = kept ++ line) /\
  1 <= log_line_count (ui w') <= MAX_LOG_LINES /\
  (strlen (log_buffer (ui w)) + 99 <= sizeof_log_buffer - 1 ->
   log_line_count (ui w) < MAX_LOG_LINES ->
   log_buffer (ui w') = log_buffer (ui w) ++ line /\
   log_line_count (ui w') = log_line_count (ui w) + 1).

Definition noon : nat -> tm := fun _ => {| tm_hour := 12; tm_min := 0; tm_sec := 0 |}.

Definition is_start_stop (c : call) : bool :=
  match c with Server_start | Server_stop => true | _ => false end.

Definition is_start (c : call) : bool :=
  match c with Server_start => true | _ => false end.

Definition is_stop (c : call) : bool :=
  match c with Server_stop => true | _ => false end.

(** The state in which [server_switch_event_cb] calls the registered
    handler: flag set, transition logged and shown. *)
Definition toggle_announced (is_checked : bool) (w : world) : world :=
  let w := with_ui (set_ftp_operation_in_progress true) w in
  if is_checked then
    update_status (lit "Starting...") (addLog (Some (lit "Starting FTP server...")) w)
  else
    update_status (lit "Stopping...") (addLog (Some (lit "Stopping FTP server...")) w).

(** What a tap on the switch leads to.  [call] ranges over everything
    the function behind the pointer could do, so [w1] is the state in
    which the pointer is called, and with the flag set nothing is called. *)
Definition single_flight (enabled c : bool) (w : world) : Prop :=
  let w' := user_toggle CONFIG_FTP_USER enabled w in
  (ftp_operation_in_progress (ui w) = true ->
   w' = w /\ forall call, user_toggle_via call w = w) /\
  (ftp_operation_in_progress (ui w) = false ->
   exists w1,
     (forall call,
        user_toggle_via call w = call ftp_control_handler_ptr (negb c) w1) /\
     w' = ftp_control_handler CONFIG_FTP_USER enabled (negb c) w1 /\
     ftp_operation_in_progress (ui w1) = true /\
     status_label (ui w1)
       = Some (if negb c then lit "Starting..." else lit "Stopping...") /\
     count_calls is_start_stop (trace w1) = count_calls is_start_stop (trace w) /\
     count_calls is_start_stop (trace w') =
       (count_calls is_start_stop (trace w)
        + match ftpServer (main w) with Some _ => 1 | None => 0 end)%nat /\
     count_calls is_start (trace w') =
       (count_calls is_start (trace w)
        + match ftpServer (main w) with
          | Some _ => if negb c then 1 else 0
          | None => 0
          end)%nat /\
     count_calls is_stop (trace w') =
       (count_calls is_stop (trace w)
        + match ftpServer (main w) with
          | Some _ => if negb c then 0 else 1
          | None => 0
          end)%nat).

Definition screen_before_service : world :=
  register_ftp_control_callback (Some ftp_control_handler_ptr)
    (create_screen_ftp (power_on noon)).

Definition is_got_ip (e : esp_event) : bool :=
  match e with IP_EVENT_STA_GOT_IP _ => true | _ => false end.

Definition is_disconnect (e : esp_event) : bool :=
  match e with WIFI_EVENT_STA_DISCONNECTED => true | _ => false end.

(** Number of [STA_DISCONNECTED] events in a run of events. *)
Definition disconnects (events : list esp_event) : nat :=
  length (List.filter is_disconnect events).

Definition is_connect (c : call) : bool :=
  match c with esp_wifi_connect => true | _ => false end.

(** [esp_wifi_connect] calls made so far. *)
Definition connects (w : world) : nat := count_calls is_connect (trace w).

(** [WIFI_FAIL_BIT], bit 1 of the event group, is set. *)
Definition fail_bit_set (w : world) : Prop :=
  Z.testbit (s_wifi_event_group (main w)) 1 = true.

(** What a run of events without [GOT_IP] leads to. *)
Definition retry_budget_spent (events : list esp_event) (k : nat) (w : world) : Prop :=
  let w' := deliver events w in
  ((11 <= disconnects events)%nat -> fail_bit_set w') /\
  ((10 <= disconnects events)%nat ->
   connects (deliver (repeat WIFI_EVENT_STA_DISCONNECTED k) w') = connects w').

(** The state [wifi_init] starts from when storage is there. *)
Definition screen_on : world :=
  with_main (set_screen_created true) screen_before_service.

(** [mountFATFS] hands back a usable handle. *)
Definition flash_mounted (env : boot_env) : bool :=
  0 <=? mountFATFS (spiflash_mount_ret env) (spiflash_handle env).

(** [mountSDCARD] answers [ESP_OK]: the bus came up and the card mounted. *)
Definition sd_mounted (env : boot_env) : bool :=
  (spi_bus_initialize_ret env =? ESP_OK) && (sdspi_mount_ret env =? ESP_OK).

Definition is_wifi_init (c : call) : bool :=
  match c with wifi_init_call => true | _ => false end.

Definition is_new_Server (c : call) : bool :=
  match c with new_Server => true | _ => false end.

(** Calls that neither the log pipeline nor the WiFi handler makes. *)
Definition foreign_to_events (p : call -> bool) : Prop :=
  (forall t, p (lv_textarea_set_text t) = false) /\
  p lv_obj_scroll_to_y = false /\
  (forall t, p (lv_label_set_text_status t) = false) /\
  (forall t, p (lv_label_set_text_ip t) = false) /\
  p esp_wifi_connect = false /\
  (forall b, p (xEventGroupSetBits b) = false).

(** What [app_main], started from reset, makes of the two mounts. *)
Definition storage_gate (env : boot_env) (clk : nat -> tm) : Prop :=
  let r := app_main env (power_on clk) in
  (forall w, (storage_init env w).1 = flash_mounted env || sd_mounted env) /\
  count_calls is_wifi_init (trace r.2)
    = (if flash_mounted env || sd_mounted env then 1 else 0)%nat /\
  (flash_mounted env = false /\ sd_mounted env = false <->
   r.1 = Returned /\
   count_calls is_wifi_init (trace r.2) = 0%nat /\
   count_calls is_new_Server (trace r.2) = 0%nat /\
   ftpServer (main r.2) = None).

Definition no_storage_env : boot_env :=
  {| nvs_flash_init_first := ESP_OK; nvs_flash_erase_ret := ESP_OK;
     nvs_flash_init_second := ESP_OK;
     display_answers := display_ok_env;
     spiflash_mount_ret := ESP_FAIL; spiflash_handle := 0;
     spi_bus_initialize_ret := ESP_OK; sdspi_mount_ret := ESP_FAIL;
     wifi_setup_ok := true; wifi_events := [];
     server_alloc := Some ServerInstance |}.

(** The low byte of the reported state is one of the six case labels. *)
Definition listed (ste : ftp_state_enum) (ftp_state : Z) : bool :=
  let s := Z.land ftp_state 0xFF in
  (s =? E_FTP_STE_DISABLED ste) || (s =? E_FTP_STE_READY ste) ||
  (s =? E_FTP_STE_CONNECTED ste) || (s =? E_FTP_STE_CONTINUE_FILE_TX ste) ||
  (s =? E_FTP_STE_CONTINUE_FILE_RX ste) || (s =? E_FTP_STE_END_TRANSFER ste).

Definition is_status_update (c : call) : bool :=
  match c with lv_label_set_text_status _ => true | _ => false end.

Definition is_log_update (c : call) : bool :=
  match c with lv_textarea_set_text _ => true | _ => false end.

Definition is_sd_status (c : call) : bool :=
  match c with sdmmc_get_status => true | _ => false end.

(** What one round of the loop does about the service state: [v] holds
    the loop variables at its start, [ftp_state] is what [getState()]
    reports, and [answers] are the reports of any number of rounds. *)
Definition state_change_reported (ftp_state : Z) (sd_ret : esp_err_t)
    (answers : list (Z * esp_err_t)) (v : loop_vars) (w : world) : Prop :=
  let poll := watch_ftp_state ste ftp_state (last_ftp_state v) w in
  let round := monitor_tick ste ftp_state sd_ret (v, w) in
  let emitted :=
    if negb (ftp_state =? last_ftp_state v) && listed ste ftp_state
    then 1%nat else 0%nat in
  count_calls is_status_update (trace round.2)
    = (count_calls is_status_update (trace w) + emitted)%nat /\
  count_calls is_log_update (trace poll.2)
    = (count_calls is_log_update (trace w) + emitted)%nat /\
  last_ftp_state round.1 = ftp_state /\
  (Forall (fun a => a.1 = last_ftp_state v) answers ->
   count_calls is_status_update (trace (monitor_loop ste answers (v, w)).2)
   = count_calls is_status_update (trace w)).

(** A boot with internal flash only, WiFi connected, service allocated. *)
Definition flash_only_env : boot_env :=
  {| nvs_flash_init_first := ESP_OK; nvs_flash_erase_ret := ESP_OK;
     nvs_flash_init_second := ESP_OK;
     display_answers := display_ok_env;
     spiflash_mount_ret := ESP_OK; spiflash_handle := 0;
     spi_bus_initialize_ret := ESP_OK; sdspi_mount_ret := ESP_FAIL;
     wifi_setup_ok := true;
     wifi_events := [WIFI_EVENT_STA_START; IP_EVENT_STA_GOT_IP 0x0A01A8C0];
     server_alloc := Some ServerInstance |}.

(** The state in which that boot enters the monitoring loop. *)
Definition monitoring_entry : world := (app_main flash_only_env (power_on noon)).2.

(** The six enumerators numbered in the order of the switch. *)
Definition ste_switch_order : ftp_state_enum :=
  {| E_FTP_STE_DISABLED := 0; E_FTP_STE_READY := 1; E_FTP_STE_CONNECTED := 2;
     E_FTP_STE_CONTINUE_FILE_TX := 3; E_FTP_STE_CONTINUE_FILE_RX := 4;
     E_FTP_STE_END_TRANSFER := 5 |}.

(** The two SD variables of [main.cpp]. *)
Definition sd_vars (w : world) : option sdmmc_card_t * bool :=
  (sdcard (main w), sdcard_was_present (main w)).

(** The end of a text whose last line was printed for [message]. *)
Definition log_line_of (message : c_str) : c_str := lit "] " ++ message ++ [NL].

(** The text area is given a text whose last line is that of [message]. *)
Definition announces (message : c_str) (c : call) : bool :=
  match c with
  | lv_textarea_set_text t => bool_decide (log_line_of message `suffix_of` t)
  | _ => false
  end.

(** Neither line can be taken for the end of the other. *)
Definition told_apart (m1 m2 : c_str) : bool :=
  negb (bool_decide (log_line_of m1 `suffix_of` log_line_of m2))
  && negb (bool_decide (log_line_of m2 `suffix_of` log_line_of m1)).

Definition sd_removed_message : c_str := lit "#ff8800 [!!] SD Card removed!#".
Definition sd_accessible_message : c_str := lit "#00ff00 [OK] SD Card accessible#".

(** What the card answers in the rounds 0, 10, 20, ... of the loop, for
    the answers of the rounds from round [k] on. *)
Fixpoint every_tenth (k : nat) (answers : list (Z * esp_err_t)) : list esp_err_t :=
  match answers with
  | [] => []
  | a :: rest =>
      (if Z.of_nat k mod 10 =? 0 then [a.2] else []) ++ every_tenth (S k) rest
  end.

(** The changes of presence in successive answers of the card, [seen]
    being its presence before them: [true] for a card that is there
    again, [false] for one that is gone. *)
Fixpoint presence_changes (seen : bool) (checks : list esp_err_t) : list bool :=
  match checks with
  | [] => []
  | ret :: rest =>
      (if Bool.eqb (ret =? ESP_OK) seen then [] else [ret =? ESP_OK])
      ++ presence_changes (ret =? ESP_OK) rest
  end.

(** The presence after the last of the answers. *)
Definition last_presence (seen : bool) (checks : list esp_err_t) : bool :=
  fold_left (fun _ ret => ret =? ESP_OK) checks seen.

Definition count_of (b : bool) (l : list bool) : nat :=
  length (List.filter (Bool.eqb b) l).

(** What the loop does about the SD card after a boot that reached it:
    [answers] are the answers of its first rounds. *)
Definition sd_liveness (env : boot_env) (clk : nat -> tm)
    (answers : list (Z * esp_err_t)) : Prop :=
  let w := (app_main env (power_on clk)).2 in
  let w' := (monitor_loop ste answers (loop_entry, w)).2 in
  let checks := if sd_mounted env then every_tenth 0 answers else [] in
  let changes := presence_changes false checks in
  sd_vars w = (if sd_mounted env then Some SdCard else None, false) /\
  count_calls is_sd_status (trace w')
    = (count_calls is_sd_status (trace w) + length checks)%nat /\
  count_calls (announces sd_removed_message) (trace w')
    = (count_calls (announces sd_removed_message) (trace w)
       + count_of false changes)%nat /\
  count_calls (announces sd_accessible_message) (trace w')
    = (count_calls (announces sd_accessible_message) (trace w)
       + count_of true changes)%nat /\
  sd_vars w' = (sdcard (main w), last_presence false checks).

(** A boot with both stores, WiFi connected, service allocated. *)
Definition both_stores_env : boot_env :=
  {| nvs_flash_init_first := ESP_OK; nvs_flash_erase_ret := ESP_OK;
     nvs_flash_init_second := ESP_OK;
     display_answers := display_ok_env;
     spiflash_mount_ret := ESP_OK; spiflash_handle := 0;
     spi_bus_initialize_ret := ESP_OK; sdspi_mount_ret := ESP_OK;
     wifi_setup_ok := true;
     wifi_events := [WIFI_EVENT_STA_START; IP_EVENT_STA_GOT_IP 0x0A01A8C0];
     server_alloc := Some ServerInstance |}.

(** The loop after a boot that mounted the card, when the card is gone
    by the first round and stays away for eleven rounds, and when it is
    there in the first round. *)
Definition card_gone_run : world :=
  (monitor_loop ste_switch_order (repeat (1, ESP_FAIL) 11)
     (loop_entry, (app_main both_stores_env (power_on noon)).2)).2.

Definition card_there_run : world :=
  (monitor_loop ste_switch_order [(1, ESP_OK)]
     (loop_entry, (app_main both_stores_env (power_on noon)).2)).2.

(** A message of 10 bytes on one line. *)
Definition one_line (m : c_str) : Prop := length m = 10%nat /\ NL ∉ m.

(** The line of a message short enough to be printed whole. *)
Definition full_line (timestamp message : c_str) : c_str :=
  lit "[" ++ timestamp ++ lit "] " ++ message ++ [NL].

(** The lines of successive messages, stamped with the clock readings
    from the [k]-th on. *)
Fixpoint lines_from (clk : nat -> tm) (k : nat) (msgs : list c_str) : list c_str :=
  match msgs with
  | [] => []
  | m :: rest => full_line (strftime_HMS (clk k)) m :: lines_from clk (S k) rest
  end.

(** What 51 messages leave in the ring. *)
Definition last_fifty_kept (msgs : list c_str) (w : world) : Prop :=
  let w' := addLog_all (Some <$> msgs) (create_screen_ftp w) in
  log_buffer (ui w')
    = concat (drop 1 (lines_from (clock w) (clock_reads w) msgs)) /\
  length (drop 1 (lines_from (clock w) (clock_reads w) msgs)) = 50%nat /\
  log_line_count (ui w') = 50 /\
  log_textarea (ui w') = Some (log_buffer (ui w')).

(** Ten bytes: ["message"] and a three-digit number. *)
Definition numbered (n : nat) : c_str :=
  lit "message" ++ [digit (n / 100); digit (n / 10); digit n].

Definition fifty_one_messages : list c_str := numbered <$> seq 0 51.

End Statements.

(** ** Further statements: the log ring *)

(** A message short enough to be printed whole, on one line. *)
Definition plain (m : c_str) : Prop := (length m <= 87)%nat /\ (NL ∉ m).

(** A line as the ring holds it: some text without a line terminator,
    then the terminator, 99 bytes at most. *)
Definition whole_line (l : c_str) : Prop :=
  exists body, l = body ++ [NL] /\ (NL ∉ body) /\ (length l <= 99)%nat.

(** The last [MAX_LOG_LINES] of a list of lines. *)
Definition last_lines (ls : list c_str) : list c_str :=
  drop (length ls - Z.to_nat MAX_LOG_LINES) ls.

(** What the ring holds after a run of plain messages. *)
Definition ring_holds_latest (msgs : list c_str) (w : world) : Prop :=
  let w' := addLog_all (Some <$> msgs) (create_screen_ftp w) in
  let lines := lines_from (clock w) (clock_reads w) msgs in
  log_buffer (ui w') = concat (last_lines lines) /\
  log_line_count (ui w') = Z.of_nat (length (last_lines lines)) /\
  length (last_lines lines) = Nat.min (length msgs) 50.

(** The operations on the log that the screen offers. *)
Inductive log_op :=
| LogMessage (message : option c_str)
| ClearLog
| ClearButton (code : lv_event_code_t).

Definition run_log_op (o : log_op) (w : world) : world :=
  match o with
  | LogMessage m => addLog m w
  | ClearLog => clearLog w
  | ClearButton code => clear_button_event_cb code w
  end.

Definition run_log_ops (ops : list log_op) (w : world) : world :=
  fold_left (fun w o => run_log_op o w) ops w.

(** The text area shows the buffer. *)
Definition shows_buffer (w : world) : Prop :=
  log_textarea (ui w) = Some (log_buffer (ui w)).

(** What one append does to the text. *)
Definition appended_at_end (msg : c_str) (w : world) : Prop :=
  let w' := addLog (Some msg) w in
  (exists kept, kept `suffix_of` log_buffer (ui w) /\
                log_buffer (ui w') = kept ++ next_log_line msg w) /\
  shows_buffer w' /\
  trace w' = trace w ++ [lv_textarea_set_text (log_buffer (ui w')); lv_obj_scroll_to_y].

(** What a click on the clear button leaves. *)
Definition cleared_by_button (w : world) : Prop :=
  let w' := clear_button_event_cb LV_EVENT_CLICKED w in
  log_buffer (ui w')
    = full_line (strftime_HMS (clock w (clock_reads w)))
        (lit "#00ff00 [OK] Log cleared#") /\
  log_line_count (ui w') = 1 /\
  shows_buffer w' /\
  clear_button_event_cb LV_EVENT_VALUE_CHANGED w = w /\
  clear_button_event_cb LV_EVENT_other w = w.

(** ** Further statements: the toggle *)

(** [update_status] lets the spinner spin for these texts. *)
Definition spins (status : c_str) : bool :=
  streq status (lit "Starting...") || streq status (lit "Stopping...")
  || streq status (lit "Ready") || strstr status (lit "File").

(** What the user sees of the control: the switch, the status text and
    whether the spinner is hidden. *)
Definition face (w : world) : option bool * option c_str * option bool :=
  (server_switch (ui w), status_label (ui w), spinner (ui w)).

Definition is_isEnabled (c : call) : bool :=
  match c with Server_isEnabled => true | _ => false end.

(** Where an accepted tap on the switch ends: [c] is what the switch
    showed before, [enabled] what the service reports after a start. *)
Definition toggle_settles (CONFIG_FTP_USER : c_str) (enabled c : bool) (w : world)
    : Prop :=
  let w' := user_toggle CONFIG_FTP_USER enabled w in
  ftp_operation_in_progress (ui w') = false /\
  face w' =
    (if c then (Some false, Some (lit "Stopped"), Some true)
     else if enabled then (Some true, Some (lit "Ready"), Some false)
     else (Some false, Some (lit "Error"), Some true)) /\
  count_calls is_isEnabled (trace w')
    = (count_calls is_isEnabled (trace w) + if c then 0 else 1)%nat /\
  shows_buffer w'.

(** ** Further statements: WiFi events *)

Definition is_sta_start (e : esp_event) : bool :=
  match e with WIFI_EVENT_STA_START => true | _ => false end.

(** Number of [STA_START] events in a run of events. *)
Definition sta_starts (events : list esp_event) : nat :=
  length (List.filter is_sta_start events).

(** [WIFI_CONNECTED_BIT], bit 0 of the event group, is set. *)
Definition connected_bit (w : world) : bool :=
  Z.testbit (s_wifi_event_group (main w)) 0.

(** [WIFI_FAIL_BIT] as a boolean. *)
Definition fail_bit (w : world) : bool :=
  Z.testbit (s_wifi_event_group (main w)) 1.

(** The retry counter is within its budget. *)
Definition retry_in_budget (w : world) : Prop := 0 <= s_retry_num (main w) <= 10.

(** How many reconnects a run of events without [GOT_IP] makes. *)
Definition connects_counted (events : list esp_event) (w : world) : Prop :=
  connects (deliver events w)
  = (connects w + sta_starts events
     + Nat.min (disconnects events) (Z.to_nat (10 - s_retry_num (main w))))%nat.

(** What a [GOT_IP] event does, and what [k] disconnects after it do. *)
Definition budget_renewed (addr : Z) (k : nat) (w : world) : Prop :=
  let w' := wifi_event_handler (IP_EVENT_STA_GOT_IP addr) w in
  s_retry_num (main w') = 0 /\
  connected_bit w' = true /\
  fail_bit w' = fail_bit w /\
  connects w' = connects w /\
  connects (deliver (repeat WIFI_EVENT_STA_DISCONNECTED k) w')
  = (connects w + Nat.min k 10)%nat.

(** What the event group holds after a run of events. *)
Definition bits_after (events : list esp_event) (w : world) : Prop :=
  connected_bit (deliver events w) = connected_bit w || existsb is_got_ip events /\
  (fail_bit w = true -> fail_bit (deliver events w) = true) /\
  (forall n, 2 <= n ->
     Z.testbit (s_wifi_event_group (main (deliver events w))) n
     = Z.testbit (s_wifi_event_group (main w)) n).

(** ** Further statements: the address shown *)

(** Value of a string of decimal digits. *)
Definition digits_value (s : c_str) : nat :=
  fold_left (fun acc c => (acc * 10 + (nat_of_ascii c - 48))%nat) s 0%nat.

(** What the IP label shows once an address is obtained. *)
Definition address_shown (addr : Z) (w : world) : Prop :=
  let w' := wifi_event_handler (IP_EVENT_STA_GOT_IP addr) w in
  ip_label (ui w') = Some (lit "IP: " ++ IPSTR addr) /\
  (7 <= length (IPSTR addr) <= 15)%nat /\
  count_calls (fun c => match c with lv_label_set_text_ip _ => true | _ => false end)
    (trace w')
  = S (count_calls (fun c => match c with lv_label_set_text_ip _ => true | _ => false end)
         (trace w)).

(** ** Further statements: the rounds of the monitoring loop *)

Definition is_getState (c : call) : bool :=
  match c with Server_getState => true | _ => false end.

Definition is_round_delay (c : call) : bool :=
  match c with vTaskDelay ms => ms =? 1000 | _ => false end.

(** What the monitoring loop leaves alone, and the two properties of
    the log it keeps. *)
Definition control_kept (w w' : world) : Prop :=
  server_switch (ui w') = server_switch (ui w) /\
  ftp_operation_in_progress (ui w') = ftp_operation_in_progress (ui w) /\
  ftp_control_callback (ui w') = ftp_control_callback (ui w) /\
  ftpServer (main w') = ftpServer (main w) /\
  screen_created (main w') = screen_created (main w) /\
  (shows_buffer w -> shows_buffer w') /\
  (log_within_budget w -> log_within_budget w').

(** What any number of rounds of [while (1)] amounts to. *)
Definition rounds_run (ste : ftp_state_enum) (answers : list (Z * esp_err_t))
    (v : loop_vars) (w : world) : Prop :=
  let r := monitor_loop ste answers (v, w) in
  let n := length answers in
  iteration r.1 = (iteration v + Z.of_nat n) mod 2 ^ 32 /\
  count_calls is_getState (trace r.2) = (count_calls is_getState (trace w) + n)%nat /\
  count_calls is_round_delay (trace r.2)
    = (count_calls is_round_delay (trace w) + n)%nat /\
  control_kept w r.2.

(** ** Further statements: the display *)

(** The state a run ends in, and what it returns if it comes back. *)
Definition final {A : Type} (r : checked A) : display_state :=
  match r with Passed _ s => s | Abort s => s end.

Definition returned {A : Type} (r : checked A) : option A :=
  match r with Passed a _ => Some a | Abort _ => None end.

(** Nothing is held that [cleanup_resources] would give back. *)
Definition released (s : display_state) : Prop :=
  touch_handle s = nullptr /\ panel_handle s = nullptr /\ i2c_initialized s = false.

Definition count_driver (p : display_call -> bool) (l : list display_call) : nat :=
  length (List.filter p l).

Definition is_port_init (c : display_call) : bool :=
  match c with lvgl_port_init => true | _ => false end.

Definition is_port_deinit (c : display_call) : bool :=
  match c with lvgl_port_deinit => true | _ => false end.

(** The stages of [suntonEsp32s3LcdInit] in terms of the answers. *)
Definition i2c_ok (env : display_env) : bool :=
  (i2c_param_config_ret env =? ESP_OK) && (i2c_driver_install_ret env =? ESP_OK).

Definition panel_ok (env : display_env) : bool :=
  (new_rgb_panel_ret env =? ESP_OK) && (panel_reset_ret env =? ESP_OK)
  && (panel_init_ret env =? ESP_OK).

Definition backlight_ok (env : display_env) : bool :=
  (ledc_timer_config_ret env =? ESP_OK) && (ledc_channel_config_ret env =? ESP_OK)
  && (ledc_set_duty_ret env =? ESP_OK) && (ledc_update_duty_ret env =? ESP_OK).

Definition touch_ok (env : display_env) : bool :=
  (new_panel_io_i2c_ret env =? ESP_OK) && (new_i2c_gt911_ret env =? ESP_OK).

Definition port_ok (env : display_env) : bool :=
  lvgl_port_init_ret env =? ESP_OK.

Definition added_ok (env : display_env) : bool :=
  negb (add_disp_rgb_ret env =? nullptr) && negb (add_touch_ret env =? nullptr).

Definition display_all_ok (env : display_env) : bool :=
  i2c_ok env && panel_ok env && backlight_ok env && touch_ok env && port_ok env
  && added_ok env.

(** What [cleanup_resources] amounts to. *)
Definition cleanup_settles (s : display_state) : Prop :=
  released (cleanup_resources s) /\
  cleanup_resources (cleanup_resources s) = cleanup_resources s /\
  (released s -> cleanup_resources s = s) /\
  lvgl_disp (cleanup_resources s) = lvgl_disp s /\
  backlight_initialized (cleanup_resources s) = backlight_initialized s /\
  exists gone,
    driver_calls (cleanup_resources s) = driver_calls s ++ gone /\
    gone = (if touch_handle s =? nullptr then [] else [esp_lcd_touch_del (touch_handle s)])
           ++ (if panel_handle s =? nullptr then []
               else [esp_lcd_panel_del (panel_handle s)])
           ++ (if i2c_initialized s then [i2c_driver_delete] else []).

(** How [suntonEsp32s3LcdInit] ends. *)
Definition lcd_init_result (env : display_env) (s : display_state) : Prop :=
  let r := suntonEsp32s3LcdInit env s in
  (display_all_ok env = true <-> exists p, returned r = Some p /\ p <> nullptr) /\
  (i2c_ok env && panel_ok env && negb (backlight_ok env) = true <-> returned r = None).

(** The run in which every stage succeeds. *)
Definition display_up (env : display_env) (s : display_state) : Prop :=
  let r := suntonEsp32s3LcdInit env s in
  let s' := final r in
  returned r = Some (add_disp_rgb_ret env) /\
  lvgl_disp s' = add_disp_rgb_ret env /\
  backlight_initialized s' = true /\
  i2c_initialized s' = true /\
  panel_handle s' = default (panel_handle s) (new_rgb_panel_out env) /\
  touch_handle s' = default (touch_handle s) (new_i2c_gt911_out env) /\
  driver_calls s'
  = driver_calls s ++
    [i2c_param_config; i2c_driver_install;
     esp_lcd_new_rgb_panel; esp_lcd_panel_reset (panel_handle s');
     esp_lcd_panel_init (panel_handle s');
     ledc_timer_config; ledc_channel_config; ledc_set_duty 255; ledc_update_duty;
     esp_lcd_new_panel_io_i2c; esp_lcd_touch_new_i2c_gt911;
     lvgl_port_init;
     lvgl_port_add_disp_rgb (panel_handle s');
     lvgl_port_add_touch (lvgl_disp s') (touch_handle s')].

(** [lvgl_port_init] and [lvgl_port_deinit] over one run. *)
Definition port_paired (env : display_env) (s : display_state) : Prop :=
  let s' := final (suntonEsp32s3LcdInit env s) in
  let reached := i2c_ok env && panel_ok env && backlight_ok env && touch_ok env in
  count_driver is_port_init (driver_calls s')
  = (count_driver is_port_init (driver_calls s) + if reached then 1 else 0)%nat /\
  count_driver is_port_deinit (driver_calls s')
  = (count_driver is_port_deinit (driver_calls s)
     + if reached && port_ok env && negb (added_ok env) then 1 else 0)%nat.

(** What a run that fails after the backlight came up leaves behind. *)
Definition backlight_survives (env : display_env) (brightness : Z)
    (s : display_state) : Prop :=
  let s' := final (suntonEsp32s3LcdInit env s) in
  backlight_initialized s' = true /\
  suntonEsp32s3SetBrightness brightness ESP_OK ESP_OK s'
  = Passed tt (drv ledc_update_duty (drv (ledc_set_duty brightness) s')) /\
  (touch_ok env && port_ok env && negb (add_disp_rgb_ret env =? nullptr) = true ->
   lvgl_disp s' = add_disp_rgb_ret env /\ lvgl_disp s' <> nullptr).

(** ** Further statements: the boot *)

(** No [ESP_ERROR_CHECK] of the backlight fires: [suntonEsp32s3LcdInit]
    comes back, with a display or with [nullptr]. *)
Definition display_comes_back (env : boot_env) : bool :=
  let d := display_answers env in
  negb (i2c_ok d && panel_ok d && negb (backlight_ok d)).

(** [has_storage] as [app_main] computes it from the two mounts. *)
Definition has_storage (env : boot_env) : bool := flash_mounted env || sd_mounted env.

Definition is_sntp (c : call) : bool :=
  match c with initialize_sntp_call => true | _ => false end.


(** When [app_main] starts the time synchronisation. *)
Definition time_sync_started (env : boot_env) (w : world) : Prop :=
  count_calls is_sntp (trace (app_main env w).2)
  = (count_calls is_sntp (trace w)
     + if core_init env && display_comes_back env && has_storage env
          && wifi_setup_ok env && existsb is_got_ip (wifi_events env)
       then 1 else 0)%nat.

(** The state in which the monitoring loop is entered; [w] is the
    state [app_main] started from. *)
Definition ready_for_service (env : boot_env) (w w' : world) : Prop :=
  ftpServer (main w') = server_alloc env /\
  ftpServer (main w') <> None /\
  screen_created (main w') = true /\
  ftp_control_callback (ui w') = Some ftp_control_handler_ptr /\
  ftp_operation_in_progress (ui w') = ftp_operation_in_progress (ui w) /\
  face w' = (Some false, Some (lit "Stopped"), Some true) /\
  shows_buffer w' /\
  log_within_budget w'.

(** The part of the state that logging and the WiFi events leave alone,
    and the two properties of the log they keep. *)
Definition log_step (w w' : world) : Prop :=
  face w' = face w /\
  ftp_control_callback (ui w') = ftp_control_callback (ui w) /\
  ftp_operation_in_progress (ui w') = ftp_operation_in_progress (ui w) /\
  screen_created (main w') = screen_created (main w) /\
  ftpServer (main w') = ftpServer (main w) /\
  (shows_buffer w -> shows_buffer w') /\
  (log_within_budget w -> log_within_budget w').

(** ** Further statements: giving the storage back *)

(** What the two unmount functions do with what the two mounts of
    [app_main] left; [unmount_ret] is the answer of
    [esp_vfs_fat_sdcard_unmount]. *)
Definition storage_given_back (env : boot_env) (unmount_ret : esp_err_t) (w : world)
    : Prop :=
  let h := mountFATFS (spiflash_mount_ret env) (spiflash_handle env) in
  let card := sdcard (main (mountSDCARD (spi_bus_initialize_ret env)
                              (sdspi_mount_ret env) w).2) in
  unmountFATFS (Some (lit "/data")) h
  = (if flash_mounted env then [esp_vfs_fat_spiflash_unmount_rw_wl h] else []) /\
  (spiflash_mount_ret env <> ESP_OK -> unmountFATFS (Some (lit "/data")) h = []) /\
  unmountSDCARD (Some (lit "/sdcard")) card unmount_ret
  = (if sd_mounted env
     then if unmount_ret =? ESP_OK
          then [esp_vfs_fat_sdcard_unmount SdCard; spi_bus_free]
          else [esp_vfs_fat_sdcard_unmount SdCard]
     else []) /\
  (forall h', unmountFATFS None h' = []) /\
  (forall c, unmountSDCARD None c unmount_ret = []) /\
  (forall mp, unmountSDCARD mp None unmount_ret = []).

(** ** Further statements: the settings view *)

(** A port number an FTP service can listen on. *)
Definition valid_port (q : Z) : Prop := 1 <= q <= 65535.

(** What [handleSave] may call. *)
Definition save_checked (v : SettingsView) : Prop :=
  (length (handleSave v) <= 1)%nat /\
  (forall u p q, onSave_call u p q ∈ handleSave v ->
     usernameInput v = Some u /\ passwordInput v = Some p /\
     (q = currentPort v \/ valid_port q) /\
     (valid_port (currentPort v) -> valid_port q)) /\
  (onCancel_call ∈ handleSave v ->
     usernameInput v = None \/ passwordInput v = None \/ portInput v = None) /\
  (forall u p text,
     usernameInput v = Some u -> passwordInput v = Some p ->
     portInput v = Some text -> onSave v = true ->
     text = [] \/ atoi text <= 0 \/ 65535 < atoi text ->
     handleSave v = [onSave_call u p (currentPort v)]).

(** Saving what [onStart] filled in, and saving after [onStop]. *)
Definition saved_as_started (username password : c_str) (port : Z)
    (v : SettingsView) : Prop :=
  let v' := onStart username password port v in
  handleSave v'
  = (if onSave v then [onSave_call username password port] else []) /\
  handleSave (onStop v') = (if onCancel v then [onCancel_call] else []) /\
  (forall q, valid_port q ->
     handleSave (edit_port (print_int q) v')
     = (if onSave v then [onSave_call username password q] else [])).

(** A view with both callbacks set. *)
Definition fresh_view : SettingsView :=
  {| usernameInput := None; passwordInput := None; portInput := None;
     currentUsername := []; currentPassword := []; currentPort := 0;
     onSave := true; onCancel := true |}.

(** * Properties *)

(** ** C strings *)

Lemma size_t_small z : 0 <= z < 2 ^ 32 -> size_t z = z.
Proof. intros H. unfold size_t. now apply Z.mod_small. Qed.

Lemma strchr_lt s c i : strchr s c = Some i -> (i < length s)%nat.
Proof.
  revert i. induction s as [|x s IH]; intros i; simpl; [discriminate|].
  destruct (Ascii.eqb x c).
  - intros [= <-]. lia.
  - destruct (strchr s c) as [j|]; simpl; [|discriminate].
    intros [= <-]. specialize (IH j eq_refl). lia.
Qed.

Lemma strlen_nonneg s : 0 <= strlen s.
Proof. unfold strlen. lia. Qed.

Lemma strlen_drop n s : (n <= length s)%nat -> strlen (drop n s) = strlen s - Z.of_nat n.
Proof. intros H. unfold strlen. rewrite length_drop. lia. Qed.

Lemma strlen_format_log_line ts m : strlen (format_log_line ts m) <= 99.
Proof.
  unfold format_log_line, snprintf, strlen, MAX_LINE_LENGTH.
  rewrite length_take. lia.
Qed.

(** ** The log ring *)

Lemma evict_for_bytes_ok rounds line_len r :
  0 <= line_len <= 99 -> regs_ok r -> 0 <= r_count r ->
  regs_ok (evict_for_bytes rounds line_len 4999 r) /\
  r_buffer (evict_for_bytes rounds line_len 4999 r) `suffix_of` r_buffer r /\
  0 <= r_count (evict_for_bytes rounds line_len 4999 r) <= r_count r.
Proof.
  intros Hl. revert r.
  induction rounds as [|n IH]; intros r [Hc Hb] Hn; simpl.
  { repeat split; auto; lia. }
  destruct ((4999 <? size_t (r_current_len r + line_len)) && (0 <? r_count r))
    eqn:Hcond; [|repeat split; auto; lia].
  apply andb_true_iff in Hcond as [_ Hpos%Z.ltb_lt].
  destruct (strchr (r_buffer r) NL) as [i|] eqn:Hi.
  - apply strchr_lt in Hi.
    pose proof (strlen_drop (S i) (r_buffer r) ltac:(lia)) as Hd.
    assert (Hlen : Z.of_nat (S i) <= strlen (r_buffer r)) by (unfold strlen; lia).
    destruct (IH {| r_buffer := drop (S i) (r_buffer r);
                    r_count := r_count r - 1;
                    r_current_len :=
                      size_t (r_current_len r - size_t (Z.of_nat i + 1)) |})
      as (Hok & Hsuf & Hcnt); simpl.
    + split; simpl; [|lia].
      rewrite !size_t_small by (rewrite ?size_t_small; lia). lia.
    + lia.
    + split; [exact Hok|]. split; [|simpl in Hcnt; lia].
      etrans; [exact Hsuf|apply suffix_drop].
  - simpl. repeat split; simpl; try lia; try apply suffix_nil.
    unfold strlen; simpl; lia.
Qed.

(** The bound on the rounds does not cut the first loop short: when it
    ends its condition is false. *)
Lemma evict_for_bytes_exit rounds line_len r :
  0 <= line_len <= 99 -> regs_ok r -> (Z.to_nat (r_count r) <= rounds)%nat ->
  r_current_len (evict_for_bytes rounds line_len 4999 r) + line_len <= 4999 \/
  r_count (evict_for_bytes rounds line_len 4999 r) <= 0.
Proof.
  intros Hl. revert r.
  induction rounds as [|n IH]; intros r [Hc Hb] Hn; simpl; [right; lia|].
  destruct ((4999 <? size_t (r_current_len r + line_len)) && (0 <? r_count r))
    eqn:Hcond.
  - apply andb_true_iff in Hcond as [_ Hpos%Z.ltb_lt].
    destruct (strchr (r_buffer r) NL) as [i|] eqn:Hi; [|simpl; right; lia].
    apply strchr_lt in Hi.
    pose proof (strlen_drop (S i) (r_buffer r) ltac:(lia)) as Hd.
    assert (Hlen : Z.of_nat (S i) <= strlen (r_buffer r)) by (unfold strlen; lia).
    apply IH; simpl; [|lia].
    split; simpl; [|lia].
    rewrite !size_t_small by (rewrite ?size_t_small; lia). lia.
  - apply andb_false_iff in Hcond as [H%Z.ltb_ge|H%Z.ltb_ge]; [left|right; lia].
    pose proof (strlen_nonneg (r_buffer r)).
    rewrite size_t_small in H by lia. lia.
Qed.

Lemma evict_for_lines_ok rounds r :
  strlen (r_buffer r) <= 4999 -> 0 <= r_count r ->
  strlen (r_buffer (evict_for_lines rounds r)) <= 4999 /\
  r_buffer (evict_for_lines rounds r) `suffix_of` r_buffer r /\
  0 <= r_count (evict_for_lines rounds r) <= r_count r.
Proof.
  revert r. induction rounds as [|n IH]; intros r Hb Hn; simpl.
  { repeat split; auto; lia. }
  destruct (MAX_LOG_LINES <=? r_count r) eqn:Hcond; [|repeat split; auto; lia].
  apply Z.leb_le in Hcond. unfold MAX_LOG_LINES in Hcond.
  destruct (strchr (r_buffer r) NL) as [i|] eqn:Hi.
  - apply strchr_lt in Hi.
    pose proof (strlen_drop (S i) (r_buffer r) ltac:(lia)) as Hd.
    destruct (IH {| r_buffer := drop (S i) (r_buffer r);
                    r_count := r_count r - 1;
                    r_current_len := r_current_len r |})
      as (Hok & Hsuf & Hcnt); simpl; try lia.
    split; [exact Hok|]. split; [|simpl in Hcnt; lia].
    etrans; [exact Hsuf|apply suffix_drop].
  - simpl. repeat split; try lia; try apply suffix_nil.
    unfold strlen; simpl; lia.
Qed.

(** Nor is the second loop cut short. *)
Lemma evict_for_lines_exit rounds r :
  (Z.to_nat (r_count r) <= rounds)%nat ->
  r_count (evict_for_lines rounds r) < MAX_LOG_LINES.
Proof.
  revert r. induction rounds as [|n IH]; intros r Hn; simpl.
  { unfold MAX_LOG_LINES. lia. }
  destruct (MAX_LOG_LINES <=? r_count r) eqn:Hcond.
  - apply Z.leb_le in Hcond. unfold MAX_LOG_LINES in *.
    destruct (strchr (r_buffer r) NL) as [i|]; [|simpl; lia].
    apply IH. simpl. lia.
  - apply Z.leb_gt in Hcond. exact Hcond.
Qed.

(** One append keeps the buffer within the array and the counter within
    the line budget, and what it keeps of the old text is a suffix of it. *)
Lemma log_append_spec line buf cnt :
  strlen line <= 99 -> strlen buf <= 4999 -> 0 <= cnt ->
  strlen (log_append line buf cnt).1 <= 4999 /\
  1 <= (log_append line buf cnt).2 <= MAX_LOG_LINES /\
  exists kept, kept `suffix_of` buf /\ (log_append line buf cnt).1 = kept ++ line.
Proof.
  intros Hline Hbuf Hcnt.
  pose proof (strlen_nonneg line) as Hl0. pose proof (strlen_nonneg buf) as Hb0.
  unfold log_append.
  change (size_t (sizeof_log_buffer - 1)) with 4999.
  rewrite (size_t_small (strlen buf)), (size_t_small (strlen line)) by lia.
  set (r0 := {| r_buffer := buf; r_count := cnt; r_current_len := strlen buf |}).
  destruct (evict_for_bytes_ok (Z.to_nat cnt) (strlen line) r0)
    as ([_ Hb1] & Hs1 & Hc1); [lia|split; simpl; lia|simpl; lia|].
  set (r1 := evict_for_bytes (Z.to_nat cnt) (strlen line) 4999 r0) in *.
  destruct (evict_for_lines_ok (Z.to_nat (r_count r1)) r1) as (Hb2 & Hs2 & Hc2);
    [lia|lia|].
  pose proof (evict_for_lines_exit (Z.to_nat (r_count r1)) r1 ltac:(lia)) as Hx2.
  set (r2 := evict_for_lines (Z.to_nat (r_count r1)) r1) in *.
  pose proof (strlen_nonneg (r_buffer r2)) as H20.
  rewrite (size_t_small (strlen (r_buffer r2))) by lia.
  rewrite (size_t_small (strlen (r_buffer r2) + strlen line)) by lia.
  assert (Htake : take (Z.to_nat 4999) line = line)
    by (apply take_ge; unfold strlen in Hline; lia).
  simpl in Hc1.
  destruct (strlen (r_buffer r2) + strlen line <=? 4999) eqn:Hfit; simpl.
  - apply Z.leb_le in Hfit.
    destruct (strlen (r_buffer r2) =? 0) eqn:Hz.
    + apply Z.eqb_eq in Hz. unfold strncpy. rewrite Htake.
      split; [lia|]. split; [unfold MAX_LOG_LINES in *; lia|].
      exists []. split; [apply suffix_nil|reflexivity].
    + unfold strncat.
      rewrite size_t_small by lia.
      rewrite take_ge by (unfold strlen in *; lia).
      split; [unfold strlen in *; rewrite length_app; lia|].
      split; [unfold MAX_LOG_LINES in *; lia|].
      exists (r_buffer r2). split; [|reflexivity].
      etrans; [exact Hs2|exact Hs1].
  - unfold strncpy. rewrite Htake.
    split; [lia|]. split; [unfold MAX_LOG_LINES; lia|].
    exists []. split; [apply suffix_nil|reflexivity].
Qed.

(** What [addLog] does to each part of the state. *)
Ltac addLog_cases m w :=
  unfold addLog, read_clock, emit, with_ui; simpl;
  destruct (log_textarea (ui w)); [destruct m|]; simpl;
  try match goal with |- context [log_append ?l ?b ?c] =>
        destruct (log_append l b c) end; simpl.

Lemma addLog_main m w : main (addLog m w) = main w.
Proof. addLog_cases m w; reflexivity. Qed.

Lemma addLog_flag m w :
  ftp_operation_in_progress (ui (addLog m w)) = ftp_operation_in_progress (ui w).
Proof. addLog_cases m w; reflexivity. Qed.

Lemma addLog_switch m w : server_switch (ui (addLog m w)) = server_switch (ui w).
Proof. addLog_cases m w; reflexivity. Qed.

Lemma addLog_callback m w :
  ftp_control_callback (ui (addLog m w)) = ftp_control_callback (ui w).
Proof. addLog_cases m w; reflexivity. Qed.

Lemma addLog_status_label m w : status_label (ui (addLog m w)) = status_label (ui w).
Proof. addLog_cases m w; reflexivity. Qed.

Lemma addLog_spinner m w : spinner (ui (addLog m w)) = spinner (ui w).
Proof. addLog_cases m w; reflexivity. Qed.

Lemma addLog_clock m w : clock (addLog m w) = clock w.
Proof. addLog_cases m w; reflexivity. Qed.

Lemma addLog_textarea_created m w :
  log_textarea (ui w) <> None -> log_textarea (ui (addLog m w)) <> None.
Proof.
  intros H. unfold addLog.
  destruct (log_textarea (ui w)) eqn:Ht; [|done].
  destruct m; [|congruence].
  unfold read_clock. simpl. destruct (log_append _ _ _). simpl. done.
Qed.

Lemma addLog_log msg w t :
  log_textarea (ui w) = Some t ->
  (log_buffer (ui (addLog (Some msg) w)), log_line_count (ui (addLog (Some msg) w)))
  = log_append (next_log_line msg w) (log_buffer (ui w)) (log_line_count (ui w)).
Proof.
  intros Ht. unfold addLog, next_log_line, read_clock, emit, with_ui. simpl.
  rewrite Ht.
  destruct (log_append _ _ _). reflexivity.
Qed.

Lemma addLog_shown msg w t :
  log_textarea (ui w) = Some t ->
  log_textarea (ui (addLog (Some msg) w)) = Some (log_buffer (ui (addLog (Some msg) w))).
Proof.
  intros Ht. unfold addLog, read_clock, emit, with_ui. simpl. rewrite Ht.
  destruct (log_append _ _ _). reflexivity.
Qed.

Lemma addLog_clock_reads msg w t :
  log_textarea (ui w) = Some t ->
  clock_reads (addLog (Some msg) w) = S (clock_reads w).
Proof.
  intros Ht. unfold addLog, read_clock, emit, with_ui. simpl. rewrite Ht.
  destruct (log_append _ _ _). reflexivity.
Qed.

Lemma addLog_trace m w :
  trace (addLog m w) =
  trace w ++
  match log_textarea (ui w), m with
  | Some _, Some _ =>
      [lv_textarea_set_text (log_buffer (ui (addLog m w))); lv_obj_scroll_to_y]
  | _, _ => []
  end.
Proof.
  addLog_cases m w; rewrite <- ?app_assoc; simpl; rewrite ?app_nil_r; reflexivity.
Qed.

Lemma addLog_within_budget m w : log_within_budget w -> log_within_budget (addLog m w).
Proof.
  intros [Hb Hc]. unfold sizeof_log_buffer, MAX_LOG_LINES, MAX_LINE_LENGTH in Hb.
  destruct m as [msg|]; [|addLog_cases (@None c_str) w; split; assumption].
  destruct (log_textarea (ui w)) as [t|] eqn:Ht;
    [|unfold addLog; rewrite Ht; split; assumption].
  pose proof (addLog_log msg w t Ht) as Hlog.
  destruct (log_append_spec (next_log_line msg w) (log_buffer (ui w))
              (log_line_count (ui w))) as (H1 & H2 & _);
    [apply strlen_format_log_line|lia|lia|].
  rewrite <- Hlog in H1, H2. simpl in H1, H2.
  split; [unfold sizeof_log_buffer, MAX_LOG_LINES, MAX_LINE_LENGTH; lia|lia].
Qed.

Lemma create_screen_ftp_within_budget w : log_within_budget (create_screen_ftp w).
Proof.
  unfold log_within_budget; simpl.
  unfold strlen, sizeof_log_buffer, MAX_LOG_LINES, MAX_LINE_LENGTH; simpl. lia.
Qed.

Lemma addLog_all_within_budget msgs w :
  log_within_budget w -> log_within_budget (addLog_all msgs w).
Proof.
  revert w. induction msgs as [|m msgs IH]; intros w Hw; simpl; [exact Hw|].
  apply IH, addLog_within_budget, Hw.
Qed.

(** With room for the line and fewer than 50 lines, nothing is evicted. *)
Lemma log_append_room line buf cnt :
  strlen buf + strlen line <= 4999 -> 0 <= cnt < 50 ->
  log_append line buf cnt = (buf ++ line, cnt + 1).
Proof.
  intros Hfit Hcnt.
  pose proof (strlen_nonneg line) as Hl0. pose proof (strlen_nonneg buf) as Hb0.
  unfold log_append.
  change (size_t (sizeof_log_buffer - 1)) with 4999.
  rewrite (size_t_small (strlen buf)), (size_t_small (strlen line)) by lia.
  assert (H1 : evict_for_bytes (Z.to_nat cnt) (strlen line) 4999
                 {| r_buffer := buf; r_count := cnt; r_current_len := strlen buf |}
               = {| r_buffer := buf; r_count := cnt; r_current_len := strlen buf |}).
  { destruct (Z.to_nat cnt); simpl; [reflexivity|].
    rewrite size_t_small by lia.
    destruct (4999 <? strlen buf + strlen line) eqn:E; [lia|reflexivity]. }
  rewrite H1. simpl.
  assert (H2 : evict_for_lines (Z.to_nat cnt)
                 {| r_buffer := buf; r_count := cnt; r_current_len := strlen buf |}
               = {| r_buffer := buf; r_count := cnt; r_current_len := strlen buf |}).
  { destruct (Z.to_nat cnt); simpl; [reflexivity|].
    unfold MAX_LOG_LINES. destruct (50 <=? cnt) eqn:E; [lia|reflexivity]. }
  rewrite H2. simpl.
  rewrite (size_t_small (strlen buf)) by lia.
  rewrite (size_t_small (strlen buf + strlen line)) by lia.
  destruct (strlen buf + strlen line <=? 4999) eqn:E; [|lia].
  f_equal.
  unfold strncpy, strncat.
  destruct (strlen buf =? 0) eqn:Hz.
  - apply Z.eqb_eq in Hz. destruct buf; [|unfold strlen in Hz; simpl in Hz; lia].
    simpl. apply take_ge. unfold strlen in *. lia.
  - rewrite size_t_small by lia. f_equal.
    apply take_ge. unfold strlen in *. lia.
Qed.

Lemma length_strftime_HMS t : length (strftime_HMS t) = 8%nat.
Proof. reflexivity. Qed.

(** A message of 88 bytes or more loses its tail and the line terminator. *)
Lemma format_log_line_long ts msg :
  length ts = 8%nat -> (88 <= length msg)%nat ->
  format_log_line ts msg = lit "[" ++ ts ++ lit "] " ++ take 88 msg.
Proof.
  intros Hts Hmsg. unfold format_log_line, snprintf, MAX_LINE_LENGTH.
  change (Z.to_nat (100 - 1)) with 99%nat.
  rewrite !(app_assoc _ _ (msg ++ [NL])), !(app_assoc _ _ (take 88 msg)).
  rewrite take_app_ge by (rewrite !length_app, Hts; simpl; lia).
  f_equal. rewrite !length_app, Hts. simpl.
  apply take_app_le. lia.
Qed.

(** A message of at most 87 bytes is printed whole. *)
Lemma format_log_line_short ts msg :
  length ts = 8%nat -> (length msg <= 87)%nat ->
  format_log_line ts msg = lit "[" ++ ts ++ lit "] " ++ msg ++ [NL].
Proof.
  intros Hts Hmsg. unfold format_log_line, snprintf, MAX_LINE_LENGTH.
  apply take_ge. rewrite !length_app, Hts. simpl. lia.
Qed.

(** C2, as amended: [addLog] with a message longer than the byte budget
    adds one line of 99 bytes, the time stamp and the first 88 bytes of
    the message, without a line terminator.  The buffer afterwards is a
    suffix of the earlier text followed by that line and the counter is
    between 1 and 50; when the earlier text leaves room for 99 more
    bytes and counts fewer than 50 lines, all of it is kept and the
    counter grows by one. *)
Theorem addLog_overlong_message (w : world) (msg t : c_str) :
  log_textarea (ui w) = Some t ->
  log_within_budget w ->
  sizeof_log_buffer < strlen msg ->
  overlong_appended msg w.
Proof.
  intros Ht [Hb Hc] Hlong.
  unfold sizeof_log_buffer, MAX_LOG_LINES, MAX_LINE_LENGTH in *.
  assert (Hm : (88 <= length msg)%nat) by (unfold strlen in Hlong; lia).
  pose proof (addLog_log msg w t Ht) as Hlog.
  unfold next_log_line in Hlog.
  rewrite (format_log_line_long _ msg (length_strftime_HMS _) Hm) in Hlog.
  unfold overlong_appended. cbv zeta.
  set (line := lit "[" ++ strftime_HMS (clock w (clock_reads w)) ++ lit "] " ++
               take 88 msg) in *.
  assert (Hline : strlen line = 99).
  { unfold line, strlen. rewrite !length_app, length_strftime_HMS, length_take.
    change (length (lit "[")) with 1%nat. change (length (lit "] ")) with 2%nat.
    lia. }
  destruct (log_append_spec line (log_buffer (ui w)) (log_line_count (ui w)))
    as (_ & H2 & kept & Hk1 & Hk2); [lia|lia|lia|].
  rewrite <- Hlog in H2, Hk2. simpl in H2, Hk2.
  split; [exact Hline|]. split; [exists kept; auto|]. split; [exact H2|].
  intros Hroom Hcnt.
  unfold sizeof_log_buffer, MAX_LOG_LINES, MAX_LINE_LENGTH in Hroom, Hcnt.
  rewrite log_append_room in Hlog by lia.
  now inversion Hlog.
Qed.

Lemma addLog_overlong_message_witness :
  overlong_appended (repeat "x"%char 6000)
    (addLog (Some (lit "abc")) (create_screen_ftp (power_on noon))).
Proof.
  apply (addLog_overlong_message _ _ (lit "[12:00:00] abc" ++ [NL])).
  - reflexivity.
  - apply addLog_within_budget, create_screen_ftp_within_budget.
  - vm_compute. reflexivity.
Defined.

(** C2 as stated fails: one short line is in the buffer, then a message
    of 6000 bytes is logged; the short line is still there and the
    counter is 2. *)
Lemma addLog_overlong_keeps_earlier_lines :
  sizeof_log_buffer < strlen (repeat "x"%char 6000) /\
  log_buffer (ui (addLog (Some (repeat "x"%char 6000))
                    (addLog (Some (lit "abc")) (create_screen_ftp (power_on noon)))))
  = lit "[12:00:00] abc" ++ [NL] ++ lit "[12:00:00] " ++ repeat "x"%char 88 /\
  log_line_count (ui (addLog (Some (repeat "x"%char 6000))
                        (addLog (Some (lit "abc")) (create_screen_ftp (power_on noon)))))
  = 2.
Proof. vm_compute. repeat split. Qed.

(** C9: [addLog] with a null message, or while [log_textarea] is null
    (as it is from reset until [create_screen_ftp] runs), returns the
    state it was given: buffer, counter, widgets and the calls made to
    LVGL are all as before.  [safe_log] returns the state it was given
    while [screen_created] is false. *)
Theorem addLog_null_guards (m : option c_str) (msg : c_str) (w : world) (clk : nat -> tm) :
  ((m = None \/ log_textarea (ui w) = None) -> addLog m w = w) /\
  log_textarea (ui (power_on clk)) = None /\
  (screen_created (main w) = false -> safe_log msg w = w).
Proof.
  split; [|split; [reflexivity|]].
  - intros [-> | H]; unfold addLog.
    + destruct (log_textarea (ui w)); reflexivity.
    + rewrite H. reflexivity.
  - intros H. unfold safe_log. rewrite H. reflexivity.
Qed.

Lemma addLog_null_guards_witness :
  addLog (Some (lit "early")) (power_on noon) = power_on noon /\
  safe_log (lit "early") (power_on noon) = power_on noon.
Proof.
  split.
  - apply (proj1 (addLog_null_guards (Some (lit "early")) [] (power_on noon) noon)).
    right. reflexivity.
  - apply (proj2 (proj2 (addLog_null_guards None (lit "early") (power_on noon) noon))).
    reflexivity.
Defined.

(** ** The toggle *)

Lemma count_calls_app p t1 t2 :
  count_calls p (t1 ++ t2) = (count_calls p t1 + count_calls p t2)%nat.
Proof. induction t1 as [|c t1 IH]; simpl; [reflexivity|]. rewrite IH. lia. Qed.

Lemma count_calls_emit p c w :
  count_calls p (trace (emit c w)) =
  (count_calls p (trace w) + if p c then 1 else 0)%nat.
Proof.
  simpl. rewrite count_calls_app. simpl. lia.
Qed.

(** [addLog] only ever calls LVGL. *)
Lemma count_calls_addLog p m w :
  (forall t, p (lv_textarea_set_text t) = false) -> p lv_obj_scroll_to_y = false ->
  count_calls p (trace (addLog m w)) = count_calls p (trace w).
Proof.
  intros H1 H2. rewrite addLog_trace, count_calls_app.
  destruct (log_textarea (ui w)); [destruct m|]; simpl; rewrite ?H1, ?H2; lia.
Qed.

Ltac update_status_cases s w :=
  unfold update_status, emit, with_ui; simpl;
  destruct (status_label (ui w)); simpl; [destruct (spinner (ui w)); simpl|];
  try match goal with |- context [if ?b then _ else _] => destruct b end; simpl.

Lemma update_status_main s w : main (update_status s w) = main w.
Proof. update_status_cases s w; reflexivity. Qed.

Lemma update_status_flag s w :
  ftp_operation_in_progress (ui (update_status s w)) = ftp_operation_in_progress (ui w).
Proof. update_status_cases s w; reflexivity. Qed.

Lemma update_status_switch s w :
  server_switch (ui (update_status s w)) = server_switch (ui w).
Proof. update_status_cases s w; reflexivity. Qed.

Lemma update_status_callback s w :
  ftp_control_callback (ui (update_status s w)) = ftp_control_callback (ui w).
Proof. update_status_cases s w; reflexivity. Qed.

Lemma update_status_label s w old :
  status_label (ui w) = Some old -> status_label (ui (update_status s w)) = Some s.
Proof.
  intros H. unfold update_status. rewrite H. simpl.
  destruct (spinner (ui w)); simpl; [|reflexivity].
  match goal with |- context [if ?b then _ else _] => destruct b end; reflexivity.
Qed.

Lemma update_status_trace s w :
  trace (update_status s w) =
  trace w ++ match status_label (ui w) with
             | Some _ => [lv_label_set_text_status s]
             | None => []
             end.
Proof. update_status_cases s w; rewrite ?app_nil_r; reflexivity. Qed.

Lemma count_calls_update_status p s w :
  (forall t, p (lv_label_set_text_status t) = false) ->
  count_calls p (trace (update_status s w)) = count_calls p (trace w).
Proof.
  intros H. rewrite update_status_trace, count_calls_app.
  destruct (status_label (ui w)); simpl; rewrite ?H; lia.
Qed.

Lemma set_server_switch_state_flag b w :
  ftp_operation_in_progress (ui (set_server_switch_state b w))
  = ftp_operation_in_progress (ui w).
Proof. unfold set_server_switch_state. destruct (server_switch (ui w)); reflexivity. Qed.

Lemma set_server_switch_state_trace b w :
  trace (set_server_switch_state b w) = trace w.
Proof. unfold set_server_switch_state. destruct (server_switch (ui w)); reflexivity. Qed.

Section Toggle.

Variable CONFIG_FTP_USER : c_str.

(** C7: [ftp_control_handler] leaves [ftp_operation_in_progress] false
    whatever path it takes: no service instance, start that reports
    enabled, start that does not, stop.  So a toggle event that finds the
    flag clear and the handler registered ends with the flag clear again. *)
Theorem control_handler_clears_flag (enabled start : bool) (w : world) :
  ftp_operation_in_progress (ui (ftp_control_handler CONFIG_FTP_USER enabled start w))
  = false /\
  (ftp_control_callback (ui w) = Some ftp_control_handler_ptr ->
   ftp_operation_in_progress (ui w) = false ->
   ftp_operation_in_progress
     (ui (server_switch_event_cb CONFIG_FTP_USER enabled LV_EVENT_VALUE_CHANGED w))
   = false).
Proof.
  assert (H : forall e s w', ftp_operation_in_progress
                (ui (ftp_control_handler CONFIG_FTP_USER e s w')) = false).
  { intros e s w'. unfold ftp_control_handler.
    destruct (ftpServer (main w')); reflexivity. }
  split; [apply H|].
  intros Hcb Hflag. unfold server_switch_event_cb, server_switch_event_cb_via.
  destruct (server_switch (ui w)) as [c|]; [|exact Hflag].
  rewrite Hflag.
  destruct c; rewrite update_status_callback, addLog_callback; simpl;
    rewrite Hcb; apply H.
Qed.

Lemma toggle_announced_calls p is_checked w :
  (forall t, p (lv_textarea_set_text t) = false) -> p lv_obj_scroll_to_y = false ->
  (forall t, p (lv_label_set_text_status t) = false) ->
  count_calls p (trace (toggle_announced is_checked w)) = count_calls p (trace w).
Proof.
  intros H1 H2 H3. unfold toggle_announced.
  destruct is_checked; rewrite count_calls_update_status, count_calls_addLog by assumption;
    reflexivity.
Qed.

Lemma toggle_announced_main is_checked w : main (toggle_announced is_checked w) = main w.
Proof.
  unfold toggle_announced.
  destruct is_checked; rewrite update_status_main, addLog_main; reflexivity.
Qed.

(** How often the handler reaches the service. *)
Lemma control_handler_calls p enabled start w :
  (forall t, p (lv_textarea_set_text t) = false) -> p lv_obj_scroll_to_y = false ->
  (forall t, p (lv_label_set_text_status t) = false) ->
  p Server_isEnabled = false -> (forall ms, p (vTaskDelay ms) = false) ->
  count_calls p (trace (ftp_control_handler CONFIG_FTP_USER enabled start w)) =
  (count_calls p (trace w) +
   match ftpServer (main w) with
   | Some _ => if p (if start then Server_start else Server_stop) then 1 else 0
   | None => 0
   end)%nat.
Proof.
  intros H1 H2 H3 H4 H5. unfold ftp_control_handler.
  destruct (ftpServer (main w)); [|simpl; lia].
  change (trace (reset_ftp_operation_flag ?x)) with (trace x).
  destruct start; [destruct enabled|].
  - rewrite count_calls_addLog, count_calls_update_status, count_calls_addLog
      by assumption.
    rewrite !count_calls_emit, H4, H5. lia.
  - rewrite set_server_switch_state_trace, count_calls_update_status,
      count_calls_addLog by assumption.
    rewrite !count_calls_emit, H4, H5. lia.
  - rewrite count_calls_update_status, count_calls_addLog by assumption.
    rewrite !count_calls_emit. lia.
Qed.

(** C3, as amended: the switch shows [c] and the user taps it.  While the
    in-flight flag is set the tap changes nothing: whatever function the
    pointer holds, it is not called, and the switch shows [c] again.
    While the flag is clear, the function behind the pointer is called
    exactly once, for the new position, and the state it is called in
    has the flag set and the status label reading "Starting..." or
    "Stopping..."; this holds for every function the pointer could
    hold, so it is the callback that sets the flag before the call.
    The registered handler then calls [start()] (switch now on) or
    [stop()] (switch now off) exactly once when [ftpServer] is non-null
    and neither of them when it is null. *)
Theorem switch_toggle_single_flight (enabled c : bool) (w : world) (s : c_str) :
  server_switch (ui w) = Some c ->
  status_label (ui w) = Some s ->
  ftp_control_callback (ui w) = Some ftp_control_handler_ptr ->
  single_flight CONFIG_FTP_USER enabled c w.
Proof.
  intros Hsw Hst Hcb. unfold single_flight. cbv zeta.
  set (w2 := with_ui (set_server_switch (Some (negb c))) w).
  assert (Hbusy : ftp_operation_in_progress (ui w) = true ->
                  forall call, user_toggle_via call w = w).
  { intros Hflag call. unfold user_toggle_via. rewrite Hsw.
    unfold server_switch_event_cb_via. fold w2.
    change (server_switch (ui w2)) with (Some (negb c)).
    change (ftp_operation_in_progress (ui w2)) with (ftp_operation_in_progress (ui w)).
    rewrite Hflag.
    unfold w2. destruct w as [u a d k r t]. destruct u. simpl in Hsw. subst.
    destruct c; reflexivity. }
  assert (Hcb1 : ftp_control_callback (ui (toggle_announced (negb c) w2))
                 = Some ftp_control_handler_ptr).
  { unfold toggle_announced.
    destruct (negb c); rewrite update_status_callback, addLog_callback; exact Hcb. }
  assert (Hfree : ftp_operation_in_progress (ui w) = false ->
                  forall call, user_toggle_via call w
                               = call ftp_control_handler_ptr (negb c)
                                   (toggle_announced (negb c) w2)).
  { intros Hflag call. unfold user_toggle_via. rewrite Hsw.
    unfold server_switch_event_cb_via. fold w2.
    change (server_switch (ui w2)) with (Some (negb c)).
    change (ftp_operation_in_progress (ui w2)) with (ftp_operation_in_progress (ui w)).
    rewrite Hflag.
    replace (if negb c
             then update_status (lit "Starting...")
                    (addLog (Some (lit "Starting FTP server..."))
                       (with_ui (set_ftp_operation_in_progress true) w2))
             else update_status (lit "Stopping...")
                    (addLog (Some (lit "Stopping FTP server..."))
                       (with_ui (set_ftp_operation_in_progress true) w2)))
      with (toggle_announced (negb c) w2) by (unfold toggle_announced; reflexivity).
    rewrite Hcb1. reflexivity. }
  unfold user_toggle.
  split; intros Hflag.
  - split; [apply Hbusy; exact Hflag | exact (Hbusy Hflag)].
  - exists (toggle_announced (negb c) w2).
    split; [exact (Hfree Hflag)|].
    rewrite (Hfree Hflag). unfold call_control_fn.
    split; [reflexivity|].
    split.
    { unfold toggle_announced.
      destruct (negb c); rewrite update_status_flag, addLog_flag; reflexivity. }
    split.
    { unfold toggle_announced.
      destruct (negb c);
        apply (update_status_label _ _ s); rewrite addLog_status_label; exact Hst. }
    assert (Hn : forall p,
               (forall t, p (lv_textarea_set_text t) = false) ->
               p lv_obj_scroll_to_y = false ->
               (forall t, p (lv_label_set_text_status t) = false) ->
               count_calls p (trace (toggle_announced (negb c) w2))
               = count_calls p (trace w)).
    { intros p H1 H2 H3. rewrite toggle_announced_calls by assumption. reflexivity. }
    split; [apply Hn; reflexivity|].
    rewrite !control_handler_calls by reflexivity.
    rewrite toggle_announced_main.
    change (main w2) with (main w).
    rewrite !Hn by reflexivity.
    destruct (ftpServer (main w)); destruct c; simpl; repeat split; reflexivity.
Qed.

End Toggle.

Lemma switch_toggle_single_flight_witness :
  single_flight (lit "esp32") true false screen_before_service.
Proof.
  apply (switch_toggle_single_flight (lit "esp32") true false screen_before_service
           (lit "Disabled")); reflexivity.
Defined.

(** C3 as stated fails: the screen is built and the handler registered,
    but no service instance exists yet; the flag is clear, the user
    switches on, and neither [start()] nor [stop()] is called. *)
Lemma toggle_without_service_calls_nothing :
  ftp_operation_in_progress (ui screen_before_service) = false /\
  server_switch (ui screen_before_service) = Some false /\
  count_calls is_start_stop
    (trace (user_toggle (lit "esp32") true screen_before_service)) = 0%nat.
Proof. vm_compute. repeat split. Qed.

Lemma control_handler_clears_flag_witness :
  ftp_operation_in_progress
    (ui (server_switch_event_cb (lit "esp32") true LV_EVENT_VALUE_CHANGED
           (with_main (set_ftpServer (Some ServerInstance)) screen_before_service)))
  = false.
Proof.
  apply (proj2 (control_handler_clears_flag (lit "esp32") true true
           (with_main (set_ftpServer (Some ServerInstance)) screen_before_service)));
    reflexivity.
Defined.

(** ** The WiFi retry budget *)

Lemma safe_log_main m w : main (safe_log m w) = main w.
Proof. unfold safe_log. destruct (screen_created (main w)); [apply addLog_main|reflexivity]. Qed.

Lemma safe_log_connects m w : connects (safe_log m w) = connects w.
Proof.
  unfold safe_log, connects.
  destruct (screen_created (main w)); [|reflexivity].
  apply count_calls_addLog; reflexivity.
Qed.

(** One [STA_DISCONNECTED] with retries left: reconnect and count. *)
Lemma disconnect_retry w :
  s_retry_num (main w) < 10 ->
  s_retry_num (main (wifi_event_handler WIFI_EVENT_STA_DISCONNECTED w))
    = s_retry_num (main w) + 1 /\
  s_wifi_event_group (main (wifi_event_handler WIFI_EVENT_STA_DISCONNECTED w))
    = s_wifi_event_group (main w) /\
  connects (wifi_event_handler WIFI_EVENT_STA_DISCONNECTED w) = S (connects w).
Proof.
  intros H. unfold wifi_event_handler.
  destruct (s_retry_num (main w) <? 10) eqn:E; [|lia].
  repeat split. unfold connects. simpl. rewrite count_calls_app. simpl. lia.
Qed.

(** One [STA_DISCONNECTED] with the budget used up: publish the failure. *)
Lemma disconnect_give_up w :
  10 <= s_retry_num (main w) ->
  s_retry_num (main (wifi_event_handler WIFI_EVENT_STA_DISCONNECTED w))
    = s_retry_num (main w) /\
  fail_bit_set (wifi_event_handler WIFI_EVENT_STA_DISCONNECTED w) /\
  connects (wifi_event_handler WIFI_EVENT_STA_DISCONNECTED w) = connects w.
Proof.
  intros H. unfold wifi_event_handler, fail_bit_set.
  destruct (s_retry_num (main w) <? 10) eqn:E; [lia|].
  rewrite safe_log_main, safe_log_connects.
  split; [reflexivity|]. split.
  - change (s_wifi_event_group (main (set_event_bits WIFI_FAIL_BIT w)))
      with (Z.lor (s_wifi_event_group (main w)) WIFI_FAIL_BIT).
    rewrite Z.lor_spec. apply orb_true_r.
  - unfold connects, set_event_bits. simpl. rewrite count_calls_app. simpl. lia.
Qed.

Lemma fail_bit_stays e w :
  is_got_ip e = false -> fail_bit_set w -> fail_bit_set (wifi_event_handler e w).
Proof.
  intros He Hf. destruct e; try discriminate; try exact Hf.
  destruct (Z.lt_ge_cases (s_retry_num (main w)) 10) as [H|H].
  - unfold fail_bit_set. destruct (disconnect_retry w H) as (_ & -> & _). exact Hf.
  - apply disconnect_give_up, H.
Qed.

Lemma deliver_fail_bit events w :
  Forall (fun e => is_got_ip e = false) events ->
  0 <= s_retry_num (main w) ->
  ((1 <= disconnects events)%nat /\
   11 <= Z.of_nat (disconnects events) + s_retry_num (main w)) \/ fail_bit_set w ->
  fail_bit_set (deliver events w).
Proof.
  intros Hev. revert w.
  induction Hev as [|e events He _ IH]; intros w Hr Hd; simpl.
  { destruct Hd as [[Hd _]|Hd]; [unfold disconnects in Hd; simpl in Hd; lia|exact Hd]. }
  fold (deliver events (wifi_event_handler e w)).
  assert (Hr' : 0 <= s_retry_num (main (wifi_event_handler e w))).
  { destruct e; try discriminate; try exact Hr.
    destruct (Z.lt_ge_cases (s_retry_num (main w)) 10) as [H|H];
      [destruct (disconnect_retry w H) as (-> & _); lia
      |destruct (disconnect_give_up w H) as (-> & _); lia]. }
  apply IH; [exact Hr'|].
  destruct Hd as [[Hd1 Hd2]|Hd]; [|right; apply fail_bit_stays; assumption].
  destruct e; try discriminate; unfold disconnects in Hd1, Hd2; simpl in Hd1, Hd2.
  - left. split; assumption.
  - destruct (Z.lt_ge_cases (s_retry_num (main w)) 10) as [H|H].
    + destruct (disconnect_retry w H) as (Hn & _ & _).
      left. rewrite Hn. unfold disconnects. lia.
    + right. apply disconnect_give_up, H.
  - left. split; assumption.
Qed.

Lemma deliver_retry_num events w :
  Forall (fun e => is_got_ip e = false) events ->
  0 <= s_retry_num (main w) ->
  10 <= Z.of_nat (disconnects events) + s_retry_num (main w) ->
  10 <= s_retry_num (main (deliver events w)).
Proof.
  intros Hev. revert w.
  induction Hev as [|e events He _ IH]; intros w Hr Hd.
  { unfold disconnects in Hd; simpl in Hd; simpl; lia. }
  change (deliver (e :: events) w) with (deliver events (wifi_event_handler e w)).
  destruct e; try discriminate; unfold disconnects in Hd; simpl in Hd.
  - apply IH; [exact Hr|exact Hd].
  - destruct (Z.lt_ge_cases (s_retry_num (main w)) 10) as [H|H].
    + destruct (disconnect_retry w H) as (Hr' & _ & _).
      apply IH; rewrite Hr'; [lia|unfold disconnects; lia].
    + destruct (disconnect_give_up w H) as (Hr' & _ & _).
      apply IH; rewrite Hr'; [lia|unfold disconnects; lia].
  - apply IH; [exact Hr|exact Hd].
Qed.

Lemma disconnects_after_budget k w :
  10 <= s_retry_num (main w) ->
  connects (deliver (repeat WIFI_EVENT_STA_DISCONNECTED k) w) = connects w.
Proof.
  revert w. induction k as [|k IH]; intros w H; [reflexivity|].
  change (deliver (repeat WIFI_EVENT_STA_DISCONNECTED (S k)) w)
    with (deliver (repeat WIFI_EVENT_STA_DISCONNECTED k)
            (wifi_event_handler WIFI_EVENT_STA_DISCONNECTED w)).
  destruct (disconnect_give_up w H) as (Hr & _ & Hc).
  rewrite IH by (rewrite Hr; exact H). exact Hc.
Qed.

(** C4, as amended: the retry counter is not negative and a run of
    events without [GOT_IP] arrives.  Once the run holds 11
    [STA_DISCONNECTED] events the failure bit is set; once it holds 10,
    no number [k] of further [STA_DISCONNECTED] events makes the handler
    call [esp_wifi_connect] again. *)
Theorem wifi_retry_budget (events : list esp_event) (k : nat) (w : world) :
  0 <= s_retry_num (main w) ->
  Forall (fun e => is_got_ip e = false) events ->
  retry_budget_spent events k w.
Proof.
  intros Hr Hev. split.
  - intros Hd. apply deliver_fail_bit; [exact Hev|exact Hr|left; lia].
  - intros Hd. apply disconnects_after_budget.
    apply deliver_retry_num; [exact Hev|exact Hr|lia].
Qed.

Lemma wifi_retry_budget_witness :
  retry_budget_spent
    (WIFI_EVENT_STA_START :: repeat WIFI_EVENT_STA_DISCONNECTED 11) 3 screen_on.
Proof.
  apply (wifi_retry_budget
           (WIFI_EVENT_STA_START :: repeat WIFI_EVENT_STA_DISCONNECTED 11) 3 screen_on).
  - simpl. lia.
  - repeat constructor.
Defined.

(** C4 as stated fails at exactly ten: after ten [STA_DISCONNECTED]
    events in a row from a zero retry counter, ten reconnects have been
    made and the failure bit is still clear. *)
Lemma ten_disconnects_do_not_fail :
  s_retry_num (main screen_on) = 0 /\
  Z.testbit (s_wifi_event_group
               (main (deliver (repeat WIFI_EVENT_STA_DISCONNECTED 10) screen_on))) 1
  = false /\
  connects (deliver (repeat WIFI_EVENT_STA_DISCONNECTED 10) screen_on) = 10%nat.
Proof. vm_compute. repeat split. Qed.

(** ** Boot: the display phase *)

Ltac stage_step :=
  cbn [negb andb fst snd final returned
       panel_handle touch_handle lvgl_disp backlight_initialized i2c_initialized
       driver_calls drv set_panel_handle set_touch_handle set_lvgl_disp
       set_backlight_initialized set_i2c_initialized].

Lemma i2c_init_ret env s : ((i2c_init env s).1 =? ESP_OK) = i2c_ok env.
Proof.
  unfold i2c_init, i2c_ok. cbv zeta.
  destruct (i2c_param_config_ret env =? ESP_OK) eqn:E1; stage_step;
    [|exact E1].
  destruct (i2c_driver_install_ret env =? ESP_OK) eqn:E2; stage_step;
    [reflexivity|exact E2].
Qed.

Lemma lcd_panel_init_ret env s : ((lcd_panel_init env s).1 =? ESP_OK) = panel_ok env.
Proof.
  unfold lcd_panel_init, panel_ok. cbv zeta.
  destruct (new_rgb_panel_ret env =? ESP_OK) eqn:E1; stage_step; [|exact E1].
  destruct (panel_reset_ret env =? ESP_OK) eqn:E2; stage_step; [|exact E2].
  destruct (panel_init_ret env =? ESP_OK) eqn:E3; stage_step;
    [reflexivity|exact E3].
Qed.

Lemma touch_init_ret env s : ((touch_init env s).1 =? ESP_OK) = touch_ok env.
Proof.
  unfold touch_init, touch_ok. cbv zeta.
  destruct (new_panel_io_i2c_ret env =? ESP_OK) eqn:E1; stage_step; [|exact E1].
  destruct (new_i2c_gt911_ret env =? ESP_OK) eqn:E2; stage_step;
    [reflexivity|exact E2].
Qed.

Lemma backlight_init_ret env s :
  backlight_init env s
  = if backlight_ok env then Passed tt (final (backlight_init env s))
    else Abort (final (backlight_init env s)).
Proof.
  unfold backlight_init, backlight_ok. cbv zeta.
  destruct (ledc_timer_config_ret env =? ESP_OK); stage_step; [|reflexivity].
  destruct (ledc_channel_config_ret env =? ESP_OK); stage_step; [|reflexivity].
  destruct (ledc_set_duty_ret env =? ESP_OK); stage_step; [|reflexivity].
  destruct (ledc_update_duty_ret env =? ESP_OK); stage_step; reflexivity.
Qed.

(** [suntonEsp32s3LcdInit] stage by stage. *)
Lemma lcd_init_stages env s :
  suntonEsp32s3LcdInit env s =
  let s1 := (i2c_init env s).2 in
  if negb (i2c_ok env) then Passed nullptr (cleanup_resources s1) else
  let s2 := (lcd_panel_init env s1).2 in
  if negb (panel_ok env) then Passed nullptr (cleanup_resources s2) else
  let s3 := final (backlight_init env s2) in
  if negb (backlight_ok env) then Abort s3 else
  let s4 := (touch_init env s3).2 in
  if negb (touch_ok env) then Passed nullptr (cleanup_resources s4) else
  let s5 := drv lvgl_port_init s4 in
  if negb (port_ok env) then Passed nullptr (cleanup_resources s5) else
  let s6 := set_lvgl_disp (add_disp_rgb_ret env)
              (drv (lvgl_port_add_disp_rgb (panel_handle s5)) s5) in
  if add_disp_rgb_ret env =? nullptr
  then Passed nullptr (cleanup_resources (drv lvgl_port_deinit s6)) else
  let s7 := drv (lvgl_port_add_touch (lvgl_disp s6) (touch_handle s6)) s6 in
  if add_touch_ret env =? nullptr
  then Passed nullptr (cleanup_resources (drv lvgl_port_deinit s7))
  else Passed (add_disp_rgb_ret env) s7.
Proof.
  unfold suntonEsp32s3LcdInit. cbv zeta.
  rewrite <- (i2c_init_ret env s).
  destruct (i2c_init env s) as [r1 s1]. cbn [fst snd].
  destruct (r1 =? ESP_OK); cbn [negb]; [|reflexivity].
  rewrite <- (lcd_panel_init_ret env s1).
  destruct (lcd_panel_init env s1) as [r2 s2]. cbn [fst snd].
  destruct (r2 =? ESP_OK); cbn [negb]; [|reflexivity].
  rewrite (backlight_init_ret env s2).
  destruct (backlight_ok env); cbn [negb final]; [|reflexivity].
  rewrite <- (touch_init_ret env (final (backlight_init env s2))).
  destruct (touch_init env (final (backlight_init env s2))) as [r4 s4].
  cbn [fst snd].
  destruct (r4 =? ESP_OK); cbn [negb]; [|reflexivity].
  unfold port_ok.
  destruct (lvgl_port_init_ret env =? ESP_OK); cbn [negb]; [|reflexivity].
  change (lvgl_disp (set_lvgl_disp ?v ?x)) with v.
  destruct (add_disp_rgb_ret env =? nullptr); [reflexivity|].
  destruct (add_touch_ret env =? nullptr); reflexivity.
Qed.

(** [suntonEsp32s3LcdInit] comes back unless a LEDC check fires. *)
Lemma lcd_init_comes_back d s :
  suntonEsp32s3LcdInit d s
  = if negb (i2c_ok d && panel_ok d && negb (backlight_ok d))
    then Passed (default nullptr (returned (suntonEsp32s3LcdInit d s)))
           (final (suntonEsp32s3LcdInit d s))
    else Abort (final (suntonEsp32s3LcdInit d s)).
Proof.
  rewrite !lcd_init_stages. cbv zeta.
  destruct (i2c_ok d); cbn [negb andb]; [|reflexivity].
  destruct (panel_ok d); cbn [negb andb]; [|reflexivity].
  destruct (backlight_ok d); cbn [negb andb]; [|reflexivity].
  repeat match goal with |- context [if ?b then _ else _] => destruct b end;
    reflexivity.
Qed.

Lemma CHECKPOINT_main w : main (CHECKPOINT w) = main w.
Proof. reflexivity. Qed.

Lemma CHECKPOINT_ui w : ui (CHECKPOINT w) = ui w.
Proof. reflexivity. Qed.

Lemma screen_built_ftpServer w :
  ftpServer (main (register_ftp_control_callback (Some ftp_control_handler_ptr)
                     (with_main (set_screen_created true) (create_screen_ftp w))))
  = ftpServer (main w).
Proof. reflexivity. Qed.

(** Phases 1 and 2 of [app_main] when neither aborts. *)
Lemma app_main_phase2 env w :
  core_init env = true -> display_comes_back env = true ->
  app_main env w
  = screen_and_storage env
      (CHECKPOINT
         (set_display (final (suntonEsp32s3LcdInit (display_answers env) (display w)))
            (CHECKPOINT (CHECKPOINT (CHECKPOINT w))))).
Proof.
  intros Hcore Hdisp. unfold app_main, display_comes_back in *. cbv zeta.
  rewrite Hcore. cbn [negb].
  change (display (CHECKPOINT (CHECKPOINT (CHECKPOINT w)))) with (display w).
  rewrite (lcd_init_comes_back (display_answers env) (display w)), Hdisp.
  reflexivity.
Qed.

(** What phases 1 and 2 leave alone. *)
Lemma phase2_frame s w :
  let w0 := CHECKPOINT (set_display s (CHECKPOINT (CHECKPOINT (CHECKPOINT w)))) in
  ui w0 = ui w /\ main w0 = main w /\ clock w0 = clock w /\
  clock_reads w0 = clock_reads w /\
  forall p, (forall ms, p (vTaskDelay ms) = false) ->
            count_calls p (trace w0) = count_calls p (trace w).
Proof.
  cbv zeta. repeat split. intros p Hp. unfold CHECKPOINT.
  repeat first [ rewrite count_calls_emit
               | progress change (trace (set_display ?v ?x)) with (trace x) ].
  rewrite Hp. lia.
Qed.

(** ** Boot: storage *)

(** [mountFATFS] answers -1 when the flash driver fails to mount, and the
    driver's handle otherwise. *)
Lemma flash_mounted_spec env :
  flash_mounted env
  = (spiflash_mount_ret env =? ESP_OK) && (0 <=? spiflash_handle env).
Proof.
  unfold flash_mounted, mountFATFS.
  destruct (spiflash_mount_ret env =? ESP_OK); reflexivity.
Qed.

Lemma mountSDCARD_spec bus_ret mount_ret w :
  ((mountSDCARD bus_ret mount_ret w).1 =? ESP_OK)
    = (bus_ret =? ESP_OK) && (mount_ret =? ESP_OK) /\
  trace (mountSDCARD bus_ret mount_ret w).2 = trace w /\
  ftpServer (main (mountSDCARD bus_ret mount_ret w).2) = ftpServer (main w) /\
  sdcard (main (mountSDCARD bus_ret mount_ret w).2)
    = if (bus_ret =? ESP_OK) && (mount_ret =? ESP_OK) then Some SdCard
      else sdcard (main w).
Proof.
  unfold mountSDCARD.
  destruct (bus_ret =? ESP_OK) eqn:Eb; simpl.
  - destruct (mount_ret =? ESP_OK) eqn:Em; simpl; rewrite ?Em; repeat split.
  - rewrite Eb. repeat split.
Qed.

Lemma storage_init_spec env w :
  (storage_init env w).1 = flash_mounted env || sd_mounted env /\
  (forall p, (forall t, p (lv_textarea_set_text t) = false) ->
             p lv_obj_scroll_to_y = false ->
             count_calls p (trace (storage_init env w).2) = count_calls p (trace w)) /\
  ftpServer (main (storage_init env w).2) = ftpServer (main w).
Proof.
  unfold storage_init, flash_mounted, sd_mounted.
  match goal with |- context [mountSDCARD ?b ?m ?x] =>
    destruct (mountSDCARD_spec b m x) as (Hret & Htr & Hsrv & _);
    destruct (mountSDCARD b m x) as [sd_ret w1] end.
  simpl in *. rewrite Hret.
  split; [|split].
  - destruct (0 <=? mountFATFS _ _); destruct (_ && _); reflexivity.
  - intros p H1 H2. rewrite Htr. simpl. apply count_calls_addLog; assumption.
  - rewrite Hsrv. simpl. rewrite addLog_main. reflexivity.
Qed.

Lemma count_calls_update_ip_label p ip w :
  (forall t, p (lv_label_set_text_ip t) = false) ->
  count_calls p (trace (update_ip_label ip w)) = count_calls p (trace w).
Proof.
  intros H. unfold update_ip_label.
  destruct (ip_label (ui w)); [|reflexivity].
  rewrite count_calls_emit, H. simpl. lia.
Qed.

Lemma count_calls_safe_log p m w :
  foreign_to_events p ->
  count_calls p (trace (safe_log m w)) = count_calls p (trace w).
Proof.
  intros (H1 & H2 & _). unfold safe_log.
  destruct (screen_created (main w)); [|reflexivity].
  apply count_calls_addLog; assumption.
Qed.

Lemma count_calls_wifi_event_handler p e w :
  foreign_to_events p ->
  count_calls p (trace (wifi_event_handler e w)) = count_calls p (trace w).
Proof.
  intros Hp. pose proof Hp as (H1 & H2 & H3 & H4 & H5 & H6).
  destruct e; unfold wifi_event_handler.
  - rewrite count_calls_emit, H5. lia.
  - destruct (s_retry_num (main w) <? 10).
    + change (trace (with_main ?f ?x)) with (trace x).
      rewrite count_calls_emit, H5. lia.
    + rewrite count_calls_safe_log by assumption.
      unfold set_event_bits. rewrite count_calls_emit, H6. simpl. lia.
  - reflexivity.
  - unfold set_event_bits. rewrite count_calls_emit, H6.
    change (trace (with_main ?f ?x)) with (trace x).
    destruct (screen_created _);
      repeat (progress change (trace (with_main ?f ?x)) with (trace x));
      rewrite ?count_calls_update_ip_label, ?count_calls_safe_log by assumption; lia.
Qed.

Lemma count_calls_deliver p events w :
  foreign_to_events p ->
  count_calls p (trace (deliver events w)) = count_calls p (trace w).
Proof.
  intros Hp. revert w. induction events as [|e events IH]; intros w; [reflexivity|].
  change (deliver (e :: events) w) with (deliver events (wifi_event_handler e w)).
  rewrite IH. apply count_calls_wifi_event_handler, Hp.
Qed.

Lemma foreign_wifi_init : foreign_to_events is_wifi_init.
Proof. repeat split. Qed.

Lemma foreign_new_Server : foreign_to_events is_new_Server.
Proof. repeat split. Qed.

(** Phases 5 to 8 call [wifi_init] once, and [new] once unless
    [wifi_init] aborts. *)
Lemma connect_and_serve_calls env w :
  count_calls is_wifi_init (trace (connect_and_serve env w).2)
    = S (count_calls is_wifi_init (trace w)) /\
  count_calls is_new_Server (trace (connect_and_serve env w).2)
    = (count_calls is_new_Server (trace w) + if wifi_setup_ok env then 1 else 0)%nat.
Proof.
  assert (Hgen : forall p, foreign_to_events p ->
            p initialize_sntp_call = false -> p register_screen_log_callback = false ->
            (forall ms, p (vTaskDelay ms) = false) ->
            count_calls p (trace (connect_and_serve env w).2)
            = (count_calls p (trace w) + (if p wifi_init_call then 1 else 0)
               + if wifi_setup_ok env then if p new_Server then 1 else 0 else 0)%nat).
  { intros p Hp Hs Hr Hd. pose proof Hp as (H1 & H2 & H3 & _).
    unfold connect_and_serve, wifi_init, CHECKPOINT.
    destruct (wifi_setup_ok env); cbv beta iota zeta; cbn [negb].
    - change (ftpServer (main (emit new_Server (with_main (set_ftpServer ?a) ?x))))
        with a.
      destruct (server_alloc env); cbn [snd];
        repeat match goal with |- context [if ?b then _ else _] =>
                 lazymatch b with
                 | negb _ => destruct b
                 end end;
        repeat first
          [ rewrite count_calls_addLog by assumption
          | rewrite count_calls_update_status by assumption
          | rewrite count_calls_deliver by assumption
          | rewrite count_calls_emit
          | progress change (trace (with_main ?f ?x)) with (trace x) ];
        rewrite ?Hs, ?Hr, ?Hd; lia.
    - cbn [snd]. rewrite count_calls_emit.
      change (trace (with_main ?f ?x)) with (trace x).
      rewrite count_calls_addLog by assumption.
      rewrite count_calls_emit, Hd. lia. }
  split; rewrite Hgen by (try apply foreign_wifi_init; try apply foreign_new_Server;
                          reflexivity); simpl; destruct (wifi_setup_ok env); lia.
Qed.

(** C5: [has_storage] is the disjunction of the two mounts.  [app_main]
    gets to [wifi_init] exactly when one of them succeeded; exactly when
    both failed it returns before [wifi_init], [new FtpServer::Server]
    is never executed and [ftpServer] stays null.  (The run is one that
    gets as far as the storage phase: no [ESP_ERROR_CHECK] of phase 1 or
    of phase 2 aborted it.) *)
Theorem boot_needs_one_storage (env : boot_env) (clk : nat -> tm) :
  core_init env = true -> display_comes_back env = true -> storage_gate env clk.
Proof.
  intros Hcore Hdisp. unfold storage_gate. cbv zeta.
  split; [intros w; apply storage_init_spec|].
  rewrite (app_main_phase2 env (power_on clk) Hcore Hdisp).
  match goal with |- context [screen_and_storage env ?x] =>
    destruct (phase2_frame
                (final (suntonEsp32s3LcdInit (display_answers env)
                          (display (power_on clk)))) (power_on clk))
      as (_ & Hm0 & _ & _ & Hc0);
    set (w0 := x) in * end.
  cbv zeta in Hm0, Hc0. fold w0 in Hm0, Hc0. clearbody w0.
  unfold screen_and_storage. cbv zeta.
  match goal with |- context [storage_init env ?x] =>
    destruct (storage_init_spec env x) as (Hhas & Hcnt & Hsrv);
    destruct (storage_init env x) as [has w1] end.
  cbn [fst snd] in Hhas, Hcnt, Hsrv. rewrite <- Hhas.
  assert (Hw0 : forall p, foreign_to_events p -> (forall ms, p (vTaskDelay ms) = false) ->
                          count_calls p (trace w1) = 0%nat).
  { intros p (H1 & H2 & H3 & H4 & _) Hd. rewrite Hcnt by assumption.
    unfold CHECKPOINT.
    repeat first
      [ rewrite count_calls_emit
      | rewrite count_calls_addLog by assumption
      | progress change (trace (with_main ?f ?x)) with (trace x)
      | progress change (trace (register_ftp_control_callback ?f ?x)) with (trace x) ].
    unfold create_screen_ftp. cbv zeta.
    repeat first
      [ rewrite count_calls_emit
      | progress change (trace (with_ui ?f ?x)) with (trace x) ].
    rewrite (Hc0 p Hd), H1, H3, H4, Hd. reflexivity. }
  assert (Hsrv0 : ftpServer (main w1) = None).
  { rewrite Hsrv.
    rewrite !CHECKPOINT_main, addLog_main, screen_built_ftpServer.
    rewrite CHECKPOINT_main, Hm0. reflexivity. }
  destruct has; simpl negb; cbv iota.
  - destruct (connect_and_serve_calls env
                (CHECKPOINT (emit log_storage_info_call w1)))
      as (Hwifi & _).
    unfold CHECKPOINT in Hwifi at 2. rewrite !count_calls_emit in Hwifi.
    rewrite Hw0 in Hwifi by (try apply foreign_wifi_init; reflexivity).
    simpl in Hwifi.
    split; [exact Hwifi|].
    split; [intros [Hf Hs]; rewrite Hf, Hs in Hhas; discriminate|].
    intros (_ & H & _). rewrite Hwifi in H. discriminate.
  - cbn [fst snd].
    rewrite !count_calls_addLog by reflexivity.
    rewrite !Hw0 by (repeat split).
    rewrite addLog_main, Hsrv0.
    symmetry in Hhas. apply orb_false_iff in Hhas.
    split; [reflexivity|]. split; [intros _; repeat split|intros _; exact Hhas].
Qed.

Lemma boot_needs_one_storage_witness : storage_gate no_storage_env noon.
Proof. apply (boot_needs_one_storage no_storage_env noon); reflexivity. Defined.

(** ** The monitoring loop: service state *)

Lemma count_log_addLog msg w t :
  log_textarea (ui w) = Some t ->
  count_calls is_log_update (trace (addLog (Some msg) w))
  = S (count_calls is_log_update (trace w)).
Proof.
  intros Ht. rewrite addLog_trace, count_calls_app, Ht. simpl. lia.
Qed.

Lemma count_status_update_status s w old :
  status_label (ui w) = Some old ->
  count_calls is_status_update (trace (update_status s w))
  = S (count_calls is_status_update (trace w)).
Proof.
  intros Hs. rewrite update_status_trace, count_calls_app, Hs. simpl. lia.
Qed.

Lemma update_status_textarea s w :
  log_textarea (ui (update_status s w)) = log_textarea (ui w).
Proof. update_status_cases s w; reflexivity. Qed.

Lemma monitor_tick_unfold ste ftp_state sd_ret v w :
  monitor_tick ste ftp_state sd_ret (v, w)
  = ({| last_ftp_state := (watch_ftp_state ste ftp_state (last_ftp_state v) w).1;
        iteration := (iteration v + 1) mod 2 ^ 32 |},
     emit (vTaskDelay 1000)
       (check_sdcard (iteration v) sd_ret
          (watch_ftp_state ste ftp_state (last_ftp_state v) w).2)).
Proof.
  unfold monitor_tick.
  destruct (watch_ftp_state ste ftp_state (last_ftp_state v) w). reflexivity.
Qed.

(** The liveness block never sets the status text. *)
Lemma count_status_check_sdcard it ret w :
  count_calls is_status_update (trace (check_sdcard it ret w))
  = count_calls is_status_update (trace w).
Proof.
  unfold check_sdcard.
  destruct (_ && _); [|reflexivity].
  repeat match goal with |- context [if ?b then _ else _] => destruct b end;
    repeat (progress change (trace (with_main ?f ?x)) with (trace x));
    rewrite ?count_calls_addLog by reflexivity;
    rewrite count_calls_emit; simpl; lia.
Qed.


Section Monitor.

Variable ste : ftp_state_enum.

(** The switch: one log line and one status text for a listed state,
    nothing at all for any other. *)
Lemma report_ftp_state_calls ftp_state w s t :
  status_label (ui w) = Some s -> log_textarea (ui w) = Some t ->
  (listed ste ftp_state = false -> report_ftp_state ste ftp_state w = w) /\
  count_calls is_status_update (trace (report_ftp_state ste ftp_state w))
    = (count_calls is_status_update (trace w)
       + if listed ste ftp_state then 1 else 0)%nat /\
  count_calls is_log_update (trace (report_ftp_state ste ftp_state w))
    = (count_calls is_log_update (trace w)
       + if listed ste ftp_state then 1 else 0)%nat /\
  (forall p, (forall x, p (lv_textarea_set_text x) = false) ->
             p lv_obj_scroll_to_y = false ->
             (forall x, p (lv_label_set_text_status x) = false) ->
             count_calls p (trace (report_ftp_state ste ftp_state w))
             = count_calls p (trace w)) /\
  main (report_ftp_state ste ftp_state w) = main w /\
  log_textarea (ui (report_ftp_state ste ftp_state w)) <> None.
Proof.
  intros Hs Ht. unfold report_ftp_state, listed. cbv zeta.
  assert (Hone : forall m st,
    count_calls is_status_update (trace (update_status st (addLog (Some m) w)))
      = (count_calls is_status_update (trace w) + 1)%nat /\
    count_calls is_log_update (trace (update_status st (addLog (Some m) w)))
      = (count_calls is_log_update (trace w) + 1)%nat /\
    (forall p, (forall x, p (lv_textarea_set_text x) = false) ->
               p lv_obj_scroll_to_y = false ->
               (forall x, p (lv_label_set_text_status x) = false) ->
               count_calls p (trace (update_status st (addLog (Some m) w)))
               = count_calls p (trace w)) /\
    main (update_status st (addLog (Some m) w)) = main w /\
    log_textarea (ui (update_status st (addLog (Some m) w))) <> None).
  { intros m st. split; [|split; [|split; [|split]]].
    - rewrite (count_status_update_status st _ s)
        by (rewrite addLog_status_label; exact Hs).
      rewrite count_calls_addLog by reflexivity. lia.
    - rewrite count_calls_update_status by reflexivity.
      rewrite (count_log_addLog m w t Ht). lia.
    - intros p H1 H2 H3.
      rewrite count_calls_update_status, count_calls_addLog by assumption.
      reflexivity.
    - rewrite update_status_main, addLog_main. reflexivity.
    - rewrite update_status_textarea. apply addLog_textarea_created. congruence. }
  repeat match goal with |- context [if ?a =? ?b then _ else _] =>
           destruct (a =? b); cbn [orb];
           [match goal with |- context [update_status ?st (addLog (Some ?m) w)] =>
              destruct (Hone m st) as (H1 & H2 & H3 & H4 & H5) end;
            repeat split; try assumption; try discriminate|]
         end.
  repeat split; try lia; try congruence.
Qed.

(** A round that is told the state it already holds sets no status text. *)
Lemma monitor_tick_steady sd_ret v w :
  count_calls is_status_update
    (trace (monitor_tick ste (last_ftp_state v) sd_ret (v, w)).2)
  = count_calls is_status_update (trace w) /\
  last_ftp_state (monitor_tick ste (last_ftp_state v) sd_ret (v, w)).1
  = last_ftp_state v.
Proof.
  rewrite monitor_tick_unfold. unfold watch_ftp_state.
  rewrite Z.eqb_refl. cbn [negb fst snd last_ftp_state].
  rewrite count_calls_emit, count_status_check_sdcard, count_calls_emit.
  simpl. split; [lia|reflexivity].
Qed.

Lemma monitor_loop_steady answers v w :
  Forall (fun a => a.1 = last_ftp_state v) answers ->
  count_calls is_status_update (trace (monitor_loop ste answers (v, w)).2)
  = count_calls is_status_update (trace w).
Proof.
  intros Hall. revert v w Hall.
  induction answers as [|a answers IH]; intros v w Hall; [reflexivity|].
  apply Forall_cons in Hall as [Ha Hall].
  change (monitor_loop ste (a :: answers) (v, w))
    with (monitor_loop ste answers (monitor_tick ste a.1 a.2 (v, w))).
  rewrite Ha.
  destruct (monitor_tick_steady a.2 v w) as [Hc Hl].
  destruct (monitor_tick ste (last_ftp_state v) a.2 (v, w)) as [v1 w1].
  cbn [fst snd] in Hc, Hl.
  rewrite IH by (rewrite Hl; exact Hall). exact Hc.
Qed.

(** C6, as amended: with the screen built, a round of the loop sets the
    status text exactly once, and its poll of [getState()] adds exactly
    one log line, when the reported state differs from [last_ftp_state]
    and its low byte is one of the six states of the switch; otherwise
    the round sets no status text and the poll adds no log line.  In
    every case [last_ftp_state] is the reported state afterwards, and
    over any number of rounds that report the state already held no
    status text is set. *)
Theorem monitor_reports_listed_changes (ftp_state : Z) (sd_ret : esp_err_t)
    (answers : list (Z * esp_err_t)) (v : loop_vars) (w : world) (s t : c_str) :
  status_label (ui w) = Some s -> log_textarea (ui w) = Some t ->
  state_change_reported ste ftp_state sd_ret answers v w.
Proof.
  intros Hs Ht. unfold state_change_reported. cbv zeta.
  rewrite monitor_tick_unfold. cbn [fst snd last_ftp_state].
  rewrite count_calls_emit, count_status_check_sdcard.
  split; [|split; [|split; [|apply monitor_loop_steady]]];
    unfold watch_ftp_state;
    destruct (ftp_state =? last_ftp_state v) eqn:E; cbn [negb andb fst snd];
    try (destruct (report_ftp_state_calls ftp_state (emit Server_getState w) s t Hs Ht)
           as (_ & H1 & H2 & _); rewrite ?H1, ?H2);
    rewrite ?count_calls_emit; simpl; try lia.
Qed.

End Monitor.

(** Whatever values [ftpServer.h] gives the six enumerators, one of the
    states 0..6 is none of them. *)
Lemma some_state_is_unlisted (ste : ftp_state_enum) :
  exists s, 0 <= s <= 6 /\ listed ste s = false.
Proof.
  set (labels := [E_FTP_STE_DISABLED ste; E_FTP_STE_READY ste;
                  E_FTP_STE_CONNECTED ste; E_FTP_STE_CONTINUE_FILE_TX ste;
                  E_FTP_STE_CONTINUE_FILE_RX ste; E_FTP_STE_END_TRANSFER ste]).
  set (cands := [0; 1; 2; 3; 4; 5; 6]).
  destruct (decide (Forall (fun s => s ∈ labels) cands)) as [Hall|Hnot].
  - exfalso.
    assert (Hsub : cands ⊆+ labels).
    { apply NoDup_submseteq.
      - unfold cands.
        repeat (apply NoDup_cons; split;
                [intros Hx;
                 repeat (apply elem_of_cons in Hx as [Hx|Hx]; [discriminate|]);
                 inversion Hx|]).
        apply NoDup_nil_2.
      - intros x Hx. rewrite Forall_forall in Hall. apply Hall, Hx. }
    apply submseteq_length in Hsub. simpl in Hsub. lia.
  - apply not_Forall_Exists in Hnot; [|intros x; apply _].
    apply Exists_exists in Hnot as (s & Hin & Hnl).
    exists s.
    assert (Hs : 0 <= s <= 6 /\ Z.land s 0xFF = s).
    { unfold cands in Hin.
      repeat (apply elem_of_cons in Hin as [-> | Hin]; [split; [lia|reflexivity]|]).
      inversion Hin. }
    destruct Hs as [Hr Hland]. split; [exact Hr|].
    unfold listed. cbv zeta. rewrite Hland.
    unfold labels in Hnl.
    repeat (let Hne := fresh "Hne" in
            apply not_elem_of_cons in Hnl as [Hne Hnl];
            apply Z.eqb_neq in Hne; rewrite Hne).
    reflexivity.
Qed.

Lemma monitor_reports_listed_changes_witness :
  state_change_reported ste_switch_order 1 ESP_OK [(-1, ESP_OK); (-1, ESP_OK)]
    loop_entry monitoring_entry.
Proof.
  apply (monitor_reports_listed_changes ste_switch_order 1 ESP_OK
           [(-1, ESP_OK); (-1, ESP_OK)] loop_entry monitoring_entry
           (lit "Stopped")
           (log_buffer (ui monitoring_entry))); vm_compute; reflexivity.
Defined.

(** C6 as stated fails: in the first round of the loop [getState()]
    reports a state that the switch does not list (6, with the
    enumerators numbered 0 to 5).  It differs from [last_ftp_state],
    which is -1, yet no status text and no log text is set, the log
    buffer is as before, and the state is recorded as observed. *)
Lemma unlisted_state_change_is_silent :
  (6 =? last_ftp_state loop_entry) = false /\
  count_calls is_status_update
    (trace (monitor_tick ste_switch_order 6 ESP_OK (loop_entry, monitoring_entry)).2)
  = count_calls is_status_update (trace monitoring_entry) /\
  count_calls is_log_update
    (trace (monitor_tick ste_switch_order 6 ESP_OK (loop_entry, monitoring_entry)).2)
  = count_calls is_log_update (trace monitoring_entry) /\
  log_buffer (ui (monitor_tick ste_switch_order 6 ESP_OK (loop_entry, monitoring_entry)).2)
  = log_buffer (ui monitoring_entry) /\
  last_ftp_state
    (monitor_tick ste_switch_order 6 ESP_OK (loop_entry, monitoring_entry)).1 = 6.
Proof. vm_compute. repeat split. Qed.

(** ** The monitoring loop: SD card *)

Lemma count_calls_report_ftp_state ste p ftp_state w :
  (forall x, p (lv_textarea_set_text x) = false) ->
  p lv_obj_scroll_to_y = false ->
  (forall x, p (lv_label_set_text_status x) = false) ->
  count_calls p (trace (report_ftp_state ste ftp_state w)) = count_calls p (trace w).
Proof.
  intros H1 H2 H3. unfold report_ftp_state. cbv zeta.
  repeat match goal with |- context [if ?a =? ?b then _ else _] =>
           destruct (a =? b);
           [rewrite count_calls_update_status, count_calls_addLog by assumption;
            reflexivity|]
         end.
  reflexivity.
Qed.

Lemma report_ftp_state_main ste ftp_state w :
  main (report_ftp_state ste ftp_state w) = main w.
Proof.
  unfold report_ftp_state. cbv zeta.
  repeat match goal with |- context [if ?a =? ?b then _ else _] =>
           destruct (a =? b); [rewrite update_status_main, addLog_main; reflexivity|]
         end.
  reflexivity.
Qed.

Lemma watch_ftp_state_frame ste ftp_state last w :
  main (watch_ftp_state ste ftp_state last w).2 = main w /\
  count_calls is_sd_status (trace (watch_ftp_state ste ftp_state last w).2)
  = count_calls is_sd_status (trace w).
Proof.
  unfold watch_ftp_state.
  destruct (negb (ftp_state =? last)); cbn [snd].
  - rewrite report_ftp_state_main, count_calls_report_ftp_state by reflexivity.
    rewrite count_calls_emit. simpl. split; [reflexivity|lia].
  - rewrite count_calls_emit. simpl. split; [reflexivity|lia].
Qed.

Lemma check_sdcard_absent it ret w :
  sdcard (main w) = None -> check_sdcard it ret w = w.
Proof.
  intros H. unfold check_sdcard. rewrite H.
  destruct (it mod 10 =? 0); reflexivity.
Qed.

Lemma update_ip_label_main ip w : main (update_ip_label ip w) = main w.
Proof. unfold update_ip_label. destruct (ip_label (ui w)); reflexivity. Qed.

Lemma wifi_event_handler_sd_vars e w : sd_vars (wifi_event_handler e w) = sd_vars w.
Proof.
  unfold sd_vars. destruct e; unfold wifi_event_handler; try reflexivity.
  - destruct (s_retry_num (main w) <? 10); [reflexivity|].
    rewrite safe_log_main. reflexivity.
  - unfold set_event_bits.
    cbn [main emit with_main sdcard sdcard_was_present set_s_wifi_event_group
         set_s_retry_num].
    destruct (screen_created _); rewrite ?update_ip_label_main, ?safe_log_main;
      reflexivity.
Qed.

Lemma deliver_sd_vars events w : sd_vars (deliver events w) = sd_vars w.
Proof.
  revert w. induction events as [|e events IH]; intros w; [reflexivity|].
  change (deliver (e :: events) w) with (deliver events (wifi_event_handler e w)).
  rewrite IH. apply wifi_event_handler_sd_vars.
Qed.

Lemma addLog_sd_vars m w : sd_vars (addLog m w) = sd_vars w.
Proof. unfold sd_vars. rewrite addLog_main. reflexivity. Qed.

Lemma update_status_sd_vars s w : sd_vars (update_status s w) = sd_vars w.
Proof. unfold sd_vars. rewrite update_status_main. reflexivity. Qed.

Lemma sd_vars_emit c w : sd_vars (emit c w) = sd_vars w.
Proof. reflexivity. Qed.

Lemma sd_vars_set_ftpServer a w : sd_vars (with_main (set_ftpServer a) w) = sd_vars w.
Proof. reflexivity. Qed.

Lemma sd_vars_set_event_group a w :
  sd_vars (with_main (set_s_wifi_event_group a) w) = sd_vars w.
Proof. reflexivity. Qed.

Lemma connect_and_serve_sd_vars env w :
  sd_vars (connect_and_serve env w).2 = sd_vars w.
Proof.
  unfold connect_and_serve, wifi_init, CHECKPOINT.
  destruct (wifi_setup_ok env); cbv beta iota zeta; cbn [negb].
  - change (ftpServer (main (emit new_Server (with_main (set_ftpServer ?a) ?x))))
      with a.
    destruct (server_alloc env); cbn [snd];
      repeat match goal with |- context [if ?b then _ else _] =>
               lazymatch b with
               | negb _ => destruct b
               end end;
      repeat first
        [ rewrite addLog_sd_vars
        | rewrite update_status_sd_vars
        | rewrite deliver_sd_vars
        | rewrite sd_vars_emit
        | rewrite sd_vars_set_ftpServer
        | rewrite sd_vars_set_event_group ];
      reflexivity.
  - cbn [snd].
    rewrite sd_vars_emit, sd_vars_set_event_group, addLog_sd_vars, sd_vars_emit.
    reflexivity.
Qed.

Lemma storage_init_sd_vars env w :
  sd_vars (storage_init env w).2
  = (if sd_mounted env then Some SdCard else sdcard (main w),
     sdcard_was_present (main w)).
Proof.
  unfold storage_init, mountSDCARD, sd_mounted, sd_vars.
  destruct (spi_bus_initialize_ret env =? ESP_OK); cbn [negb andb snd];
    [destruct (sdspi_mount_ret env =? ESP_OK); cbn [negb snd]|];
    cbn [main with_main sdcard sdcard_was_present set_sdcard set_wl_handle];
    rewrite addLog_main; reflexivity.
Qed.

(** At the entry of the monitoring loop the card handle is non-null
    exactly when [mountSDCARD] succeeded, and no card has been seen yet. *)
Lemma app_main_sd_vars env clk :
  (app_main env (power_on clk)).1 = MonitoringLoop ->
  sd_vars (app_main env (power_on clk)).2
  = (if sd_mounted env then Some SdCard else None, false).
Proof.
  unfold app_main. cbv zeta.
  destruct (core_init env); cbn [negb]; [|discriminate].
  change (display (CHECKPOINT (CHECKPOINT (CHECKPOINT (power_on clk)))))
    with (display (power_on clk)).
  rewrite (lcd_init_comes_back (display_answers env) (display (power_on clk))).
  destruct (negb _); [|discriminate].
  match goal with |- context [screen_and_storage env ?x] => set (wd := x) end.
  assert (Hwd : sd_vars wd = (None, false)) by reflexivity.
  clearbody wd.
  unfold screen_and_storage. cbv zeta.
  match goal with |- context [storage_init env ?x] => set (w0 := x) end.
  assert (Happ : sd_vars w0 = (None, false)).
  { subst w0. unfold sd_vars. rewrite !CHECKPOINT_main, addLog_main.
    unfold sd_vars in Hwd. injection Hwd as H1 H2.
    cbn [main register_ftp_control_callback with_ui with_main set_screen_created
         sdcard sdcard_was_present].
    unfold create_screen_ftp. cbv zeta.
    cbn [main with_ui emit CHECKPOINT].
    rewrite H1, H2. reflexivity. }
  clearbody w0.
  pose proof (storage_init_sd_vars env w0) as Hsd.
  destruct (storage_init env w0) as [has w1]. cbn [snd] in Hsd.
  destruct has; cbn [negb fst snd]; [|discriminate].
  intros _. rewrite connect_and_serve_sd_vars.
  change (sd_vars (CHECKPOINT (emit log_storage_info_call w1))) with (sd_vars w1).
  rewrite Hsd. injection Happ as -> ->. reflexivity.
Qed.

(** ** The log ring: first in, first out *)

Lemma digit_not_NL n : digit n <> NL.
Proof.
  unfold digit, NL. intros H.
  apply (f_equal nat_of_ascii) in H.
  rewrite nat_ascii_embedding in H by (pose proof (Nat.mod_upper_bound n 10); lia).
  change (nat_of_ascii "010") with 10%nat in H. lia.
Qed.

Lemma strftime_HMS_no_NL t : NL ∉ strftime_HMS t.
Proof.
  unfold strftime_HMS, two_digits. change (lit ":") with [":"%char]. simpl.
  intros H.
  repeat (apply elem_of_cons in H as [H|H];
          [first [symmetry in H; apply digit_not_NL in H; exact H
                 |discriminate H]|]).
  inversion H.
Qed.

Lemma strchr_first p c r : c ∉ p -> strchr (p ++ c :: r) c = Some (length p).
Proof.
  induction p as [|x p IH]; intros Hp; simpl.
  - rewrite Ascii.eqb_refl. reflexivity.
  - apply not_elem_of_cons in Hp as [Hne Hp].
    destruct (Ascii.eqb x c) eqn:E; [apply Ascii.eqb_eq in E; congruence|].
    rewrite IH by exact Hp. reflexivity.
Qed.

Lemma length_full_line ts m :
  length ts = 8%nat -> length (full_line ts m) = (length m + 12)%nat.
Proof.
  intros H. unfold full_line. rewrite !length_app, H.
  change (length (lit "[")) with 1%nat. change (length (lit "] ")) with 2%nat.
  simpl. lia.
Qed.

(** The first line terminator of a buffer that starts with a whole line
    is the one that ends that line. *)
Lemma strchr_full_line ts m rest :
  NL ∉ ts -> NL ∉ m -> length ts = 8%nat ->
  strchr (full_line ts m ++ rest) NL = Some (length m + 11)%nat /\
  drop (S (length m + 11)) (full_line ts m ++ rest) = rest.
Proof.
  intros Hts Hm Hl.
  assert (Hsplit : full_line ts m ++ rest
                   = (lit "[" ++ ts ++ lit "] " ++ m) ++ NL :: rest).
  { unfold full_line. rewrite <- !app_assoc. reflexivity. }
  assert (Hlen : length (lit "[" ++ ts ++ lit "] " ++ m) = (length m + 11)%nat).
  { rewrite !length_app, Hl.
    change (length (lit "[")) with 1%nat. change (length (lit "] ")) with 2%nat. lia. }
  split.
  - rewrite Hsplit, strchr_first, Hlen; [reflexivity|].
    change (lit "[") with ["["%char]. change (lit "] ") with ["]"%char; " "%char].
    rewrite !not_elem_of_app, !not_elem_of_cons.
    repeat split; try discriminate; try assumption; apply not_elem_of_nil.
  - replace (S (length m + 11)) with (length (full_line ts m))
      by (rewrite length_full_line by exact Hl; lia).
    apply drop_app_length.
Qed.

Lemma evict_for_bytes_noop rounds line_len max_len r :
  size_t (r_current_len r + line_len) <= max_len ->
  evict_for_bytes rounds line_len max_len r = r.
Proof.
  intros H. destruct rounds; simpl; [reflexivity|].
  destruct (max_len <? size_t (r_current_len r + line_len)) eqn:E; [lia|reflexivity].
Qed.

Lemma evict_for_lines_noop rounds r :
  r_count r < MAX_LOG_LINES -> evict_for_lines rounds r = r.
Proof.
  intros H. destruct rounds; simpl; [reflexivity|].
  destruct (MAX_LOG_LINES <=? r_count r) eqn:E; [lia|reflexivity].
Qed.

Lemma evict_for_lines_S rounds r :
  evict_for_lines (S rounds) r =
  if MAX_LOG_LINES <=? r_count r then
    match strchr (r_buffer r) NL with
    | Some first_newline =>
        evict_for_lines rounds
          {| r_buffer := drop (S first_newline) (r_buffer r);
             r_count := r_count r - 1;
             r_current_len := r_current_len r |}
    | None => {| r_buffer := []; r_count := 0; r_current_len := r_current_len r |}
    end
  else r.
Proof. reflexivity. Qed.

(** A full ring with room in bytes: exactly the oldest line goes. *)
Lemma log_append_evict_oldest line buf i :
  strchr buf NL = Some i -> (S i < length buf)%nat ->
  strlen buf + strlen line <= 4999 ->
  log_append line buf 50 = (drop (S i) buf ++ line, 50).
Proof.
  intros Hi Hrest Hfit.
  pose proof (strlen_nonneg line) as Hl0.
  assert (Hb : strlen buf = Z.of_nat (length buf)) by reflexivity.
  unfold log_append.
  change (size_t (sizeof_log_buffer - 1)) with 4999.
  rewrite (size_t_small (strlen buf)), (size_t_small (strlen line)) by lia.
  rewrite evict_for_bytes_noop by (simpl; rewrite size_t_small; lia).
  cbn [r_count]. replace (Z.to_nat 50) with (S 49) by reflexivity.
  rewrite evict_for_lines_S. cbn [r_count r_buffer r_current_len].
  change (MAX_LOG_LINES <=? 50) with true. cbv iota. rewrite Hi.
  rewrite evict_for_lines_noop by (cbn [r_count]; unfold MAX_LOG_LINES; lia).
  cbn [r_count r_buffer].
  pose proof (strlen_drop (S i) buf ltac:(lia)) as Hd.
  rewrite (size_t_small (strlen (drop (S i) buf))) by lia.
  rewrite (size_t_small (strlen (drop (S i) buf) + strlen line)) by lia.
  destruct (strlen (drop (S i) buf) + strlen line <=? 4999) eqn:E; [|lia].
  destruct (strlen (drop (S i) buf) =? 0) eqn:Ez; [lia|].
  unfold strncat. rewrite size_t_small by lia.
  rewrite take_ge by (unfold strlen in *; lia).
  reflexivity.
Qed.

Lemma strlen_app a b : strlen (a ++ b) = strlen a + strlen b.
Proof. unfold strlen. rewrite length_app. lia. Qed.

Lemma next_log_line_one_line m w :
  one_line m ->
  next_log_line m w = full_line (strftime_HMS (clock w (clock_reads w))) m /\
  strlen (next_log_line m w) = 22.
Proof.
  intros [Hlen _]. unfold next_log_line.
  rewrite format_log_line_short by (rewrite ?length_strftime_HMS, ?Hlen; lia).
  split; [reflexivity|].
  fold (full_line (strftime_HMS (clock w (clock_reads w))) m).
  unfold strlen. rewrite length_full_line by apply length_strftime_HMS. lia.
Qed.

(** While fewer than 50 lines of 22 bytes are held, each message is
    appended behind them. *)
Lemma addLog_all_room msgs w t :
  log_textarea (ui w) = Some t ->
  Forall one_line msgs ->
  0 <= log_line_count (ui w) ->
  strlen (log_buffer (ui w)) = 22 * log_line_count (ui w) ->
  log_line_count (ui w) + Z.of_nat (length msgs) <= 50 ->
  log_buffer (ui (addLog_all (Some <$> msgs) w))
    = log_buffer (ui w) ++ concat (lines_from (clock w) (clock_reads w) msgs) /\
  log_line_count (ui (addLog_all (Some <$> msgs) w))
    = log_line_count (ui w) + Z.of_nat (length msgs) /\
  clock (addLog_all (Some <$> msgs) w) = clock w /\
  clock_reads (addLog_all (Some <$> msgs) w) = (clock_reads w + length msgs)%nat /\
  log_textarea (ui (addLog_all (Some <$> msgs) w)) <> None.
Proof.
  intros Ht Hall. revert w t Ht.
  induction Hall as [|m msgs Hm _ IH]; intros w t Ht Hc Hb Hroom.
  { simpl. rewrite app_nil_r, Z.add_0_r, Nat.add_0_r. repeat split. congruence. }
  change (addLog_all (Some <$> m :: msgs) w)
    with (addLog_all (Some <$> msgs) (addLog (Some m) w)).
  cbn [length] in Hroom.
  pose proof (addLog_log m w t Ht) as Hlog.
  destruct (next_log_line_one_line m w Hm) as [Hline Hlen].
  rewrite log_append_room in Hlog by lia.
  injection Hlog as Hbuf Hcnt.
  pose proof (addLog_shown m w t Ht) as Hshown.
  assert (Hc' : 0 <= log_line_count (ui (addLog (Some m) w))) by lia.
  assert (Hb' : strlen (log_buffer (ui (addLog (Some m) w)))
                = 22 * log_line_count (ui (addLog (Some m) w)))
    by (rewrite Hbuf, Hcnt, strlen_app; lia).
  assert (Hroom' : log_line_count (ui (addLog (Some m) w))
                   + Z.of_nat (length msgs) <= 50) by lia.
  destruct (IH (addLog (Some m) w) _ Hshown Hc' Hb' Hroom')
    as (H1 & H2 & H3 & H4 & H5).
  rewrite H1, H2, H3, H4.
  rewrite Hbuf, Hcnt, addLog_clock, (addLog_clock_reads m w t Ht), Hline.
  cbn [lines_from concat length]. rewrite <- app_assoc.
  repeat split; try lia; try exact H5.
Qed.

Lemma lines_from_app clk k a b :
  lines_from clk k (a ++ b)
  = lines_from clk k a ++ lines_from clk (k + length a) b.
Proof.
  revert k. induction a as [|m a IH]; intros k.
  - simpl. rewrite Nat.add_0_r. reflexivity.
  - cbn [lines_from length]. change ((m :: a) ++ b) with (m :: (a ++ b)).
    cbn [lines_from]. rewrite IH.
    replace (S k + length a)%nat with (k + S (length a))%nat by lia.
    reflexivity.
Qed.

Lemma strlen_concat_lines clk k msgs :
  Forall one_line msgs ->
  strlen (concat (lines_from clk k msgs)) = 22 * Z.of_nat (length msgs).
Proof.
  intros Hall. revert k. induction Hall as [|m msgs [Hm _] _ IH]; intros k.
  - reflexivity.
  - cbn [lines_from concat length]. rewrite strlen_app, IH.
    unfold strlen. rewrite length_full_line by apply length_strftime_HMS. lia.
Qed.

Lemma length_lines_from clk k msgs : length (lines_from clk k msgs) = length msgs.
Proof.
  revert k. induction msgs as [|m msgs IH]; intros k; cbn [lines_from length];
    [reflexivity|]. rewrite IH. reflexivity.
Qed.

Lemma addLog_all_app a b w : addLog_all (a ++ b) w = addLog_all b (addLog_all a w).
Proof. unfold addLog_all. apply fold_left_app. Qed.

(** C8: after [create_screen_ftp], 51 messages of 10 bytes without a
    line terminator are logged.  The buffer then holds the lines of the
    2nd to the 51st message, 50 lines in the order of the calls, each
    with the time stamp of its own call; the counter is 50 and the text
    area shows the buffer.  Only the line of the first message is gone. *)
Theorem log_ring_keeps_last_fifty (msgs : list c_str) (w : world) :
  length msgs = 51%nat -> Forall one_line msgs -> last_fifty_kept msgs w.
Proof.
  intros Hlen Hall. unfold last_fifty_kept. cbv zeta.
  set (clk := clock w). set (k := clock_reads w).
  (* the first message, the 49 after it, and the last *)
  destruct msgs as [|m1 rest]; [discriminate|].
  assert (Hrest : rest = take 49 rest ++ drop 49 rest) by (symmetry; apply take_drop).
  assert (Hlen49 : length (take 49 rest) = 49%nat)
    by (rewrite length_take; simpl in Hlen; lia).
  destruct (drop 49 rest) as [|m51 [|? ?]] eqn:Hlast;
    try (apply (f_equal length) in Hlast; rewrite length_drop in Hlast;
         simpl in Hlen, Hlast; lia).
  set (mid := take 49 rest) in *. clearbody mid. subst rest. clear Hlast.
  apply Forall_cons in Hall as [Hm1 Hall].
  apply Forall_app in Hall as [Hmid Hlast].
  apply Forall_cons in Hlast as [Hm51 _].
  (* the first 50 calls find room *)
  change (m1 :: mid ++ [m51]) with ((m1 :: mid) ++ [m51]).
  rewrite fmap_app, addLog_all_app.
  destruct (addLog_all_room (m1 :: mid) (create_screen_ftp w) [])
    as (Hbuf & Hcnt & Hclk & Hreads & Htxt);
    [reflexivity|constructor; assumption|reflexivity|reflexivity
    |cbn [length]; rewrite Hlen49; simpl; lia|].
  change (clock (create_screen_ftp w)) with clk in Hbuf, Hclk.
  change (clock_reads (create_screen_ftp w)) with k in Hbuf, Hreads.
  change (log_buffer (ui (create_screen_ftp w))) with (@nil ascii) in Hbuf.
  change (log_line_count (ui (create_screen_ftp w))) with 0 in Hcnt.
  cbn [length] in Hcnt, Hreads. rewrite Hlen49 in Hcnt, Hreads.
  cbn [app lines_from concat] in Hbuf.
  set (w50 := addLog_all (Some <$> m1 :: mid) (create_screen_ftp w)) in *.
  change (addLog_all (Some <$> [m51]) w50) with (addLog (Some m51) w50).
  destruct (log_textarea (ui w50)) as [t50|] eqn:Ht50; [clear Htxt|congruence].
  (* the 51st evicts the line of the first *)
  pose proof (addLog_log m51 w50 t50 Ht50) as Hlog.
  destruct (next_log_line_one_line m51 w50 Hm51) as [Hline51 Hlen51].
  rewrite Hclk, Hreads in Hline51.
  destruct Hm1 as [Hl1 Hnl1].
  destruct (strchr_full_line (strftime_HMS (clk k)) m1
              (concat (lines_from clk (S k) mid))
              (strftime_HMS_no_NL _) Hnl1 (length_strftime_HMS _)) as [Hchr Hdrop].
  rewrite <- Hbuf in Hchr, Hdrop.
  pose proof (strlen_concat_lines clk (S k) mid Hmid) as Hmidlen.
  rewrite Hlen49 in Hmidlen.
  assert (Hbuflen : strlen (log_buffer (ui w50)) = 1100).
  { rewrite Hbuf, strlen_app, Hmidlen. unfold strlen.
    rewrite length_full_line by apply length_strftime_HMS.
    rewrite Hl1. reflexivity. }
  replace (log_line_count (ui w50)) with 50 in Hlog by (rewrite Hcnt; reflexivity).
  rewrite (log_append_evict_oldest _ _ _ Hchr) in Hlog
    by (unfold strlen in Hbuflen, Hlen51 |- *; lia).
  rewrite Hdrop, Hline51 in Hlog. injection Hlog as Hb51 Hc51.
  rewrite (addLog_shown m51 w50 t50 Ht50), Hb51, Hc51.
  (* the lines of the 2nd to the 51st message *)
  change ((m1 :: mid) ++ [m51]) with (m1 :: (mid ++ [m51])).
  cbn [lines_from drop]. rewrite lines_from_app. cbn [lines_from].
  rewrite !drop_0, concat_app. cbn [concat]. rewrite app_nil_r.
  replace (S k + length mid)%nat with (k + 50)%nat by lia.
  split; [reflexivity|].
  split; [rewrite length_app, length_lines_from; cbn [length]; lia|].
  split; reflexivity.
Qed.

#[local] Instance one_line_dec (m : c_str) : Decision (one_line m).
Proof. unfold one_line. apply _. Defined.

Lemma log_ring_keeps_last_fifty_witness :
  last_fifty_kept fifty_one_messages (power_on noon).
Proof.
  apply (log_ring_keeps_last_fifty fifty_one_messages (power_on noon)).
  - vm_compute. reflexivity.
  - apply (bool_decide_unpack _). vm_compute. exact I.
Defined.

(** The same run evaluated: the ring starts with the line of the second
    message and ends with the line of the last. *)
Example fifty_one_messages_run :
  let w := addLog_all (Some <$> fifty_one_messages) (create_screen_ftp (power_on noon)) in
  take 22 (log_buffer (ui w)) = lit "[12:00:00] message001" ++ [NL] /\
  drop 1078 (log_buffer (ui w)) = lit "[12:00:00] message050" ++ [NL] /\
  strlen (log_buffer (ui w)) = 1100.
Proof. vm_compute. repeat split. Qed.

(** ** The log ring: the budgets *)

Lemma terminators_nonneg s : 0 <= terminators s.
Proof. induction s as [|c s IH]; cbn [terminators]; [lia|]. destruct (Ascii.eqb c NL); lia. Qed.

Lemma terminators_app a b : terminators (a ++ b) = terminators a + terminators b.
Proof. induction a as [|c a IH]; cbn [app terminators]; [reflexivity|]. rewrite IH. lia. Qed.

Lemma terminators_none s : NL ∉ s -> terminators s = 0.
Proof.
  induction s as [|c s IH]; intros H; cbn [terminators]; [reflexivity|].
  apply not_elem_of_cons in H as [Hne Hs]. rewrite (IH Hs).
  destruct (Ascii.eqb c NL) eqn:E; [apply Ascii.eqb_eq in E; congruence|reflexivity].
Qed.

Lemma terminators_take n s : terminators (take n s) <= terminators s.
Proof.
  revert n. induction s as [|c s IH]; intros [|n]; cbn [take terminators]; try lia.
  - pose proof (terminators_nonneg s). destruct (Ascii.eqb c NL); lia.
  - specialize (IH n). lia.
Qed.

(** Dropping the text up to its first line terminator takes one away. *)
Lemma terminators_drop_first s i :
  strchr s NL = Some i -> terminators (drop (S i) s) = terminators s - 1.
Proof.
  revert i. induction s as [|c s IH]; intros i; cbn [strchr terminators];
    [discriminate|].
  destruct (Ascii.eqb c NL).
  - intros [= <-]. rewrite skipn_cons, drop_0. lia.
  - destruct (strchr s NL) as [j|]; cbn [option_map]; [|discriminate].
    intros [= <-]. rewrite skipn_cons, (IH j eq_refl). lia.
Qed.

Lemma evict_for_bytes_terminators rounds line_len max_len r :
  0 <= terminators (r_buffer r) <= r_count r ->
  0 <= terminators (r_buffer (evict_for_bytes rounds line_len max_len r))
    <= r_count (evict_for_bytes rounds line_len max_len r).
Proof.
  revert r. induction rounds as [|n IH]; intros r H; cbn [evict_for_bytes];
    [exact H|].
  destruct ((max_len <? size_t (r_current_len r + line_len)) && (0 <? r_count r));
    [|exact H].
  destruct (strchr (r_buffer r) NL) as [i|] eqn:Hi.
  - apply IH. cbn [r_buffer r_count].
    rewrite (terminators_drop_first _ _ Hi).
    pose proof (terminators_nonneg (drop (S i) (r_buffer r))) as Hd.
    rewrite (terminators_drop_first _ _ Hi) in Hd. lia.
  - cbn [r_buffer r_count terminators]. lia.
Qed.

Lemma evict_for_lines_terminators rounds r :
  0 <= terminators (r_buffer r) <= r_count r ->
  0 <= terminators (r_buffer (evict_for_lines rounds r))
    <= r_count (evict_for_lines rounds r).
Proof.
  revert r. induction rounds as [|n IH]; intros r H; cbn [evict_for_lines];
    [exact H|].
  destruct (MAX_LOG_LINES <=? r_count r); [|exact H].
  destruct (strchr (r_buffer r) NL) as [i|] eqn:Hi.
  - apply IH. cbn [r_buffer r_count].
    rewrite (terminators_drop_first _ _ Hi).
    pose proof (terminators_nonneg (drop (S i) (r_buffer r))) as Hd.
    rewrite (terminators_drop_first _ _ Hi) in Hd. lia.
  - cbn [r_buffer r_count terminators]. lia.
Qed.

(** One append of a line with at most one terminator. *)
Lemma log_append_terminators line buf cnt :
  terminators line <= 1 -> 0 <= terminators buf <= cnt ->
  0 <= terminators (log_append line buf cnt).1 <= (log_append line buf cnt).2.
Proof.
  intros Hline Hbuf. unfold log_append. cbv zeta.
  set (r0 := {| r_buffer := buf; r_count := cnt;
                r_current_len := size_t (strlen buf) |}).
  pose proof (evict_for_bytes_terminators (Z.to_nat cnt) (size_t (strlen line))
                (size_t (sizeof_log_buffer - 1)) r0 Hbuf) as H1.
  set (r1 := evict_for_bytes (Z.to_nat cnt) (size_t (strlen line))
               (size_t (sizeof_log_buffer - 1)) r0) in *.
  pose proof (evict_for_lines_terminators (Z.to_nat (r_count r1)) r1 H1) as H2.
  set (r2 := evict_for_lines (Z.to_nat (r_count r1)) r1) in *.
  assert (Hcpy : forall n, 0 <= terminators (strncpy line n) <= 1).
  { intros n. unfold strncpy.
    pose proof (terminators_take (Z.to_nat n) line).
    pose proof (terminators_nonneg (take (Z.to_nat n) line)). lia. }
  destruct (size_t (size_t (strlen (r_buffer r2)) + size_t (strlen line))
            <=? size_t (sizeof_log_buffer - 1)); cbn [fst snd].
  - destruct (size_t (strlen (r_buffer r2)) =? 0).
    + pose proof (Hcpy (size_t (sizeof_log_buffer - 1))). lia.
    + unfold strncat. rewrite terminators_app.
      match goal with |- context [take ?n line] =>
        pose proof (terminators_take n line);
        pose proof (terminators_nonneg (take n line)) end.
      lia.
  - pose proof (Hcpy (size_t (sizeof_log_buffer - 1))). lia.
Qed.

Lemma terminators_format_log_line t msg :
  NL ∉ msg -> terminators (format_log_line (strftime_HMS t) msg) <= 1.
Proof.
  intros Hmsg. unfold format_log_line, snprintf.
  etrans; [apply terminators_take|].
  rewrite !terminators_app.
  rewrite (terminators_none (strftime_HMS t)) by apply strftime_HMS_no_NL.
  rewrite (terminators_none msg) by exact Hmsg.
  reflexivity.
Qed.

Lemma addLog_terminators m w :
  on_one_line m ->
  0 <= terminators (log_buffer (ui w)) <= log_line_count (ui w) ->
  0 <= terminators (log_buffer (ui (addLog m w))) <= log_line_count (ui (addLog m w)).
Proof.
  intros Hm Hw.
  destruct (log_textarea (ui w)) as [t|] eqn:Ht;
    [destruct m as [msg|]|]; try (unfold addLog; rewrite Ht; exact Hw).
  pose proof (addLog_log msg w t Ht) as Hlog.
  pose proof (f_equal fst Hlog) as Hb. pose proof (f_equal snd Hlog) as Hc.
  cbn [fst snd] in Hb, Hc. rewrite Hb, Hc.
  apply log_append_terminators; [|exact Hw].
  apply terminators_format_log_line, (Hm msg eq_refl).
Qed.

Lemma addLog_all_terminators msgs w :
  Forall on_one_line msgs ->
  0 <= terminators (log_buffer (ui w)) <= log_line_count (ui w) ->
  0 <= terminators (log_buffer (ui (addLog_all msgs w)))
    <= log_line_count (ui (addLog_all msgs w)).
Proof.
  intros Hall. revert w. induction Hall as [|m msgs Hm Hall IH]; intros w Hw;
    [exact Hw|].
  change (addLog_all (m :: msgs) w) with (addLog_all msgs (addLog m w)).
  apply IH, addLog_terminators; assumption.
Qed.

(** C1, as amended: after [create_screen_ftp], whatever the messages
    (null ones included) and the clock readings, the text held in
    [log_buffer] with its terminator fits the 5000 bytes of the array
    and the counter [log_line_count] stays between 0 and 50, after each
    single call of [addLog]: the bounds are stated for every prefix
    [take k msgs] of the calls.  When no message contains a line
    terminator, the lines the buffer holds, counted by their
    terminators, are never more than [log_line_count], hence never more
    than 50. *)
Theorem addLog_never_exceeds_budgets (w : world) (msgs : list (option c_str))
    (k : nat) :
  budgets_kept msgs k w.
Proof.
  unfold budgets_kept. cbv zeta.
  pose proof (addLog_all_within_budget (take k msgs) _
                (create_screen_ftp_within_budget w)) as [Hb Hc].
  split; [exact Hb|]. split; [exact Hc|].
  intros Hall. apply addLog_all_terminators.
  - apply Forall_take, Hall.
  - cbn. lia.
Qed.

(** C1 as stated fails: the counter counts calls, not lines.  Fifty
    messages of three lines each leave 150 line terminators in the
    buffer, three times the line budget, while [log_line_count] reads
    50. *)
Lemma addLog_newlines_exceed_line_budget :
  terminators
    (log_buffer
       (ui (addLog_all (repeat (Some three_lines) 50)
              (create_screen_ftp (power_on noon))))) = 150 /\
  log_line_count
    (ui (addLog_all (repeat (Some three_lines) 50)
           (create_screen_ftp (power_on noon)))) = 50 /\
  MAX_LOG_LINES
  < terminators
      (log_buffer
         (ui (addLog_all (repeat (Some three_lines) 50)
                (create_screen_ftp (power_on noon))))).
Proof. vm_compute. repeat split. Qed.

(** ** The log ring: clearing *)

(** X1: with the screen built, [clearLog] leaves an empty buffer, a zero
    counter and an empty text area, whatever was logged before. *)
Theorem clearLog_empties (w : world) (t : c_str) :
  log_textarea (ui w) = Some t ->
  log_buffer (ui (clearLog w)) = [] /\
  log_line_count (ui (clearLog w)) = 0 /\
  log_textarea (ui (clearLog w)) = Some [].
Proof.
  intros Ht. unfold clearLog. rewrite Ht. repeat split.
Qed.

Lemma clearLog_empties_witness :
  log_buffer (ui (clearLog monitoring_entry)) = [] /\
  log_line_count (ui (clearLog monitoring_entry)) = 0 /\
  log_textarea (ui (clearLog monitoring_entry)) = Some [].
Proof.
  apply (clearLog_empties monitoring_entry (log_buffer (ui monitoring_entry))).
  vm_compute. reflexivity.
Defined.

(** * Further properties *)

(** ** The log ring holds the latest lines *)

Lemma evict_for_bytes_S rounds line_len max_len r :
  evict_for_bytes (S rounds) line_len max_len r =
  if (max_len <? size_t (r_current_len r + line_len)) && (0 <? r_count r) then
    match strchr (r_buffer r) NL with
    | Some first_newline =>
        evict_for_bytes rounds line_len max_len
          {| r_buffer := drop (S first_newline) (r_buffer r);
             r_count := r_count r - 1;
             r_current_len :=
               size_t (r_current_len r - size_t (Z.of_nat first_newline + 1)) |}
    | None => {| r_buffer := []; r_count := 0; r_current_len := 0 |}
    end
  else r.
Proof. reflexivity. Qed.

(** A full ring without room in bytes: the first loop evicts the oldest
    line, and that is enough. *)
Lemma log_append_evict_oldest_for_bytes line buf i :
  strchr buf NL = Some i -> (S i < length buf)%nat ->
  strlen buf <= 4999 -> 4999 < strlen buf + strlen line ->
  strlen (drop (S i) buf) + strlen line <= 4999 ->
  log_append line buf 50 = (drop (S i) buf ++ line, 50).
Proof.
  intros Hi Hrest Hbuf Hover Hfit.
  pose proof (strlen_nonneg line) as Hl0.
  pose proof (strlen_drop (S i) buf ltac:(lia)) as Hd.
  assert (Hb : strlen buf = Z.of_nat (length buf)) by reflexivity.
  unfold log_append.
  change (size_t (sizeof_log_buffer - 1)) with 4999.
  rewrite (size_t_small (strlen buf)), (size_t_small (strlen line)) by lia.
  replace (Z.to_nat 50) with (S 49) by reflexivity.
  rewrite evict_for_bytes_S. cbn [r_count r_buffer r_current_len].
  rewrite (size_t_small (strlen buf + strlen line)) by lia.
  destruct (4999 <? strlen buf + strlen line) eqn:E; [|lia].
  change (0 <? 50) with true. cbn [andb]. rewrite Hi.
  assert (Hcur : size_t (strlen buf - size_t (Z.of_nat i + 1))
                 = strlen (drop (S i) buf)).
  { rewrite (size_t_small (Z.of_nat i + 1)) by lia.
    rewrite size_t_small by lia. lia. }
  rewrite Hcur.
  rewrite evict_for_bytes_noop
    by (cbn [r_current_len]; rewrite size_t_small; lia).
  cbn [r_count r_buffer].
  rewrite evict_for_lines_noop by (cbn [r_count]; unfold MAX_LOG_LINES; lia).
  cbn [r_count r_buffer].
  rewrite (size_t_small (strlen (drop (S i) buf))) by lia.
  rewrite (size_t_small (strlen (drop (S i) buf) + strlen line)) by lia.
  destruct (strlen (drop (S i) buf) + strlen line <=? 4999) eqn:E2; [|lia].
  destruct (strlen (drop (S i) buf) =? 0) eqn:Ez; [lia|].
  unfold strncat. rewrite size_t_small by lia.
  rewrite take_ge by (unfold strlen in *; lia).
  reflexivity.
Qed.

Lemma length_concat_whole_lines ls :
  Forall whole_line ls ->
  (length ls <= length (concat ls) <= 99 * length ls)%nat.
Proof.
  induction 1 as [|l ls (body & -> & _ & Hlen) _ IH]; simpl; [lia|].
  rewrite !length_app in *. simpl in *. lia.
Qed.

(** One append to a ring of whole lines: the oldest line goes when, and
    only when, 50 lines are held. *)
Lemma log_append_whole_lines ls line :
  Forall whole_line ls -> (length ls <= 50)%nat -> whole_line line ->
  log_append line (concat ls) (Z.of_nat (length ls))
  = (concat (last_lines (ls ++ [line])),
     Z.of_nat (length (last_lines (ls ++ [line])))).
Proof.
  intros Hls Hlen Hline. unfold last_lines. change (Z.to_nat MAX_LOG_LINES) with 50%nat.
  pose proof (length_concat_whole_lines ls Hls) as Hbytes.
  assert (Hl99 : strlen line <= 99).
  { destruct Hline as (b & _ & _ & H). unfold strlen. lia. }
  rewrite length_app. cbn [length].
  destruct (decide (length ls = 50%nat)) as [Hfull|Hroom].
  - destruct ls as [|l1 rest]; [discriminate|].
    apply Forall_cons in Hls as [(body & -> & Hnl & Hl1) Hrest].
    cbn [length] in Hfull |- *.
    replace (S (length rest) + 1 - 50)%nat with 1%nat by lia.
    cbn [app drop]. rewrite ?drop_0.
    pose proof (length_concat_whole_lines rest Hrest) as Hrb.
    assert (Hcat : concat ((body ++ [NL]) :: rest) = body ++ NL :: concat rest).
    { cbn [concat]. rewrite <- app_assoc. reflexivity. }
    assert (Hchr : strchr (concat ((body ++ [NL]) :: rest)) NL = Some (length body)).
    { rewrite Hcat. apply strchr_first, Hnl. }
    assert (Hdrop : drop (S (length body)) (concat ((body ++ [NL]) :: rest))
                    = concat rest).
    { rewrite Hcat.
      change (body ++ NL :: concat rest) with (body ++ [NL] ++ concat rest).
      rewrite app_assoc.
      replace (S (length body)) with (length (body ++ [NL]))
        by (rewrite length_app; simpl; lia).
      apply drop_app_length. }
    assert (Hres : log_append line (concat ((body ++ [NL]) :: rest)) 50
                   = (concat rest ++ line, 50)).
    { rewrite <- Hdrop.
      destruct (Z.le_gt_cases
                  (strlen (concat ((body ++ [NL]) :: rest)) + strlen line) 4999)
        as [Hfit|Hover].
      - apply log_append_evict_oldest; [exact Hchr| |exact Hfit].
        rewrite Hcat, length_app. simpl. lia.
      - apply log_append_evict_oldest_for_bytes; [exact Hchr| | | |].
        + rewrite Hcat, length_app. simpl. lia.
        + unfold strlen. rewrite Hcat, length_app. simpl.
          rewrite length_app in Hl1. simpl in Hl1. lia.
        + lia.
        + rewrite Hdrop. unfold strlen in *. lia. }
    replace (Z.of_nat (S (length rest))) with 50 by lia.
    rewrite Hres, concat_app, length_app. cbn [concat length].
    rewrite app_nil_r. f_equal. lia.
  - replace (length ls + 1 - 50)%nat with 0%nat by lia. rewrite drop_0.
    rewrite log_append_room by (unfold strlen in *; lia).
    rewrite concat_app, length_app. cbn [concat length]. rewrite app_nil_r.
    f_equal. lia.
Qed.

Lemma last_lines_length ls : (length (last_lines ls) <= 50)%nat.
Proof.
  unfold last_lines. change (Z.to_nat MAX_LOG_LINES) with 50%nat.
  rewrite length_drop. lia.
Qed.

(** Keeping the last 50 as lines arrive is keeping the last 50 of all. *)
Lemma last_lines_app ls new : last_lines (last_lines ls ++ new) = last_lines (ls ++ new).
Proof.
  unfold last_lines. change (Z.to_nat MAX_LOG_LINES) with 50%nat.
  rewrite <- (drop_app_le ls new) by lia.
  rewrite drop_drop, length_drop, !length_app. f_equal. lia.
Qed.

Lemma whole_line_full_line t m : plain m -> whole_line (full_line (strftime_HMS t) m).
Proof.
  intros [Hlen Hnl]. exists (lit "[" ++ strftime_HMS t ++ lit "] " ++ m).
  split; [unfold full_line; rewrite <- !app_assoc; reflexivity|]. split.
  - change (lit "[") with ["["%char]. change (lit "] ") with ["]"%char; " "%char].
    rewrite !not_elem_of_app, !not_elem_of_cons.
    repeat split; try discriminate; try assumption;
      try apply not_elem_of_nil; apply strftime_HMS_no_NL.
  - rewrite length_full_line by apply length_strftime_HMS. lia.
Qed.

Lemma Forall_whole_line_last ls : Forall whole_line ls -> Forall whole_line (last_lines ls).
Proof. unfold last_lines. apply Forall_drop. Qed.

(** The ring holds whole lines [ls] and plain messages arrive. *)
Lemma addLog_all_latest msgs ls w t :
  log_textarea (ui w) = Some t ->
  Forall plain msgs -> Forall whole_line ls -> (length ls <= 50)%nat ->
  log_buffer (ui w) = concat ls ->
  log_line_count (ui w) = Z.of_nat (length ls) ->
  log_buffer (ui (addLog_all (Some <$> msgs) w))
    = concat (last_lines (ls ++ lines_from (clock w) (clock_reads w) msgs)) /\
  log_line_count (ui (addLog_all (Some <$> msgs) w))
    = Z.of_nat (length (last_lines (ls ++ lines_from (clock w) (clock_reads w) msgs))).
Proof.
  intros Ht Hall. revert ls w t Ht.
  induction Hall as [|m msgs Hm _ IH]; intros ls w t Ht Hls Hlen Hbuf Hcnt.
  { cbn [lines_from fmap list_fmap]. rewrite app_nil_r.
    unfold last_lines. change (Z.to_nat MAX_LOG_LINES) with 50%nat.
    replace (length ls - 50)%nat with 0%nat by lia. rewrite drop_0.
    split; assumption. }
  change (addLog_all (Some <$> m :: msgs) w)
    with (addLog_all (Some <$> msgs) (addLog (Some m) w)).
  pose proof (addLog_log m w t Ht) as Hlog.
  assert (Hline : next_log_line m w = full_line (strftime_HMS (clock w (clock_reads w))) m).
  { unfold next_log_line. destruct Hm as [Hl _].
    apply format_log_line_short; [apply length_strftime_HMS|exact Hl]. }
  pose proof (whole_line_full_line (clock w (clock_reads w)) m Hm) as Hwl.
  rewrite Hbuf, Hcnt, Hline, (log_append_whole_lines ls _ Hls Hlen Hwl) in Hlog.
  injection Hlog as Hb1 Hc1.
  destruct (IH (last_lines (ls ++ [full_line (strftime_HMS (clock w (clock_reads w))) m]))
              (addLog (Some m) w) _ (addLog_shown m w t Ht)) as [H1 H2].
  - apply Forall_whole_line_last, Forall_app. split; [exact Hls|]. constructor; [exact Hwl|constructor].
  - apply last_lines_length.
  - exact Hb1.
  - exact Hc1.
  - rewrite addLog_clock, (addLog_clock_reads m w t Ht) in H1, H2.
    rewrite last_lines_app, <- app_assoc in H1, H2.
    cbn [lines_from]. split; assumption.
Qed.

(** X2: after [create_screen_ftp], any number of messages of at most 87
    bytes without a line terminator are logged.  The buffer then holds
    the lines of the latest 50 of them (of all of them while there are
    fewer), whole and in the order of the calls, and [log_line_count] is
    the number of lines it holds. *)
Theorem log_ring_holds_latest_lines (msgs : list c_str) (w : world) :
  Forall plain msgs -> ring_holds_latest msgs w.
Proof.
  intros Hall. unfold ring_holds_latest. cbv zeta.
  destruct (addLog_all_latest msgs [] (create_screen_ftp w) [] eq_refl Hall)
    as [H1 H2]; [constructor|simpl; lia|reflexivity|reflexivity|].
  cbn [app] in H1, H2.
  change (clock (create_screen_ftp w)) with (clock w) in H1, H2.
  change (clock_reads (create_screen_ftp w)) with (clock_reads w) in H1, H2.
  split; [exact H1|]. split; [exact H2|].
  unfold last_lines. change (Z.to_nat MAX_LOG_LINES) with 50%nat.
  rewrite length_drop, length_lines_from. lia.
Qed.

#[local] Instance plain_dec (m : c_str) : Decision (plain m).
Proof. unfold plain. apply _. Defined.

Lemma log_ring_holds_latest_lines_witness :
  ring_holds_latest (lit "" :: lit "boot" :: fifty_one_messages) (power_on noon).
Proof.
  apply (log_ring_holds_latest_lines (lit "" :: lit "boot" :: fifty_one_messages)
           (power_on noon)).
  apply (bool_decide_unpack _). vm_compute. exact I.
Defined.

(** ** The log operations keep the screen and the buffer together *)

(** X3: with the screen built and the buffer within its budget, one
    [addLog] leaves a suffix of the earlier text followed by the new
    line, so eviction takes from the front only and the newest line is
    always last; the text area is given the new buffer, by one
    [lv_textarea_set_text] and one scroll request. *)
Theorem addLog_appends_at_end (msg : c_str) (w : world) (t : c_str) :
  log_textarea (ui w) = Some t -> log_within_budget w -> appended_at_end msg w.
Proof.
  intros Ht [Hb Hc]. unfold appended_at_end, shows_buffer. cbv zeta.
  unfold sizeof_log_buffer, MAX_LOG_LINES, MAX_LINE_LENGTH in Hb.
  pose proof (addLog_log msg w t Ht) as Hlog.
  destruct (log_append_spec (next_log_line msg w) (log_buffer (ui w))
              (log_line_count (ui w))) as (_ & _ & kept & Hk1 & Hk2);
    [apply strlen_format_log_line|lia|lia|].
  rewrite <- Hlog in Hk2. cbn [fst] in Hk2.
  split; [exists kept; split; assumption|].
  split; [apply (addLog_shown msg w t Ht)|].
  rewrite addLog_trace, Ht. reflexivity.
Qed.

Lemma addLog_appends_at_end_witness : appended_at_end (lit "hello") monitoring_entry.
Proof.
  apply (addLog_appends_at_end (lit "hello") monitoring_entry
           (log_buffer (ui monitoring_entry))).
  - vm_compute. reflexivity.
  - vm_compute. split; [|split]; discriminate.
Defined.

Lemma clearLog_frame w :
  clock (clearLog w) = clock w /\ clock_reads (clearLog w) = clock_reads w.
Proof. unfold clearLog. destruct (log_textarea (ui w)); split; reflexivity. Qed.

(** X4: with the screen built, a click on the clear button leaves
    exactly one line in the buffer, the "Log cleared" notice stamped
    with the time of the click, whatever was logged before; the counter
    is 1 and the text area shows that line.  Any other event code sent
    to the button's callback changes nothing. *)
Theorem clear_button_leaves_one_line (w : world) (t : c_str) :
  log_textarea (ui w) = Some t -> cleared_by_button w.
Proof.
  intros Ht. unfold cleared_by_button, shows_buffer. cbv zeta.
  split; [|split; [|split; [|split; reflexivity]]];
    unfold clear_button_event_cb;
    assert (Hc : log_textarea (ui (clearLog w)) = Some [])
      by (unfold clearLog; rewrite Ht; reflexivity);
    pose proof (addLog_log (lit "#00ff00 [OK] Log cleared#") (clearLog w) [] Hc) as Hlog;
    assert (Hbuf : log_buffer (ui (clearLog w)) = [])
      by (unfold clearLog; rewrite Ht; reflexivity);
    assert (Hcnt : log_line_count (ui (clearLog w)) = 0)
      by (unfold clearLog; rewrite Ht; reflexivity);
    rewrite Hbuf, Hcnt in Hlog;
    rewrite log_append_room in Hlog
      by (pose proof (strlen_format_log_line
                        (strftime_HMS (clock (clearLog w) (clock_reads (clearLog w))))
                        (lit "#00ff00 [OK] Log cleared#"));
          unfold next_log_line, strlen in *; simpl length; lia);
    injection Hlog as Hb1 Hc1.
  - rewrite Hb1. unfold next_log_line.
    destruct (clearLog_frame w) as [-> ->].
    rewrite format_log_line_short
      by (rewrite ?length_strftime_HMS; try reflexivity; vm_compute; lia).
    reflexivity.
  - rewrite Hc1. reflexivity.
  - apply (addLog_shown _ _ _ Hc).
Qed.

Lemma clear_button_leaves_one_line_witness : cleared_by_button monitoring_entry.
Proof.
  apply (clear_button_leaves_one_line monitoring_entry
           (log_buffer (ui monitoring_entry))).
  vm_compute. reflexivity.
Defined.

Lemma clearLog_keeps_screen w :
  shows_buffer w -> shows_buffer (clearLog w) /\ log_within_budget (clearLog w).
Proof.
  unfold shows_buffer, clearLog. intros H. rewrite H.
  split; [reflexivity|].
  unfold log_within_budget; simpl.
  unfold strlen, sizeof_log_buffer, MAX_LOG_LINES, MAX_LINE_LENGTH; simpl. lia.
Qed.

Lemma addLog_keeps_screen m w : shows_buffer w -> shows_buffer (addLog m w).
Proof.
  intros H. destruct m as [msg|].
  - apply (addLog_shown msg w _ H).
  - unfold addLog. destruct (log_textarea (ui w)); exact H.
Qed.

(** X5: after [create_screen_ftp], whatever sequence of [addLog] calls
    (null messages included), [clearLog] calls and events on the clear
    button follows, the text area shows exactly the buffer, the buffer
    with its terminator fits the 5000 bytes of the array and
    [log_line_count] stays between 0 and 50. *)
Theorem log_ops_keep_screen_and_budget (ops : list log_op) (w : world) :
  shows_buffer (run_log_ops ops (create_screen_ftp w)) /\
  log_within_budget (run_log_ops ops (create_screen_ftp w)).
Proof.
  assert (Hstep : forall o w', shows_buffer w' /\ log_within_budget w' ->
            shows_buffer (run_log_op o w') /\ log_within_budget (run_log_op o w')).
  { intros o w' [Hs Hb]. destruct o as [m| |code]; cbn [run_log_op].
    - split; [apply addLog_keeps_screen, Hs|apply addLog_within_budget, Hb].
    - apply clearLog_keeps_screen, Hs.
    - destruct code; cbn [clear_button_event_cb]; [|split; assumption..].
      destruct (clearLog_keeps_screen w' Hs) as [Hs' Hb'].
      split; [apply addLog_keeps_screen, Hs'|apply addLog_within_budget, Hb']. }
  assert (Hrun : forall ops' w', shows_buffer w' /\ log_within_budget w' ->
            shows_buffer (run_log_ops ops' w') /\ log_within_budget (run_log_ops ops' w')).
  { induction ops' as [|o ops' IH]; intros w' H; [exact H|].
    change (run_log_ops (o :: ops') w') with (run_log_ops ops' (run_log_op o w')).
    apply IH, Hstep, H. }
  apply Hrun. split; [reflexivity|apply create_screen_ftp_within_budget].
Qed.

(** ** Where a toggle ends *)

Lemma face_addLog m w : face (addLog m w) = face w.
Proof.
  unfold face. rewrite addLog_switch, addLog_status_label, addLog_spinner. reflexivity.
Qed.

Lemma face_update_status s w sw old hidden :
  face w = (sw, Some old, Some hidden) ->
  face (update_status s w) = (sw, Some s, Some (negb (spins s))).
Proof.
  unfold face. intros [= Hsw Hst Hsp]. unfold update_status. rewrite Hst.
  cbn [spinner ui emit with_ui set_status_label]. rewrite Hsp.
  fold (spins s). destruct (spins s); cbn; rewrite Hsw; reflexivity.
Qed.

Lemma face_set_server_switch_state b w old st sp :
  face w = (Some old, st, sp) -> face (set_server_switch_state b w) = (Some b, st, sp).
Proof.
  unfold face. intros [= Hsw Hst Hsp]. unfold set_server_switch_state.
  rewrite Hsw. cbn. rewrite Hst, Hsp. reflexivity.
Qed.

Lemma update_status_shows s w : shows_buffer w -> shows_buffer (update_status s w).
Proof.
  unfold shows_buffer. intros H. rewrite update_status_textarea, H.
  f_equal. update_status_cases s w; reflexivity.
Qed.

Lemma set_server_switch_state_shows b w :
  shows_buffer w -> shows_buffer (set_server_switch_state b w).
Proof.
  unfold shows_buffer, set_server_switch_state.
  destruct (server_switch (ui w)); intros H; exact H.
Qed.

Section ToggleOutcome.

Variable CONFIG_FTP_USER : c_str.

(** X6: the screen is built, the handler registered, the service
    instance there and no operation in flight; the switch shows [c] and
    the user taps it.  Switching off ends with the switch off, the
    status "Stopped" and the spinner hidden.  Switching on asks
    [isEnabled()] once after the start: if the service reports enabled
    the switch stays on, the status is "Ready" and the spinner shows; if
    not, the switch is put back to off, the status is "Error" and the
    spinner is hidden.  In every case the in-flight flag is clear again
    and the text area shows the buffer. *)
Theorem toggle_ends_settled (enabled c hidden : bool) (w : world) (s : c_str)
    (srv : Server) :
  face w = (Some c, Some s, Some hidden) ->
  shows_buffer w ->
  ftp_control_callback (ui w) = Some ftp_control_handler_ptr ->
  ftpServer (main w) = Some srv ->
  ftp_operation_in_progress (ui w) = false ->
  toggle_settles CONFIG_FTP_USER enabled c w.
Proof.
  intros Hface Hshow Hcb Hsrv Hflag. unfold toggle_settles. cbv zeta.
  pose proof Hface as [= Hsw Hst Hsp].
  unfold user_toggle, user_toggle_via. rewrite Hsw.
  unfold server_switch_event_cb_via.
  set (w2 := with_ui (set_server_switch (Some (negb c))) w).
  change (server_switch (ui w2)) with (Some (negb c)).
  change (ftp_operation_in_progress (ui w2)) with (ftp_operation_in_progress (ui w)).
  rewrite Hflag.
  assert (Hface2 : face (with_ui (set_ftp_operation_in_progress true) w2)
                   = (Some (negb c), Some s, Some hidden)).
  { unfold face, w2. cbn. rewrite Hst, Hsp. reflexivity. }
  assert (Hshow2 : shows_buffer (with_ui (set_ftp_operation_in_progress true) w2)).
  { unfold shows_buffer, w2 in *. cbn. exact Hshow. }
  set (w3 := with_ui (set_ftp_operation_in_progress true) w2) in *.
  assert (Hmain3 : main w3 = main w) by reflexivity.
  assert (Hcb3 : ftp_control_callback (ui w3) = Some ftp_control_handler_ptr)
    by exact Hcb.
  assert (Htr3 : trace w3 = trace w) by reflexivity.
  clearbody w3. clear w2.
  destruct c; cbn [negb].
  - (* switching off *)
    set (w4 := update_status (lit "Stopping...")
                 (addLog (Some (lit "Stopping FTP server...")) w3)).
    assert (Hface4 : face w4 = (Some false, Some (lit "Stopping..."), Some false)).
    { unfold w4. erewrite face_update_status; [reflexivity|].
      rewrite face_addLog. exact Hface2. }
    assert (Hshow4 : shows_buffer w4)
      by (apply update_status_shows, addLog_keeps_screen, Hshow2).
    assert (Hcb4 : ftp_control_callback (ui w4) = Some ftp_control_handler_ptr)
      by (unfold w4; rewrite update_status_callback, addLog_callback; exact Hcb3).
    assert (Hmain4 : main w4 = main w)
      by (unfold w4; rewrite update_status_main, addLog_main; exact Hmain3).
    assert (Htr4 : count_calls is_isEnabled (trace w4)
                   = count_calls is_isEnabled (trace w)).
    { unfold w4. rewrite count_calls_update_status, count_calls_addLog by reflexivity.
      rewrite Htr3. reflexivity. }
    clearbody w4. rewrite Hcb4.
    unfold call_control_fn, ftp_control_handler. rewrite Hmain4, Hsrv.
    split; [reflexivity|].
    change (face (reset_ftp_operation_flag ?x)) with (face x).
    change (trace (reset_ftp_operation_flag ?x)) with (trace x).
    split; [|split].
    + erewrite face_update_status; [reflexivity|].
      rewrite face_addLog. exact Hface4.
    + rewrite count_calls_update_status, count_calls_addLog by reflexivity.
      rewrite count_calls_emit, Htr4. simpl. lia.
    + apply (update_status_shows _ (addLog _ (emit Server_stop w4))).
      apply addLog_keeps_screen. exact Hshow4.
  - (* switching on *)
    set (w4 := update_status (lit "Starting...")
                 (addLog (Some (lit "Starting FTP server...")) w3)).
    assert (Hface4 : face w4 = (Some true, Some (lit "Starting..."), Some false)).
    { unfold w4. erewrite face_update_status; [reflexivity|].
      rewrite face_addLog. exact Hface2. }
    assert (Hshow4 : shows_buffer w4)
      by (apply update_status_shows, addLog_keeps_screen, Hshow2).
    assert (Hcb4 : ftp_control_callback (ui w4) = Some ftp_control_handler_ptr)
      by (unfold w4; rewrite update_status_callback, addLog_callback; exact Hcb3).
    assert (Hmain4 : main w4 = main w)
      by (unfold w4; rewrite update_status_main, addLog_main; exact Hmain3).
    assert (Htr4 : count_calls is_isEnabled (trace w4)
                   = count_calls is_isEnabled (trace w)).
    { unfold w4. rewrite count_calls_update_status, count_calls_addLog by reflexivity.
      rewrite Htr3. reflexivity. }
    clearbody w4. rewrite Hcb4.
    unfold call_control_fn, ftp_control_handler. rewrite Hmain4, Hsrv.
    split; [reflexivity|].
    change (face (reset_ftp_operation_flag ?x)) with (face x).
    change (trace (reset_ftp_operation_flag ?x)) with (trace x).
    set (w5 := emit Server_isEnabled (emit (vTaskDelay 500) (emit Server_start w4))).
    assert (Hface5 : face w5 = face w4) by reflexivity.
    assert (Hshow5 : shows_buffer w5) by exact Hshow4.
    assert (Htr5 : count_calls is_isEnabled (trace w5)
                   = S (count_calls is_isEnabled (trace w))).
    { unfold w5. rewrite !count_calls_emit, Htr4. simpl. lia. }
    clearbody w5.
    destruct enabled.
    + split; [|split].
      * rewrite face_addLog. erewrite face_update_status; [reflexivity|].
        rewrite face_addLog, Hface5. exact Hface4.
      * rewrite count_calls_addLog, count_calls_update_status, count_calls_addLog
          by reflexivity.
        rewrite Htr5. lia.
      * apply addLog_keeps_screen, update_status_shows, addLog_keeps_screen, Hshow5.
    + split; [|split].
      * erewrite face_set_server_switch_state; [reflexivity|].
        erewrite face_update_status; [reflexivity|].
        rewrite face_addLog, Hface5. exact Hface4.
      * rewrite set_server_switch_state_trace, count_calls_update_status,
          count_calls_addLog by reflexivity.
        rewrite Htr5. lia.
      * apply set_server_switch_state_shows, update_status_shows,
          addLog_keeps_screen, Hshow5.
Qed.

End ToggleOutcome.

Lemma toggle_ends_settled_witness :
  toggle_settles (lit "esp32") false false monitoring_entry.
Proof.
  apply (toggle_ends_settled (lit "esp32") false false true monitoring_entry
           (lit "Stopped") ServerInstance); vm_compute; reflexivity.
Defined.

(** ** WiFi events: the counter, the reconnects, the bits *)

Lemma got_ip_main addr w :
  s_retry_num (main (wifi_event_handler (IP_EVENT_STA_GOT_IP addr) w)) = 0 /\
  s_wifi_event_group (main (wifi_event_handler (IP_EVENT_STA_GOT_IP addr) w))
  = Z.lor (s_wifi_event_group (main w)) WIFI_CONNECTED_BIT /\
  connects (wifi_event_handler (IP_EVENT_STA_GOT_IP addr) w) = connects w.
Proof.
  unfold wifi_event_handler, set_event_bits.
  set (m1 := snprintf 64 (lit "IP: " ++ IPSTR addr)).
  set (m2 := snprintf 64 (IPSTR addr)).
  assert (Hmain : main (if screen_created (main (safe_log m1 w))
                        then update_ip_label m2 (safe_log m1 w)
                        else safe_log m1 w) = main w).
  { destruct (screen_created _); rewrite ?update_ip_label_main, safe_log_main;
      reflexivity. }
  assert (Hcon : connects (if screen_created (main (safe_log m1 w))
                           then update_ip_label m2 (safe_log m1 w)
                           else safe_log m1 w) = connects w).
  { unfold connects.
    destruct (screen_created _);
      rewrite ?count_calls_update_ip_label by reflexivity;
      apply safe_log_connects. }
  set (x := if screen_created (main (safe_log m1 w))
            then update_ip_label m2 (safe_log m1 w) else safe_log m1 w) in *.
  clearbody x.
  split; [reflexivity|]. split.
  - cbn [main emit with_main s_wifi_event_group set_s_wifi_event_group
         set_s_retry_num]. rewrite Hmain. reflexivity.
  - unfold connects in *. rewrite count_calls_emit.
    repeat (progress change (trace (with_main ?f ?y)) with (trace y)).
    rewrite Hcon. cbn [is_connect]. lia.
Qed.

Lemma sta_start_frame w :
  main (wifi_event_handler WIFI_EVENT_STA_START w) = main w /\
  connects (wifi_event_handler WIFI_EVENT_STA_START w) = S (connects w).
Proof.
  split; [reflexivity|]. unfold connects, wifi_event_handler.
  rewrite count_calls_emit. cbn [is_connect]. lia.
Qed.

Lemma disconnect_give_up_group w :
  10 <= s_retry_num (main w) ->
  s_wifi_event_group (main (wifi_event_handler WIFI_EVENT_STA_DISCONNECTED w))
  = Z.lor (s_wifi_event_group (main w)) WIFI_FAIL_BIT.
Proof.
  intros H. unfold wifi_event_handler.
  destruct (s_retry_num (main w) <? 10) eqn:E; [lia|].
  rewrite safe_log_main. reflexivity.
Qed.

Lemma retry_in_budget_step e w :
  retry_in_budget w -> retry_in_budget (wifi_event_handler e w).
Proof.
  unfold retry_in_budget. intros H. destruct e.
  - exact H.
  - destruct (Z.lt_ge_cases (s_retry_num (main w)) 10) as [Hlt|Hge].
    + destruct (disconnect_retry w Hlt) as (-> & _). lia.
    + destruct (disconnect_give_up w Hge) as (-> & _). lia.
  - exact H.
  - destruct (got_ip_main addr w) as (-> & _). lia.
Qed.

(** X7: whatever events arrive, in whatever order, a retry counter
    between 0 and 10 stays between 0 and 10. *)
Theorem retry_counter_stays_in_budget (events : list esp_event) (w : world) :
  retry_in_budget w -> retry_in_budget (deliver events w).
Proof.
  revert w. induction events as [|e events IH]; intros w H; [exact H|].
  change (deliver (e :: events) w) with (deliver events (wifi_event_handler e w)).
  apply IH, retry_in_budget_step, H.
Qed.

Lemma retry_counter_stays_in_budget_witness :
  retry_in_budget
    (deliver (repeat WIFI_EVENT_STA_DISCONNECTED 12
              ++ [IP_EVENT_STA_GOT_IP 0x0A01A8C0; WIFI_EVENT_STA_DISCONNECTED])
       screen_on).
Proof.
  apply (retry_counter_stays_in_budget
           (repeat WIFI_EVENT_STA_DISCONNECTED 12
            ++ [IP_EVENT_STA_GOT_IP 0x0A01A8C0; WIFI_EVENT_STA_DISCONNECTED])
           screen_on).
  vm_compute. split; discriminate.
Defined.

(** X8: the retry counter is between 0 and 10 and a run of events
    without [GOT_IP] arrives.  The handler calls [esp_wifi_connect] once
    for every [STA_START] and once for each of the first
    [10 - s_retry_num] [STA_DISCONNECTED] events, and for no other. *)
Theorem reconnects_are_counted (events : list esp_event) (w : world) :
  retry_in_budget w ->
  Forall (fun e => is_got_ip e = false) events ->
  connects_counted events w.
Proof.
  intros Hr Hev. revert w Hr. unfold connects_counted, retry_in_budget.
  induction Hev as [|e events He _ IH]; intros w Hr.
  { unfold sta_starts, disconnects. simpl. lia. }
  change (deliver (e :: events) w) with (deliver events (wifi_event_handler e w)).
  pose proof (retry_in_budget_step e w Hr) as Hr'. unfold retry_in_budget in Hr'.
  rewrite (IH _ Hr').
  destruct e; try discriminate; unfold sta_starts, disconnects;
    cbn [List.filter is_sta_start is_disconnect length].
  - destruct (sta_start_frame w) as [-> ->]. lia.
  - destruct (Z.lt_ge_cases (s_retry_num (main w)) 10) as [Hlt|Hge].
    + destruct (disconnect_retry w Hlt) as (-> & _ & ->). lia.
    + destruct (disconnect_give_up w Hge) as (-> & _ & ->). lia.
  - change (wifi_event_handler WIFI_EVENT_other w) with w. lia.
Qed.

Lemma reconnects_are_counted_witness :
  connects_counted
    (WIFI_EVENT_STA_START :: repeat WIFI_EVENT_STA_DISCONNECTED 13) screen_on.
Proof.
  apply (reconnects_are_counted
           (WIFI_EVENT_STA_START :: repeat WIFI_EVENT_STA_DISCONNECTED 13) screen_on).
  - vm_compute. split; discriminate.
  - repeat constructor.
Defined.

Lemma repeat_disconnects k w :
  retry_in_budget w ->
  connects (deliver (repeat WIFI_EVENT_STA_DISCONNECTED k) w)
  = (connects w + Nat.min k (Z.to_nat (10 - s_retry_num (main w))))%nat.
Proof.
  revert w. unfold retry_in_budget.
  induction k as [|k IH]; intros w Hr; [simpl; lia|].
  change (deliver (repeat WIFI_EVENT_STA_DISCONNECTED (S k)) w)
    with (deliver (repeat WIFI_EVENT_STA_DISCONNECTED k)
            (wifi_event_handler WIFI_EVENT_STA_DISCONNECTED w)).
  pose proof (retry_in_budget_step WIFI_EVENT_STA_DISCONNECTED w Hr) as Hr'.
  unfold retry_in_budget in Hr'. rewrite (IH _ Hr').
  destruct (Z.lt_ge_cases (s_retry_num (main w)) 10) as [Hlt|Hge].
  - destruct (disconnect_retry w Hlt) as (-> & _ & ->). lia.
  - destruct (disconnect_give_up w Hge) as (-> & _ & ->). lia.
Qed.

(** X9: a [GOT_IP] event sets the retry counter to zero and the
    connected bit, leaves the failure bit as it was and calls
    [esp_wifi_connect] not at all; of [k] [STA_DISCONNECTED] events that
    follow it, the first ten are each answered by one reconnect and the
    others by none.  The retry budget is renewed by every address
    obtained, in every state. *)
Theorem got_ip_renews_retry_budget (addr : Z) (k : nat) (w : world) :
  budget_renewed addr k w.
Proof.
  unfold budget_renewed. cbv zeta.
  destruct (got_ip_main addr w) as (Hr & Hg & Hc).
  split; [exact Hr|]. unfold connected_bit, fail_bit. rewrite Hg.
  split; [rewrite Z.lor_spec; apply orb_true_r|].
  split; [rewrite Z.lor_spec; apply orb_false_r|].
  split; [exact Hc|].
  rewrite repeat_disconnects by (unfold retry_in_budget; rewrite Hr; lia).
  rewrite Hr, Hc. reflexivity.
Qed.

Lemma bits_step e w n :
  Z.testbit (s_wifi_event_group (main (wifi_event_handler e w))) n
  = Z.testbit (s_wifi_event_group (main w)) n
    || match e with
       | IP_EVENT_STA_GOT_IP _ => Z.testbit WIFI_CONNECTED_BIT n
       | WIFI_EVENT_STA_DISCONNECTED =>
           negb (s_retry_num (main w) <? 10) && Z.testbit WIFI_FAIL_BIT n
       | _ => false
       end.
Proof.
  destruct e.
  - rewrite orb_false_r. reflexivity.
  - destruct (Z.lt_ge_cases (s_retry_num (main w)) 10) as [Hlt|Hge].
    + destruct (disconnect_retry w Hlt) as (_ & -> & _).
      destruct (s_retry_num (main w) <? 10) eqn:E; [|lia].
      rewrite orb_false_r. reflexivity.
    + rewrite (disconnect_give_up_group w Hge), Z.lor_spec.
      destruct (s_retry_num (main w) <? 10) eqn:E; [lia|]. reflexivity.
  - rewrite orb_false_r. reflexivity.
  - destruct (got_ip_main addr w) as (_ & -> & _). apply Z.lor_spec.
Qed.

Lemma testbit_small_const c n : 0 <= c < 4 -> 2 <= n -> Z.testbit c n = false.
Proof.
  intros Hc Hn. destruct (Z.eq_dec c 0) as [->|Hne]; [apply Z.testbit_0_l|].
  apply Z.bits_above_log2; [lia|].
  assert (Z.log2 c < 2) by (apply Z.log2_lt_pow2; lia). lia.
Qed.

(** X10: over any run of events the connected bit ends set exactly when
    it was set before or the run holds a [GOT_IP]; a failure bit that
    is set stays set (no event clears a bit, [GOT_IP] after a failure
    leaves both set); and no bit other than these two ever changes. *)
Theorem event_bits_only_rise (events : list esp_event) (w : world) :
  bits_after events w.
Proof.
  unfold bits_after, connected_bit, fail_bit.
  revert w. induction events as [|e events IH]; intros w.
  { simpl. rewrite orb_false_r. repeat split; auto. }
  change (deliver (e :: events) w) with (deliver events (wifi_event_handler e w)).
  destruct (IH (wifi_event_handler e w)) as (H0 & H1 & H2).
  split; [|split].
  - rewrite H0, bits_step. cbn [existsb].
    change (Z.testbit WIFI_CONNECTED_BIT 0) with true.
    change (Z.testbit WIFI_FAIL_BIT 0) with false.
    destruct e; cbn [is_got_ip]; rewrite ?andb_false_r;
      destruct (Z.testbit (s_wifi_event_group (main w)) 0),
               (existsb is_got_ip events); reflexivity.
  - intros Hf. apply H1. rewrite bits_step, Hf. reflexivity.
  - intros n Hn. rewrite (H2 n Hn), bits_step.
    destruct e; rewrite ?orb_false_r; try reflexivity.
    + rewrite (testbit_small_const WIFI_FAIL_BIT n) by (unfold WIFI_FAIL_BIT, BIT1; lia).
      rewrite andb_false_r, orb_false_r. reflexivity.
    + rewrite (testbit_small_const WIFI_CONNECTED_BIT n)
        by (unfold WIFI_CONNECTED_BIT, BIT0; lia).
      apply orb_false_r.
Qed.

(** ** The address on the screen *)

Lemma length_dec_octet n : (1 <= length (dec_octet n) <= 3)%nat.
Proof.
  unfold dec_octet. destruct (n <? 10)%nat; [simpl; lia|].
  destruct (n <? 100)%nat; simpl; lia.
Qed.

Lemma length_IPSTR addr : (7 <= length (IPSTR addr) <= 15)%nat.
Proof.
  unfold IPSTR. rewrite !length_app.
  change (length (lit ".")) with 1%nat.
  pose proof (length_dec_octet (ip_octet addr 0)).
  pose proof (length_dec_octet (ip_octet addr 1)).
  pose proof (length_dec_octet (ip_octet addr 2)).
  pose proof (length_dec_octet (ip_octet addr 3)).
  lia.
Qed.

Lemma addLog_ip_label m w : ip_label (ui (addLog m w)) = ip_label (ui w).
Proof. addLog_cases m w; reflexivity. Qed.

Lemma safe_log_ip_label m w : ip_label (ui (safe_log m w)) = ip_label (ui w).
Proof.
  unfold safe_log. destruct (screen_created (main w)); [apply addLog_ip_label|reflexivity].
Qed.

(** X11: with the screen created, a [GOT_IP] event puts "IP: " and the
    dotted quad of the address on the IP label, by one call that sets
    its text.  The quad is 7 to 15 bytes long, so neither of the two
    64-byte buffers it passes through cuts it. *)
Theorem got_ip_shows_address (addr : Z) (w : world) (old : c_str) :
  screen_created (main w) = true -> ip_label (ui w) = Some old ->
  address_shown addr w.
Proof.
  intros Hscr Hip. unfold address_shown. cbv zeta.
  pose proof (length_IPSTR addr) as Hlen.
  split; [|split; [exact Hlen|]].
  - unfold wifi_event_handler, set_event_bits.
    cbn [ui emit with_main].
    rewrite safe_log_main, Hscr.
    unfold update_ip_label. rewrite safe_log_ip_label, Hip.
    cbn [ui emit with_ui ip_label set_ip_label].
    f_equal. unfold snprintf. change (Z.to_nat (64 - 1)) with 63%nat.
    rewrite (take_ge (IPSTR addr)) by lia.
    apply take_ge. rewrite length_app. change (length (lit "IP: ")) with 4%nat. lia.
  - unfold wifi_event_handler, set_event_bits.
    rewrite count_calls_emit.
    repeat (progress change (trace (with_main ?f ?y)) with (trace y)).
    rewrite safe_log_main, Hscr.
    unfold update_ip_label. rewrite safe_log_ip_label, Hip.
    rewrite count_calls_emit.
    change (trace (with_ui ?f ?y)) with (trace y).
    unfold safe_log. rewrite Hscr.
    rewrite count_calls_addLog by reflexivity. lia.
Qed.

Lemma got_ip_shows_address_witness : address_shown 0x0A01A8C0 screen_on.
Proof.
  apply (got_ip_shows_address 0x0A01A8C0 screen_on (lit "IP: Connecting..."));
    reflexivity.
Defined.

(** The same event evaluated. *)
Example got_ip_label_run :
  ip_label (ui (wifi_event_handler (IP_EVENT_STA_GOT_IP 0x0A01A8C0) screen_on))
  = Some (lit "IP: 192.168.1.10").
Proof. vm_compute. reflexivity. Qed.

(** *** The quad identifies the address *)

Lemma app_sep_inj (sep : ascii) p p' r r' :
  sep ∉ p -> sep ∉ p' -> p ++ sep :: r = p' ++ sep :: r' -> p = p' /\ r = r'.
Proof.
  revert p'. induction p as [|x p IH]; intros p' Hp Hp' Heq.
  - destruct p' as [|y p']; simpl in Heq.
    + injection Heq as ->. split; reflexivity.
    + injection Heq as <- _. exfalso. apply Hp'. left.
  - destruct p' as [|y p']; simpl in Heq.
    + injection Heq as -> _. exfalso. apply Hp. left.
    + injection Heq as -> Heq.
      apply not_elem_of_cons in Hp as [_ Hp].
      apply not_elem_of_cons in Hp' as [_ Hp'].
      destruct (IH p' Hp Hp' Heq) as [-> ->]. split; reflexivity.
Qed.

Lemma digit_not_dot n : digit n <> "."%char.
Proof.
  unfold digit. intros H.
  apply (f_equal nat_of_ascii) in H.
  rewrite nat_ascii_embedding in H by (pose proof (Nat.mod_upper_bound n 10); lia).
  change (nat_of_ascii ".") with 46%nat in H. lia.
Qed.

Lemma dec_octet_no_dot n : "."%char ∉ dec_octet n.
Proof.
  unfold dec_octet.
  destruct (n <? 10)%nat; [|destruct (n <? 100)%nat];
    rewrite !not_elem_of_cons; repeat split;
    try apply not_elem_of_nil; intros H; symmetry in H; exact (digit_not_dot _ H).
Qed.

(** Reading back what ["%d"] printed, for every octet. *)
Lemma digits_value_dec_octet n : (n < 256)%nat -> digits_value (dec_octet n) = n.
Proof.
  intros Hn.
  assert (Hall : forallb (fun k => Nat.eqb (digits_value (dec_octet k)) k) (seq 0 256)
                 = true) by (vm_compute; reflexivity).
  rewrite forallb_forall in Hall.
  apply Nat.eqb_eq, Hall, in_seq. lia.
Qed.

Lemma ip_octet_lt addr k : (ip_octet addr k < 256)%nat.
Proof.
  unfold ip_octet. change 255 with (Z.ones 8).
  rewrite Z.land_ones by lia.
  pose proof (Z.mod_pos_bound (Z.shiftr addr (8 * k)) (2 ^ 8) ltac:(lia)). lia.
Qed.

Lemma ip_octet_testbit addr k j :
  0 <= k -> 0 <= j < 8 ->
  Z.testbit (Z.of_nat (ip_octet addr k)) j = Z.testbit addr (8 * k + j).
Proof.
  intros Hk Hj. unfold ip_octet.
  rewrite Z2Nat.id by (apply Z.land_nonneg; right; lia).
  rewrite Z.land_spec, Z.shiftr_spec by lia.
  change 255 with (Z.ones 8). rewrite Z.ones_spec_low by lia.
  rewrite andb_true_r. f_equal. lia.
Qed.

(** X12: two addresses that are printed as the same dotted quad are the
    same 32-bit address: what the label and the log show identifies the
    address obtained. *)
Theorem IPSTR_identifies_address (a b : Z) :
  IPSTR a = IPSTR b -> a mod 2 ^ 32 = b mod 2 ^ 32.
Proof.
  intros Heq. unfold IPSTR in Heq. change (lit ".") with ["."%char] in Heq.
  cbn [app] in Heq.
  apply app_sep_inj in Heq as [H0 Heq]; try apply dec_octet_no_dot.
  apply app_sep_inj in Heq as [H1 Heq]; try apply dec_octet_no_dot.
  apply app_sep_inj in Heq as [H2 H3]; try apply dec_octet_no_dot.
  assert (Hoct : forall k, k = 0 \/ k = 1 \/ k = 2 \/ k = 3 ->
                           ip_octet a k = ip_octet b k).
  { intros k Hk.
    rewrite <- (digits_value_dec_octet (ip_octet a k)) by apply ip_octet_lt.
    rewrite <- (digits_value_dec_octet (ip_octet b k)) by apply ip_octet_lt.
    destruct Hk as [-> | [-> | [-> | ->]]]; congruence. }
  apply Z.bits_inj'. intros n Hn.
  destruct (Z.lt_ge_cases n 32) as [Hlt|Hge].
  - rewrite !Z.mod_pow2_bits_low by lia.
    replace n with (8 * (n / 8) + n mod 8) by (pose proof (Z.div_mod n 8); lia).
    rewrite <- !ip_octet_testbit
      by (try apply Z.div_pos; try apply Z.mod_pos_bound; lia).
    rewrite Hoct; [reflexivity|].
    assert (0 <= n / 8 < 4)
      by (split; [apply Z.div_pos; lia|apply Z.div_lt_upper_bound; lia]).
    lia.
  - rewrite !Z.mod_pow2_bits_high by lia. reflexivity.
Qed.

Lemma IPSTR_identifies_address_witness :
  0x0A01A8C0 mod 2 ^ 32 = (0x0A01A8C0 + 2 ^ 32) mod 2 ^ 32.
Proof.
  apply (IPSTR_identifies_address 0x0A01A8C0 (0x0A01A8C0 + 2 ^ 32)).
  vm_compute. reflexivity.
Defined.

(** ** The boot: how it ends and what it leaves *)

Lemma log_step_refl w : log_step w w.
Proof. unfold log_step. intuition auto. Qed.

Lemma log_step_trans w1 w2 w3 : log_step w1 w2 -> log_step w2 w3 -> log_step w1 w3.
Proof.
  intros (A1 & A2 & A3 & A4 & A5 & A6 & A7) (B1 & B2 & B3 & B4 & B5 & B6 & B7).
  unfold log_step. intuition (auto; congruence).
Qed.

Lemma log_step_same_ui w w' :
  ui w' = ui w -> screen_created (main w') = screen_created (main w) ->
  ftpServer (main w') = ftpServer (main w) -> log_step w w'.
Proof.
  intros Hui Hscr Hsrv.
  unfold log_step, face, shows_buffer, log_within_budget. rewrite Hui.
  intuition auto.
Qed.

Lemma log_step_addLog m w : log_step w (addLog m w).
Proof.
  unfold log_step. rewrite face_addLog, addLog_callback, addLog_flag, addLog_main.
  intuition auto using addLog_keeps_screen, addLog_within_budget.
Qed.

Lemma log_step_safe_log m w : log_step w (safe_log m w).
Proof.
  unfold safe_log. destruct (screen_created (main w));
    [apply log_step_addLog|apply log_step_refl].
Qed.

Lemma log_step_update_ip_label ip w : log_step w (update_ip_label ip w).
Proof.
  unfold update_ip_label. destruct (ip_label (ui w)); [|apply log_step_refl].
  unfold log_step, face, shows_buffer, log_within_budget.
  cbn [ui emit with_ui set_ip_label server_switch status_label spinner
       ftp_control_callback ftp_operation_in_progress log_textarea log_buffer
       log_line_count main].
  intuition auto.
Qed.

Lemma log_step_wifi_event_handler e w : log_step w (wifi_event_handler e w).
Proof.
  destruct e; cbn [wifi_event_handler].
  - apply log_step_same_ui; reflexivity.
  - destruct (s_retry_num (main w) <? 10).
    + apply log_step_same_ui; reflexivity.
    + eapply log_step_trans; [|apply log_step_safe_log].
      apply log_step_same_ui; reflexivity.
  - apply log_step_refl.
  - cbv zeta.
    pose proof (log_step_safe_log (snprintf 64 (lit "IP: " ++ IPSTR addr)) w) as H1.
    set (w1 := safe_log (snprintf 64 (lit "IP: " ++ IPSTR addr)) w) in *.
    pose proof (log_step_update_ip_label (snprintf 64 (IPSTR addr)) w1) as H2.
    destruct (screen_created (main w1)).
    + apply (log_step_trans _ _ _ H1), (log_step_trans _ _ _ H2).
      apply log_step_same_ui; reflexivity.
    + apply (log_step_trans _ _ _ H1). apply log_step_same_ui; reflexivity.
Qed.

Lemma log_step_deliver events w : log_step w (deliver events w).
Proof.
  revert w. induction events as [|e events IH]; intros w; [apply log_step_refl|].
  change (deliver (e :: events) w) with (deliver events (wifi_event_handler e w)).
  eapply log_step_trans; [apply log_step_wifi_event_handler|apply IH].
Qed.

Lemma log_step_storage_init env w : log_step w (storage_init env w).2.
Proof.
  unfold storage_init, mountSDCARD.
  eapply log_step_trans; [apply (log_step_addLog (Some (lit "Initializing storage...")))|].
  destruct (negb (spi_bus_initialize_ret env =? ESP_OK));
    [|destruct (negb (sdspi_mount_ret env =? ESP_OK))];
    apply log_step_same_ui; reflexivity.
Qed.

Lemma land_connected_bit x :
  negb (Z.land x WIFI_CONNECTED_BIT =? 0) = Z.testbit x 0.
Proof.
  change WIFI_CONNECTED_BIT with (Z.ones 1).
  rewrite Z.land_ones by lia. change (2 ^ 1) with 2.
  rewrite <- Z.bit0_mod. destruct (Z.testbit x 0); reflexivity.
Qed.

Lemma connected_bit_deliver events w :
  connected_bit (deliver events w) = connected_bit w || existsb is_got_ip events.
Proof.
  revert w. induction events as [|e events IH]; intros w.
  { simpl. rewrite orb_false_r. reflexivity. }
  change (deliver (e :: events) w) with (deliver events (wifi_event_handler e w)).
  rewrite IH. unfold connected_bit. rewrite bits_step.
  cbn [existsb]. rewrite <- orb_assoc. f_equal.
  destruct e; cbn [is_got_ip]; rewrite ?andb_false_r; reflexivity.
Qed.

(** The storage phase in terms of the two mounts. *)
Lemma storage_init_has_storage env w : (storage_init env w).1 = has_storage env.
Proof. apply storage_init_spec. Qed.

Lemma connect_and_serve_result env w :
  (connect_and_serve env w).1
  = if wifi_setup_ok env
    then match server_alloc env with Some _ => MonitoringLoop | None => Returned end
    else Aborted.
Proof.
  unfold connect_and_serve, wifi_init.
  destruct (wifi_setup_ok env); [|reflexivity].
  cbn [negb fst snd]. cbv zeta.
  change (ftpServer (main (emit new_Server (with_main (set_ftpServer ?a) ?x)))) with a.
  destruct (server_alloc env); reflexivity.
Qed.

Lemma screen_and_storage_result env w :
  (screen_and_storage env w).1
  = if has_storage env then
      if wifi_setup_ok env
      then match server_alloc env with Some _ => MonitoringLoop | None => Returned end
      else Aborted
    else Returned.
Proof.
  unfold screen_and_storage. cbv zeta.
  match goal with |- context [storage_init env ?x] =>
    rewrite <- (storage_init_has_storage env x);
    destruct (storage_init env x) as [hs w1] end.
  cbn [fst]. destruct hs; [|reflexivity].
  cbn [negb]. apply connect_and_serve_result.
Qed.

Lemma app_main_result_eq env w :
  (app_main env w).1
  = if core_init env then
      if display_comes_back env then
        if has_storage env then
          if wifi_setup_ok env
          then match server_alloc env with
               | Some _ => MonitoringLoop
               | None => Returned
               end
          else Aborted
        else Returned
      else Aborted
    else Aborted.
Proof.
  destruct (core_init env) eqn:Hcore.
  - destruct (display_comes_back env) eqn:Hdisp.
    + rewrite (app_main_phase2 env w Hcore Hdisp). apply screen_and_storage_result.
    + unfold app_main, display_comes_back in *. cbv zeta. rewrite Hcore. cbn [negb].
      change (display (CHECKPOINT (CHECKPOINT (CHECKPOINT w)))) with (display w).
      rewrite (lcd_init_comes_back (display_answers env) (display w)), Hdisp.
      reflexivity.
  - unfold app_main. cbv zeta. rewrite Hcore. reflexivity.
Qed.


Lemma foreign_sntp : foreign_to_events is_sntp.
Proof. repeat split. Qed.

Lemma connect_and_serve_sntp env w :
  count_calls is_sntp (trace (connect_and_serve env w).2)
  = (count_calls is_sntp (trace w)
     + if wifi_setup_ok env && existsb is_got_ip (wifi_events env) then 1 else 0)%nat.
Proof.
  pose proof foreign_sntp as Hp. pose proof Hp as (H1 & H2 & H3 & _).
  unfold connect_and_serve, wifi_init, CHECKPOINT.
  destruct (wifi_setup_ok env); cbv beta iota zeta; cbn [negb andb].
  - change (ftpServer (main (emit new_Server (with_main (set_ftpServer ?a) ?x))))
      with a.
    rewrite !land_connected_bit.
    change (Z.testbit (s_wifi_event_group (main ?x)) 0) with (connected_bit x).
    rewrite connected_bit_deliver.
    change (connected_bit (emit wifi_init_call (with_main (set_s_wifi_event_group 0) ?x)))
      with false.
    cbn [orb].
    destruct (server_alloc env); cbn [snd];
      destruct (existsb is_got_ip (wifi_events env));
      repeat match goal with |- context [if ?b then _ else _] =>
               lazymatch b with
               | negb _ => destruct b
               end end;
      repeat first
        [ rewrite count_calls_addLog by assumption
        | rewrite count_calls_update_status by assumption
        | rewrite count_calls_emit
        | rewrite count_calls_deliver by assumption
        | progress change (trace (with_main ?f ?x)) with (trace x) ];
      cbn [is_sntp]; lia.
  - cbn [snd]. rewrite count_calls_emit.
    change (trace (with_main ?f ?x)) with (trace x).
    rewrite count_calls_addLog by assumption. rewrite count_calls_emit.
    cbn [is_sntp]. lia.
Qed.

Lemma screen_and_storage_sntp env w :
  count_calls is_sntp (trace (screen_and_storage env w).2)
  = (count_calls is_sntp (trace w)
     + if has_storage env && wifi_setup_ok env && existsb is_got_ip (wifi_events env)
       then 1 else 0)%nat.
Proof.
  pose proof foreign_sntp as Hp. pose proof Hp as (H1 & H2 & H3 & _).
  unfold screen_and_storage. cbv zeta.
  match goal with |- context [storage_init env ?x] =>
    set (w0 := x);
    destruct (storage_init_spec env w0) as (Hs & Hcnt & _);
    fold (has_storage env) in Hs;
    destruct (storage_init env w0) as [hs w1] end.
  cbn [fst snd] in Hs, Hcnt. subst hs.
  assert (Hw1 : count_calls is_sntp (trace w1) = count_calls is_sntp (trace w)).
  { rewrite (Hcnt is_sntp) by assumption. subst w0. unfold CHECKPOINT.
    rewrite !count_calls_emit.
    rewrite count_calls_addLog by assumption.
    unfold register_ftp_control_callback, create_screen_ftp. cbv zeta.
    repeat first
      [ rewrite count_calls_emit
      | progress change (trace (with_ui ?f ?x)) with (trace x)
      | progress change (trace (with_main ?f ?x)) with (trace x) ].
    cbn [is_sntp]. lia. }
  destruct (has_storage env); cbn [negb andb snd].
  - rewrite connect_and_serve_sntp. unfold CHECKPOINT.
    rewrite !count_calls_emit, Hw1. cbn [is_sntp]. lia.
  - rewrite count_calls_addLog by assumption. lia.
Qed.

(** X14: [app_main] starts the time synchronisation once, and only when
    it got as far as waiting for the connection and a [GOT_IP] event
    arrived during the wait; after a failed or timed-out connection, or
    an earlier end of the boot (an abort in phase 1 or 2, no storage),
    [initialize_sntp] is never called. *)
Theorem time_sync_needs_address (env : boot_env) (w : world) :
  time_sync_started env w.
Proof.
  unfold time_sync_started.
  destruct (core_init env) eqn:Hcore.
  - destruct (display_comes_back env) eqn:Hdisp; cbn [andb].
    + rewrite (app_main_phase2 env w Hcore Hdisp), screen_and_storage_sntp.
      destruct (phase2_frame
                  (final (suntonEsp32s3LcdInit (display_answers env) (display w))) w)
        as (_ & _ & _ & _ & Hc).
      cbv zeta in Hc. rewrite (Hc is_sntp) by reflexivity. reflexivity.
    + unfold app_main, display_comes_back in *. cbv zeta. rewrite Hcore. cbn [negb].
      change (display (CHECKPOINT (CHECKPOINT (CHECKPOINT w)))) with (display w).
      rewrite (lcd_init_comes_back (display_answers env) (display w)), Hdisp.
      cbn [snd]. change (trace (set_display ?v ?x)) with (trace x).
      unfold CHECKPOINT. rewrite !count_calls_emit. cbn [is_sntp]. lia.
  - unfold app_main. cbv zeta. rewrite Hcore. cbn [negb andb snd].
    unfold CHECKPOINT. rewrite count_calls_emit. cbn [is_sntp]. lia.
Qed.

Lemma update_status_within_budget s w :
  log_within_budget w -> log_within_budget (update_status s w).
Proof.
  unfold log_within_budget. intros H.
  assert (Hb : log_buffer (ui (update_status s w)) = log_buffer (ui w))
    by (update_status_cases s w; reflexivity).
  assert (Hc : log_line_count (ui (update_status s w)) = log_line_count (ui w))
    by (update_status_cases s w; reflexivity).
  rewrite Hb, Hc. exact H.
Qed.

Lemma log_step_emit c w : log_step w (emit c w).
Proof. apply log_step_same_ui; reflexivity. Qed.

Lemma log_step_CHECKPOINT w : log_step w (CHECKPOINT w).
Proof. apply log_step_emit. Qed.

Lemma log_step_set_event_group a w :
  log_step w (with_main (set_s_wifi_event_group a) w).
Proof. apply log_step_same_ui; reflexivity. Qed.

(** A chain of steps that only log, deliver events or record calls. *)
Ltac log_chain :=
  repeat lazymatch goal with
    | |- log_step ?a ?a => apply log_step_refl
    | |- log_step _ (addLog _ _) => eapply log_step_trans; [|apply log_step_addLog]
    | |- log_step _ (CHECKPOINT _) => eapply log_step_trans; [|apply log_step_CHECKPOINT]
    | |- log_step _ (deliver _ _) => eapply log_step_trans; [|apply log_step_deliver]
    | |- log_step _ (with_main (set_s_wifi_event_group _) _) =>
        eapply log_step_trans; [|apply log_step_set_event_group]
    | |- log_step _ (emit _ _) => eapply log_step_trans; [|apply log_step_emit]
    end.

(** Phase 3 of [app_main]: the screen, the flag and the callback. *)
Lemma screen_phase w :
  let w1 :=
    CHECKPOINT
      (addLog (Some (lit "=== System Starting ==="))
         (register_ftp_control_callback (Some ftp_control_handler_ptr)
            (with_main (set_screen_created true)
               (create_screen_ftp (CHECKPOINT w))))) in
  face w1 = (Some false, Some (lit "Disabled"), Some true) /\
  ftp_control_callback (ui w1) = Some ftp_control_handler_ptr /\
  ftp_operation_in_progress (ui w1) = ftp_operation_in_progress (ui w) /\
  screen_created (main w1) = true /\
  shows_buffer w1 /\ log_within_budget w1.
Proof.
  cbv zeta.
  match goal with |- context [CHECKPOINT (addLog ?m ?x)] =>
    assert (Hs : forall y, log_step y (CHECKPOINT (addLog m y)))
      by (intros y; log_chain);
    destruct (Hs x) as (A1 & A2 & A3 & A4 & _ & A6 & A7); clear Hs
  end.
  rewrite A1, A2, A3, A4.
  split; [reflexivity|]. split; [reflexivity|]. split; [reflexivity|].
  split; [reflexivity|]. split.
  - apply A6. reflexivity.
  - apply A7. apply (create_screen_ftp_within_budget (CHECKPOINT w)).
Qed.

(** Phases 5 to 8 when the setup passes and the service is allocated. *)
Lemma connect_and_serve_ready env w srv sw st hid :
  wifi_setup_ok env = true -> server_alloc env = Some srv ->
  face w = (sw, Some st, Some hid) ->
  let w' := (connect_and_serve env w).2 in
  face w' = (sw, Some (lit "Stopped"), Some true) /\
  ftp_control_callback (ui w') = ftp_control_callback (ui w) /\
  ftp_operation_in_progress (ui w') = ftp_operation_in_progress (ui w) /\
  screen_created (main w') = screen_created (main w) /\
  ftpServer (main w') = Some srv /\
  (shows_buffer w -> shows_buffer w') /\
  (log_within_budget w -> log_within_budget w').
Proof.
  intros Hok Halloc Hface.
  unfold connect_and_serve, wifi_init. rewrite Hok.
  cbv beta iota zeta. cbn [negb].
  change (ftpServer (main (emit new_Server (with_main (set_ftpServer ?a) ?x)))) with a.
  rewrite Halloc. cbn [snd].
  match goal with
  | |- context [emit new_Server (with_main (set_ftpServer (Some srv)) ?x)] =>
      set (w3 := x)
  end.
  assert (H3 : log_step w w3).
  { subst w3.
    set (wc := deliver (wifi_events env)
                 (emit wifi_init_call
                    (with_main (set_s_wifi_event_group 0)
                       (addLog (Some (lit "Connecting to WiFi...")) (CHECKPOINT w))))).
    assert (Hwc : log_step w wc) by (subst wc; log_chain).
    clearbody wc.
    destruct (negb (Z.land (s_wifi_event_group (main wc)) WIFI_CONNECTED_BIT =? 0));
      [|destruct (negb (Z.land (s_wifi_event_group (main wc)) WIFI_FAIL_BIT =? 0))];
      (eapply log_step_trans; [exact Hwc|]); log_chain. }
  clearbody w3.
  destruct H3 as (B1 & B2 & B3 & B4 & _ & B6 & B7).
  set (w4 := emit register_screen_log_callback
               (emit new_Server (with_main (set_ftpServer (Some srv)) w3))).
  assert (H4 : face w4 = face w3 /\ ui w4 = ui w3 /\
               screen_created (main w4) = screen_created (main w3) /\
               ftpServer (main w4) = Some srv) by (repeat split).
  clearbody w4. destruct H4 as (C1 & C2 & C3 & C4).
  pose proof (log_step_addLog (Some (lit "#00ff00 [OK] FTP server ready#")) w4)
    as (D1 & D2 & D3 & D4 & D5 & D6 & D7).
  set (w5 := addLog (Some (lit "#00ff00 [OK] FTP server ready#")) w4) in *.
  clearbody w5.
  assert (Hf5 : face w5 = (sw, Some st, Some hid)) by congruence.
  pose proof (face_update_status (lit "Stopped") w5 _ _ _ Hf5) as E1.
  change (negb (spins (lit "Stopped"))) with true in E1.
  pose proof (update_status_callback (lit "Stopped") w5) as E2.
  pose proof (update_status_flag (lit "Stopped") w5) as E3.
  pose proof (update_status_main (lit "Stopped") w5) as E4.
  pose proof (update_status_shows (lit "Stopped") w5) as E6.
  pose proof (update_status_within_budget (lit "Stopped") w5) as E7.
  set (w6 := update_status (lit "Stopped") w5) in *. clearbody w6.
  assert (Hs : log_step w6
                 (addLog (Some (lit "#00ff00 [OK] === System Ready ===#"))
                    (CHECKPOINT w6))) by log_chain.
  destruct Hs as (F1 & F2 & F3 & F4 & F5 & F6 & F7).
  assert (Hshow4 : shows_buffer w3 -> shows_buffer w4)
    by (unfold shows_buffer; rewrite C2; auto).
  assert (Hbud4 : log_within_budget w3 -> log_within_budget w4)
    by (unfold log_within_budget; rewrite C2; auto).
  split; [rewrite F1; exact E1|].
  split; [rewrite F2, E2, D2, C2; exact B2|].
  split; [rewrite F3, E3, D3, C2; exact B3|].
  split; [rewrite F4, E4, D4, C3; exact B4|].
  split; [rewrite F5, E4, D5; exact C4|].
  split; intros H; auto 10.
Qed.

Lemma screen_and_storage_ready env w :
  (screen_and_storage env w).1 = MonitoringLoop ->
  ready_for_service env w (screen_and_storage env w).2.
Proof.
  intros Hres. rewrite screen_and_storage_result in Hres.
  destruct (has_storage env) eqn:Hst; [|discriminate].
  destruct (wifi_setup_ok env) eqn:Hok; [|discriminate].
  destruct (server_alloc env) as [srv|] eqn:Halloc; [|discriminate].
  unfold screen_and_storage. cbv zeta.
  destruct (screen_phase w) as (A1 & A2 & A3 & A4 & A6 & A7). cbv zeta in *.
  match goal with |- context [storage_init env (CHECKPOINT ?x)] =>
    set (w1 := x) in * end.
  clearbody w1.
  pose proof (storage_init_has_storage env (CHECKPOINT w1)) as Hs.
  assert (Hstep : log_step w1 (storage_init env (CHECKPOINT w1)).2)
    by (eapply log_step_trans; [apply log_step_CHECKPOINT|apply log_step_storage_init]).
  destruct Hstep as (B1 & B2 & B3 & B4 & _ & B6 & B7).
  destruct (storage_init env (CHECKPOINT w1)) as [hs w2]. cbn [fst snd] in *.
  subst hs. rewrite Hst. cbn [negb].
  set (w2' := CHECKPOINT (emit log_storage_info_call w2)).
  assert (C : face w2' = face w2 /\ ui w2' = ui w2 /\ main w2' = main w2)
    by (repeat split).
  clearbody w2'. destruct C as (C1 & C2 & C3).
  assert (Hf : face w2' = (Some false, Some (lit "Disabled"), Some true)) by congruence.
  destruct (connect_and_serve_ready env w2' srv _ _ _ Hok Halloc Hf)
    as (D1 & D2 & D3 & D4 & D5 & D6 & D7).
  cbv zeta in *.
  assert (Hshow : shows_buffer w2') by (unfold shows_buffer in *; rewrite C2; auto).
  assert (Hbud : log_within_budget w2')
    by (unfold log_within_budget in *; rewrite C2; auto).
  unfold ready_for_service.
  rewrite D5, D2, D3, D4, D1, C2, C3, B2, B3, B4, A2, A3, A4.
  repeat split; auto; try discriminate; try apply D7; auto.
Qed.

(** X15: the boot as [app_main] runs it, with the events that arrive
    during the wait and with nobody tapping the switch meanwhile.  When
    it enters the monitoring loop, the service instance is there, the
    screen is marked as created with the control handler registered,
    the switch is off, the status reads "Stopped" with the spinner
    hidden, the in-flight flag is as it was at the start, the text area
    shows the log buffer and the buffer is within its budget. *)
Theorem loop_entered_ready_for_service (env : boot_env) (w : world) :
  (app_main env w).1 = MonitoringLoop ->
  ready_for_service env w (app_main env w).2.
Proof.
  intros Hres. pose proof Hres as Hres'. rewrite app_main_result_eq in Hres'.
  destruct (core_init env) eqn:Hcore; [|discriminate].
  destruct (display_comes_back env) eqn:Hdisp; [|discriminate].
  clear Hres'. rewrite (app_main_phase2 env w Hcore Hdisp) in *.
  destruct (phase2_frame
              (final (suntonEsp32s3LcdInit (display_answers env) (display w))) w)
    as (Hui & _). cbv zeta in Hui.
  match goal with |- context [screen_and_storage env ?x] => set (w0 := x) in * end.
  clearbody w0.
  destruct (screen_and_storage_ready env w0 Hres) as (R1 & R2 & R3 & R4 & R5 & R6).
  unfold ready_for_service. rewrite <- Hui.
  repeat split; try assumption; apply R6.
Qed.

Lemma loop_entered_ready_for_service_witness :
  ready_for_service both_stores_env (power_on noon)
    (app_main both_stores_env (power_on noon)).2.
Proof.
  apply (loop_entered_ready_for_service both_stores_env (power_on noon)).
  vm_compute. reflexivity.
Defined.

(** ** The rounds of the monitoring loop *)

Lemma control_kept_refl w : control_kept w w.
Proof. unfold control_kept. intuition auto. Qed.

Lemma control_kept_trans w1 w2 w3 :
  control_kept w1 w2 -> control_kept w2 w3 -> control_kept w1 w3.
Proof.
  intros (A1 & A2 & A3 & A4 & A5 & A6 & A7) (B1 & B2 & B3 & B4 & B5 & B6 & B7).
  unfold control_kept. intuition (auto; congruence).
Qed.

Lemma control_kept_log_step w w' : log_step w w' -> control_kept w w'.
Proof.
  intros (A1 & A2 & A3 & A4 & A5 & A6 & A7).
  unfold face in A1. injection A1 as A1 _ _.
  unfold control_kept. intuition auto.
Qed.

Lemma control_kept_update_status s w : control_kept w (update_status s w).
Proof.
  unfold control_kept.
  rewrite update_status_switch, update_status_flag, update_status_callback,
    update_status_main.
  intuition auto using update_status_shows, update_status_within_budget.
Qed.

Lemma control_kept_report_ftp_state ste ftp_state w :
  control_kept w (report_ftp_state ste ftp_state w).
Proof.
  unfold report_ftp_state. cbv zeta.
  repeat match goal with |- context [if ?b then _ else _] => destruct b end;
    try apply control_kept_refl;
    (eapply control_kept_trans;
     [apply control_kept_log_step, log_step_addLog|apply control_kept_update_status]).
Qed.

Lemma control_kept_check_sdcard it ret w : control_kept w (check_sdcard it ret w).
Proof.
  unfold check_sdcard.
  destruct ((it mod 10 =? 0) && bool_decide (sdcard (main w) <> None));
    [|apply control_kept_refl].
  cbv zeta.
  set (w1 := emit sdmmc_get_status w).
  assert (H1 : control_kept w w1)
    by (apply control_kept_log_step, log_step_same_ui; reflexivity).
  clearbody w1.
  assert (H2 : forall m b,
             control_kept w (with_main (set_sdcard_was_present b) (addLog m w1))).
  { intros m b. apply (control_kept_trans _ _ _ H1).
    eapply control_kept_trans; [apply control_kept_log_step, (log_step_addLog m)|].
    apply control_kept_log_step, log_step_same_ui; reflexivity. }
  destruct (negb (ret =? ESP_OK) && sdcard_was_present (main w1)); [apply H2|].
  destruct ((ret =? ESP_OK) && negb (sdcard_was_present (main w1))); [apply H2|].
  exact H1.
Qed.

Lemma count_calls_check_sdcard p it ret w :
  (forall x, p (lv_textarea_set_text x) = false) ->
  p lv_obj_scroll_to_y = false ->
  p sdmmc_get_status = false ->
  count_calls p (trace (check_sdcard it ret w)) = count_calls p (trace w).
Proof.
  intros H1 H2 H3. unfold check_sdcard.
  destruct ((it mod 10 =? 0) && bool_decide (sdcard (main w) <> None));
    [|reflexivity].
  cbv zeta.
  repeat match goal with |- context [if ?b then _ else _] => destruct b end;
    repeat first
      [ rewrite count_calls_addLog by assumption
      | rewrite count_calls_emit
      | progress change (trace (with_main ?f ?x)) with (trace x) ];
    rewrite H3; lia.
Qed.

Lemma monitor_tick_round ste ftp_state sd_ret v w :
  let r := monitor_tick ste ftp_state sd_ret (v, w) in
  iteration r.1 = (iteration v + 1) mod 2 ^ 32 /\
  count_calls is_getState (trace r.2) = S (count_calls is_getState (trace w)) /\
  count_calls is_round_delay (trace r.2) = S (count_calls is_round_delay (trace w)) /\
  control_kept w r.2.
Proof.
  cbv zeta. rewrite monitor_tick_unfold. cbn [fst snd iteration].
  assert (Hcnt : forall p,
            (forall x, p (lv_textarea_set_text x) = false) ->
            p lv_obj_scroll_to_y = false ->
            (forall x, p (lv_label_set_text_status x) = false) ->
            p sdmmc_get_status = false ->
            count_calls p (trace (emit (vTaskDelay 1000)
              (check_sdcard (iteration v) sd_ret
                 (watch_ftp_state ste ftp_state (last_ftp_state v) w).2)))
            = (count_calls p (trace w) + (if p Server_getState then 1 else 0)
               + (if p (vTaskDelay 1000) then 1 else 0))%nat).
  { intros p H1 H2 H3 H4.
    rewrite count_calls_emit, count_calls_check_sdcard by assumption.
    unfold watch_ftp_state. cbv zeta.
    destruct (negb (ftp_state =? last_ftp_state v)); cbn [snd];
      rewrite ?count_calls_report_ftp_state by assumption;
      rewrite count_calls_emit; reflexivity. }
  split; [reflexivity|].
  split; [rewrite Hcnt by reflexivity; cbn; lia|].
  split; [rewrite Hcnt by reflexivity; cbn; lia|].
  eapply control_kept_trans;
    [|apply control_kept_log_step, log_step_same_ui; reflexivity].
  eapply control_kept_trans; [|apply control_kept_check_sdcard].
  unfold watch_ftp_state. cbv zeta.
  set (w1 := emit Server_getState w).
  assert (H1 : control_kept w w1)
    by (apply control_kept_log_step, log_step_same_ui; reflexivity).
  clearbody w1.
  destruct (negb (ftp_state =? last_ftp_state v)); cbn [snd]; [|exact H1].
  apply (control_kept_trans _ _ _ H1), control_kept_report_ftp_state.
Qed.

(** X16: every round of the monitoring loop asks the service for its
    state once and sleeps 1000 ms once, and the round counter is the
    number of rounds modulo 2^32.  However the service state and the SD
    card behave, the loop never moves the switch, never touches the
    in-flight flag, the control handler or the service instance, and it
    keeps the text area showing the buffer and the buffer within its
    budget. *)
Theorem monitor_rounds (ste : ftp_state_enum) (answers : list (Z * esp_err_t))
    (v : loop_vars) (w : world) :
  0 <= iteration v < 2 ^ 32 -> rounds_run ste answers v w.
Proof.
  unfold rounds_run. cbv zeta.
  revert v w. induction answers as [|a answers IH]; intros v w Hv.
  { cbn [monitor_loop fold_left length fst snd].
    change (Z.of_nat 0) with 0. rewrite Z.add_0_r, Z.mod_small by lia.
    split; [reflexivity|]. split; [lia|]. split; [lia|]. apply control_kept_refl. }
  change (monitor_loop ste (a :: answers) (v, w))
    with (monitor_loop ste answers (monitor_tick ste a.1 a.2 (v, w))).
  destruct (monitor_tick_round ste a.1 a.2 v w) as (T1 & T2 & T3 & T4).
  cbv zeta in *.
  destruct (monitor_tick ste a.1 a.2 (v, w)) as [v1 w1]. cbn [fst snd] in *.
  assert (Hv1 : 0 <= iteration v1 < 2 ^ 32)
    by (rewrite T1; apply Z.mod_pos_bound; lia).
  destruct (IH v1 w1 Hv1) as (I1 & I2 & I3 & I4).
  split; [|split; [|split]].
  - rewrite I1, T1. cbn [length].
    rewrite Zplus_mod_idemp_l. f_equal. lia.
  - rewrite I2, T2. cbn [length]. lia.
  - rewrite I3, T3. cbn [length]. lia.
  - exact (control_kept_trans _ _ _ T4 I4).
Qed.

Lemma monitor_rounds_witness :
  rounds_run ste_switch_order [(1, ESP_OK); (2, ESP_FAIL)] loop_entry monitoring_entry.
Proof.
  apply (monitor_rounds ste_switch_order [(1, ESP_OK); (2, ESP_FAIL)]
           loop_entry monitoring_entry).
  vm_compute. split; [discriminate|reflexivity].
Defined.

(** ** The monitoring loop: SD card checks *)

(** One [addLog] of a message printed whole shows its line last. *)
Lemma addLog_line_last msg w :
  shows_buffer w -> log_within_budget w -> (length msg <= 87)%nat ->
  log_line_of msg `suffix_of` log_buffer (ui (addLog (Some msg) w)).
Proof.
  intros Hshow [Hb Hc] Hlen.
  unfold sizeof_log_buffer, MAX_LOG_LINES, MAX_LINE_LENGTH in Hb.
  pose proof (addLog_log msg w _ Hshow) as Hlog.
  destruct (log_append_spec (next_log_line msg w) (log_buffer (ui w))
              (log_line_count (ui w))) as (_ & _ & kept & _ & Hk);
    [apply strlen_format_log_line|lia|lia|].
  rewrite <- Hlog in Hk. cbn [fst] in Hk.
  unfold next_log_line in Hk.
  rewrite (format_log_line_short _ msg (length_strftime_HMS _) Hlen) in Hk.
  rewrite Hk. unfold log_line_of.
  exists (kept ++ lit "[" ++ strftime_HMS (clock w (clock_reads w))).
  rewrite <- !app_assoc. reflexivity.
Qed.

Lemma count_announces_same msg w :
  shows_buffer w -> log_within_budget w -> (length msg <= 87)%nat ->
  count_calls (announces msg) (trace (addLog (Some msg) w))
  = S (count_calls (announces msg) (trace w)).
Proof.
  intros Hshow Hbud Hlen.
  pose proof (addLog_line_last msg w Hshow Hbud Hlen) as Hsuf.
  rewrite addLog_trace, count_calls_app, Hshow.
  cbn [count_calls announces].
  rewrite (bool_decide_eq_true_2 _ Hsuf). lia.
Qed.

Lemma count_announces_other M msg w :
  shows_buffer w -> log_within_budget w -> (length msg <= 87)%nat ->
  told_apart msg M = true ->
  count_calls (announces M) (trace (addLog (Some msg) w))
  = count_calls (announces M) (trace w).
Proof.
  intros Hshow Hbud Hlen Hm.
  pose proof (addLog_line_last msg w Hshow Hbud Hlen) as Hsuf.
  rewrite addLog_trace, count_calls_app, Hshow.
  cbn [count_calls announces].
  unfold told_apart in Hm. apply andb_prop in Hm as [H1 H2].
  apply negb_true_iff, bool_decide_eq_false in H1, H2.
  rewrite bool_decide_eq_false_2; [lia|].
  intros HM. destruct (suffix_weak_total _ _ _ Hsuf HM); tauto.
Qed.

Definition is_sd_message (M : c_str) : Prop :=
  M = sd_removed_message \/ M = sd_accessible_message.

Section SdLiveness.

Variable ste : ftp_state_enum.

(** The reports of the service state are not taken for those of the
    card. *)
Lemma count_announces_report_ftp_state M ftp_state w :
  is_sd_message M -> shows_buffer w -> log_within_budget w ->
  count_calls (announces M) (trace (report_ftp_state ste ftp_state w))
  = count_calls (announces M) (trace w).
Proof.
  intros HM Hshow Hbud. unfold report_ftp_state. cbv zeta.
  repeat match goal with |- context [if ?a =? ?b then _ else _] =>
           destruct (a =? b);
           [rewrite count_calls_update_status by reflexivity;
            rewrite count_announces_other
              by first [ assumption | vm_compute; lia
                       | destruct HM as [-> | ->]; vm_compute; reflexivity ];
            reflexivity|]
         end.
  reflexivity.
Qed.

Lemma watch_ftp_state_announces M ftp_state last w :
  is_sd_message M -> shows_buffer w -> log_within_budget w ->
  count_calls (announces M) (trace (watch_ftp_state ste ftp_state last w).2)
  = count_calls (announces M) (trace w).
Proof.
  intros HM Hshow Hbud. unfold watch_ftp_state. cbv zeta.
  destruct (negb (ftp_state =? last)); cbn [snd].
  - rewrite count_announces_report_ftp_state by assumption.
    rewrite count_calls_emit. cbn. lia.
  - rewrite count_calls_emit. cbn. lia.
Qed.

Lemma watch_ftp_state_kept ftp_state last w :
  control_kept w (watch_ftp_state ste ftp_state last w).2.
Proof.
  unfold watch_ftp_state. cbv zeta.
  set (w1 := emit Server_getState w).
  assert (H1 : control_kept w w1)
    by (apply control_kept_log_step, log_step_same_ui; reflexivity).
  clearbody w1.
  destruct (negb (ftp_state =? last)); cbn [snd]; [|exact H1].
  apply (control_kept_trans _ _ _ H1), control_kept_report_ftp_state.
Qed.

(** What the liveness block of one round does: [asked] says whether the
    card is asked at all. *)
Lemma check_sdcard_round it ret w :
  shows_buffer w -> log_within_budget w ->
  let asked := (it mod 10 =? 0) && bool_decide (sdcard (main w) <> None) in
  let seen := sdcard_was_present (main w) in
  let w' := check_sdcard it ret w in
  count_calls is_sd_status (trace w')
    = (count_calls is_sd_status (trace w) + if asked then 1 else 0)%nat /\
  count_calls (announces sd_removed_message) (trace w')
    = (count_calls (announces sd_removed_message) (trace w)
       + if asked && seen && negb (ret =? ESP_OK)%Z then 1 else 0)%nat /\
  count_calls (announces sd_accessible_message) (trace w')
    = (count_calls (announces sd_accessible_message) (trace w)
       + if asked && negb seen && (ret =? ESP_OK)%Z then 1 else 0)%nat /\
  sd_vars w' = (sdcard (main w), if asked then ret =? ESP_OK else seen).
Proof.
  intros Hshow Hbud. cbv zeta. unfold check_sdcard.
  destruct ((it mod 10 =? 0) && bool_decide (sdcard (main w) <> None));
    cbn [andb]; [|unfold sd_vars; repeat split; lia].
  cbv zeta.
  set (w1 := emit sdmmc_get_status w).
  assert (Hshow1 : shows_buffer w1) by exact Hshow.
  assert (Hbud1 : log_within_budget w1) by exact Hbud.
  assert (Hm1 : main w1 = main w) by reflexivity.
  assert (Hsd : count_calls is_sd_status (trace w1)
                = S (count_calls is_sd_status (trace w)))
    by (unfold w1; rewrite count_calls_emit; cbn; lia).
  assert (Han : forall M, count_calls (announces M) (trace w1)
                          = count_calls (announces M) (trace w))
    by (intros M; unfold w1; rewrite count_calls_emit; cbn; lia).
  clearbody w1. rewrite Hm1.
  destruct (ret =? ESP_OK); destruct (sdcard_was_present (main w)) eqn:Ewas;
    cbn [negb andb];
    repeat (progress change (trace (with_main ?f ?x)) with (trace x));
    unfold sd_vars;
    cbn [main with_main sdcard sdcard_was_present set_sdcard_was_present];
    rewrite ?addLog_main, ?Hm1, ?Ewas;
    rewrite ?count_calls_addLog by reflexivity;
    rewrite ?count_announces_same by first [assumption | vm_compute; lia];
    rewrite ?count_announces_other
      by first [assumption | vm_compute; lia | vm_compute; reflexivity];
    rewrite ?Hsd, ?Han;
    fold sd_removed_message sd_accessible_message;
    repeat split; lia.
Qed.

(** One round of the loop. *)
Lemma monitor_tick_sd ftp_state ret v w :
  shows_buffer w -> log_within_budget w ->
  let asked := (iteration v mod 10 =? 0) && bool_decide (sdcard (main w) <> None) in
  let seen := sdcard_was_present (main w) in
  let r := monitor_tick ste ftp_state ret (v, w) in
  iteration r.1 = (iteration v + 1) mod 2 ^ 32 /\
  shows_buffer r.2 /\ log_within_budget r.2 /\
  count_calls is_sd_status (trace r.2)
    = (count_calls is_sd_status (trace w) + if asked then 1 else 0)%nat /\
  count_calls (announces sd_removed_message) (trace r.2)
    = (count_calls (announces sd_removed_message) (trace w)
       + if asked && seen && negb (ret =? ESP_OK)%Z then 1 else 0)%nat /\
  count_calls (announces sd_accessible_message) (trace r.2)
    = (count_calls (announces sd_accessible_message) (trace w)
       + if asked && negb seen && (ret =? ESP_OK)%Z then 1 else 0)%nat /\
  sd_vars r.2 = (sdcard (main w), if asked then ret =? ESP_OK else seen).
Proof.
  intros Hshow Hbud. cbv zeta.
  destruct (monitor_tick_round ste ftp_state ret v w) as (T1 & _ & _ & T4).
  cbv zeta in T1, T4.
  destruct T4 as (_ & _ & _ & _ & _ & K1 & K2).
  split; [exact T1|]. split; [exact (K1 Hshow)|]. split; [exact (K2 Hbud)|].
  rewrite monitor_tick_unfold. cbn [fst snd].
  destruct (watch_ftp_state_frame ste ftp_state (last_ftp_state v) w) as [Hm Hcnt].
  pose proof (watch_ftp_state_kept ftp_state (last_ftp_state v) w)
    as (_ & _ & _ & _ & _ & W1 & W2).
  pose proof (watch_ftp_state_announces sd_removed_message ftp_state
                (last_ftp_state v) w (or_introl eq_refl) Hshow Hbud) as Hr.
  pose proof (watch_ftp_state_announces sd_accessible_message ftp_state
                (last_ftp_state v) w (or_intror eq_refl) Hshow Hbud) as Ha.
  set (w1 := (watch_ftp_state ste ftp_state (last_ftp_state v) w).2) in *.
  clearbody w1.
  destruct (check_sdcard_round (iteration v) ret w1 (W1 Hshow) (W2 Hbud))
    as (C1 & C2 & C3 & C4).
  cbv zeta in C1, C2, C3, C4. rewrite Hm in C1, C2, C3, C4.
  rewrite !count_calls_emit. rewrite sd_vars_emit.
  rewrite C1, C2, C3, C4, Hcnt, Hr, Ha. cbn [is_sd_status announces].
  repeat split; lia.
Qed.

Lemma count_of_app b l1 l2 :
  count_of b (l1 ++ l2) = (count_of b l1 + count_of b l2)%nat.
Proof. unfold count_of. rewrite List.filter_app, length_app. reflexivity. Qed.

(** Any number of rounds, from round [k] on: the card is asked in the
    rounds whose number is a multiple of ten, if there is a handle, and
    each change between successive answers is shown once. *)
Lemma monitor_loop_sd answers k v w :
  iteration v = Z.of_nat k mod 2 ^ 32 ->
  Z.of_nat (k + length answers) <= 2 ^ 32 ->
  shows_buffer w -> log_within_budget w ->
  let w' := (monitor_loop ste answers (v, w)).2 in
  let checks :=
    if bool_decide (sdcard (main w) <> None) then every_tenth k answers else [] in
  let changes := presence_changes (sdcard_was_present (main w)) checks in
  count_calls is_sd_status (trace w')
    = (count_calls is_sd_status (trace w) + length checks)%nat /\
  count_calls (announces sd_removed_message) (trace w')
    = (count_calls (announces sd_removed_message) (trace w)
       + count_of false changes)%nat /\
  count_calls (announces sd_accessible_message) (trace w')
    = (count_calls (announces sd_accessible_message) (trace w)
       + count_of true changes)%nat /\
  sd_vars w' = (sdcard (main w), last_presence (sdcard_was_present (main w)) checks).
Proof.
  cbv zeta. revert k v w.
  induction answers as [|a answers IH]; intros k v w Hit Hlen Hshow Hbud.
  { cbn [monitor_loop fold_left snd every_tenth].
    destruct (bool_decide (sdcard (main w) <> None));
      cbn; unfold sd_vars; repeat split; lia. }
  change (monitor_loop ste (a :: answers) (v, w))
    with (monitor_loop ste answers (monitor_tick ste a.1 a.2 (v, w))).
  cbn [length] in Hlen.
  assert (Hk : iteration v = Z.of_nat k) by (rewrite Hit; apply Z.mod_small; lia).
  destruct (monitor_tick_sd a.1 a.2 v w Hshow Hbud)
    as (T1 & T2 & T3 & T4 & T5 & T6 & T7).
  cbv zeta in T1, T4, T5, T6, T7.
  destruct (monitor_tick ste a.1 a.2 (v, w)) as [v1 w1]. cbn [fst snd] in *.
  assert (Hit1 : iteration v1 = Z.of_nat (S k) mod 2 ^ 32).
  { rewrite T1, Hk. f_equal. lia. }
  assert (Hlen1 : Z.of_nat (S k + length answers) <= 2 ^ 32) by lia.
  destruct (IH (S k) v1 w1 Hit1 Hlen1 T2 T3) as (I1 & I2 & I3 & I4).
  pose proof T7 as T7'. unfold sd_vars in T7'. injection T7' as Hcard Hseen.
  rewrite Hcard in I1. rewrite Hcard, Hseen in I2, I3, I4.
  rewrite I1, I2, I3, I4, T4, T5, T6. rewrite Hk.
  cbn [every_tenth].
  destruct (bool_decide (sdcard (main w) <> None)); cbn [andb].
  - rewrite Bool.andb_true_r.
    destruct (Z.of_nat k mod 10 =? 0); cbn [app andb].
    + cbn [presence_changes last_presence fold_left length].
      rewrite !count_of_app.
      destruct (a.2 =? ESP_OK); destruct (sdcard_was_present (main w));
        cbn; repeat split; lia.
    + repeat split; lia.
  - rewrite Bool.andb_false_r. cbn. repeat split; lia.
Qed.

(** C10, as amended: a boot that reaches the monitoring loop leaves the
    card handle non-null exactly when [mountSDCARD] succeeded, and the
    recorded presence false in either case.  In the first [2^32] rounds
    of the loop the card is asked, by [sdmmc_get_status], in the rounds
    0, 10, 20, ... and in no other, and only after a successful mount;
    without one it is never asked and nothing about it is shown.  The
    answers are compared each with the one before it, the first with
    "absent": the line "SD Card removed!" is shown once for every answer
    that is a failure after a success, the line "SD Card accessible"
    once for every success after a failure or at the first check, and
    the recorded presence is that of the last answer.  As the statement
    holds for any number of rounds, it gives the lines in their order. *)
Theorem sd_card_checked_every_tenth_round (env : boot_env) (clk : nat -> tm)
    (answers : list (Z * esp_err_t)) :
  (app_main env (power_on clk)).1 = MonitoringLoop ->
  Z.of_nat (length answers) <= 2 ^ 32 ->
  sd_liveness ste env clk answers.
Proof.
  intros Hres Hlen. unfold sd_liveness. cbv zeta.
  pose proof (app_main_sd_vars env clk Hres) as Hvars.
  assert (Hready : shows_buffer (app_main env (power_on clk)).2 /\
                   log_within_budget (app_main env (power_on clk)).2).
  { pose proof Hres as Hres'. rewrite app_main_result_eq in Hres'.
    destruct (core_init env) eqn:Hcore; [|discriminate].
    destruct (display_comes_back env) eqn:Hdisp; [|discriminate].
    clear Hres'. rewrite (app_main_phase2 env _ Hcore Hdisp) in *.
    destruct (screen_and_storage_ready env _ Hres) as (_ & _ & _ & _ & _ & _ & R).
    exact R. }
  destruct Hready as [Hshow Hbud].
  set (w := (app_main env (power_on clk)).2) in *. clearbody w.
  split; [exact Hvars|].
  destruct (monitor_loop_sd answers 0 loop_entry w eq_refl Hlen Hshow Hbud)
    as (L1 & L2 & L3 & L4).
  unfold sd_vars in Hvars. injection Hvars as Hcard Hseen.
  rewrite Hcard in L1. rewrite Hseen, Hcard in L2, L3, L4.
  assert (E : bool_decide ((if sd_mounted env then Some SdCard else None) <> None)
              = sd_mounted env) by (destruct (sd_mounted env); reflexivity).
  rewrite E in L1, L2, L3, L4. rewrite Hcard.
  repeat split; assumption.
Qed.

End SdLiveness.

Lemma sd_card_checked_every_tenth_round_witness :
  sd_liveness ste_switch_order both_stores_env noon
    (repeat (1, ESP_OK) 10 ++ repeat (1, ESP_FAIL) 11).
Proof.
  apply (sd_card_checked_every_tenth_round ste_switch_order both_stores_env noon
           (repeat (1, ESP_OK) 10 ++ repeat (1, ESP_FAIL) 11));
    vm_compute; [reflexivity|discriminate].
Defined.

(** C10 as stated fails.  The card is mounted at boot and out of its
    slot by the first round: it is asked in rounds 0 and 10 and the
    loop never shows "SD Card removed!"; the only text shown in the
    eleven rounds is the report of the service state.  And a card that
    is mounted and stays in its slot is announced as accessible in the
    first round, though nothing about it has changed. *)
Lemma sd_card_removal_before_first_check_unreported :
  sd_mounted both_stores_env = true /\
  (app_main both_stores_env (power_on noon)).1 = MonitoringLoop /\
  count_calls is_sd_status (trace card_gone_run)
    = (count_calls is_sd_status (trace (app_main both_stores_env (power_on noon)).2)
       + 2)%nat /\
  count_calls (announces sd_removed_message) (trace card_gone_run) = 0%nat /\
  count_calls is_log_update (trace card_gone_run)
    = (count_calls is_log_update (trace (app_main both_stores_env (power_on noon)).2)
       + 1)%nat /\
  sd_vars card_gone_run = (Some SdCard, false) /\
  count_calls (announces sd_accessible_message) (trace card_there_run) = 1%nat.
Proof. vm_compute. repeat split. Qed.

(** ** The display: bring-up and release *)

Ltac cleanup_cases s :=
  destruct s as [ph th ld bl ic calls]; unfold cleanup_resources, released;
  cbn [touch_handle panel_handle i2c_initialized lvgl_disp backlight_initialized
       driver_calls drv set_touch_handle set_panel_handle set_i2c_initialized];
  destruct (th =? nullptr) eqn:Eth;
  cbn [negb touch_handle panel_handle i2c_initialized lvgl_disp backlight_initialized
       driver_calls drv set_touch_handle set_panel_handle set_i2c_initialized];
  destruct (ph =? nullptr) eqn:Eph;
  cbn [negb touch_handle panel_handle i2c_initialized lvgl_disp backlight_initialized
       driver_calls drv set_touch_handle set_panel_handle set_i2c_initialized];
  destruct ic;
  cbn [negb touch_handle panel_handle i2c_initialized lvgl_disp backlight_initialized
       driver_calls drv set_touch_handle set_panel_handle set_i2c_initialized];
  try (apply Z.eqb_eq in Eth); try (apply Z.eqb_eq in Eph).

Lemma cleanup_released s : released (cleanup_resources s).
Proof. cleanup_cases s; repeat split; assumption. Qed.

Lemma cleanup_keeps s :
  lvgl_disp (cleanup_resources s) = lvgl_disp s /\
  backlight_initialized (cleanup_resources s) = backlight_initialized s.
Proof. cleanup_cases s; split; reflexivity. Qed.

Lemma count_driver_app p l1 l2 :
  count_driver p (l1 ++ l2) = (count_driver p l1 + count_driver p l2)%nat.
Proof. unfold count_driver. rewrite List.filter_app, length_app. reflexivity. Qed.

Lemma count_driver_drv p c s :
  count_driver p (driver_calls (drv c s))
  = (count_driver p (driver_calls s) + if p c then 1 else 0)%nat.
Proof.
  unfold drv. cbn [driver_calls]. rewrite count_driver_app.
  unfold count_driver at 2. cbn [List.filter]. destruct (p c); reflexivity.
Qed.

Lemma cleanup_count p s :
  (forall h, p (esp_lcd_touch_del h) = false) ->
  (forall h, p (esp_lcd_panel_del h) = false) ->
  p i2c_driver_delete = false ->
  count_driver p (driver_calls (cleanup_resources s)) = count_driver p (driver_calls s).
Proof.
  intros H1 H2 H3. cleanup_cases s;
    rewrite ?count_driver_app; unfold count_driver; cbn [List.filter];
    rewrite ?H1, ?H2, ?H3; cbn [length]; lia.
Qed.

(** X17: [cleanup_resources] leaves nothing held, gives back exactly
    what was held (the touch driver, then the panel, then the I2C
    driver, each only if it was there), does nothing when nothing is
    held, so that a second call in a row makes no driver call, and
    leaves the display pointer and the backlight flag as they were. *)
Theorem cleanup_resources_settles (s : display_state) : cleanup_settles s.
Proof.
  unfold cleanup_settles.
  split; [apply cleanup_released|].
  split.
  { pose proof (cleanup_released s) as (H1 & H2 & H3).
    destruct (cleanup_resources s) as [ph th ld bl ic calls].
    cbn [touch_handle panel_handle i2c_initialized] in *. subst.
    reflexivity. }
  split.
  { intros (H1 & H2 & H3). destruct s as [ph th ld bl ic calls].
    cbn [touch_handle panel_handle i2c_initialized] in *. subst.
    reflexivity. }
  split; [apply cleanup_keeps|]. split; [apply cleanup_keeps|].
  eexists. split; [|reflexivity].
  cleanup_cases s; rewrite ?Eth, ?Eph; cbn [app]; rewrite <- ?app_assoc;
    rewrite ?app_nil_r; reflexivity.
Qed.

Ltac lcd_stages env :=
  rewrite !lcd_init_stages; cbv zeta;
  destruct (i2c_ok env) eqn:Hi2c; cbn [negb];
  [destruct (panel_ok env) eqn:Hpanel; cbn [negb];
   [destruct (backlight_ok env) eqn:Hbl; cbn [negb];
    [destruct (touch_ok env) eqn:Htouch; cbn [negb];
     [destruct (port_ok env) eqn:Hport; cbn [negb];
      [destruct (add_disp_rgb_ret env =? nullptr) eqn:Hdisp;
       [|destruct (add_touch_ret env =? nullptr) eqn:Hind]|]|]|]|]|];
  cbn [final returned andb negb].

(** X18: whenever [suntonEsp32s3LcdInit] hands back [nullptr], whatever
    stage failed and whatever the drivers stored, the touch and panel
    handles are null again and the I2C driver is marked as not
    installed. *)
Theorem lcd_init_failure_releases (env : display_env) (s : display_state) :
  returned (suntonEsp32s3LcdInit env s) = Some nullptr ->
  released (final (suntonEsp32s3LcdInit env s)).
Proof.
  lcd_stages env; intros Hret; try apply cleanup_released; try discriminate.
  injection Hret as Hret. rewrite Hret in Hdisp. discriminate.
Qed.

Lemma lcd_init_failure_releases_witness :
  released (final (suntonEsp32s3LcdInit no_touch_input_env display_power_on)).
Proof.
  apply (lcd_init_failure_releases no_touch_input_env display_power_on).
  vm_compute. reflexivity.
Defined.

(** X19: [suntonEsp32s3LcdInit] hands back a display exactly when every
    driver call succeeds and LVGL accepts both the display and the
    touch input; it does not come back at all exactly when the I2C bus
    and the panel came up and one of the four LEDC calls of the
    backlight failed; in every other case it hands back [nullptr]. *)
Theorem lcd_init_outcome (env : display_env) (s : display_state) :
  lcd_init_result env s.
Proof.
  unfold lcd_init_result, display_all_ok, added_ok. cbv zeta.
  lcd_stages env;
    (split; split; intros H; try discriminate H; try reflexivity;
     try (destruct H as (p & [= <-] & Hp); exfalso; apply Hp; reflexivity)).
  exists (add_disp_rgb_ret env). split; [reflexivity|].
  apply Z.eqb_neq, Hdisp.
Qed.

Lemma i2c_init_ok env s :
  i2c_ok env = true ->
  (i2c_init env s).2
  = set_i2c_initialized true (drv i2c_driver_install (drv i2c_param_config s)).
Proof.
  unfold i2c_ok, i2c_init. intros [H1 H2]%andb_true_iff. cbv zeta.
  rewrite H1, H2. reflexivity.
Qed.

Lemma lcd_panel_init_ok env s :
  panel_ok env = true ->
  (lcd_panel_init env s).2
  = let s1 := match new_rgb_panel_out env with
              | Some h => set_panel_handle h (drv esp_lcd_new_rgb_panel s)
              | None => drv esp_lcd_new_rgb_panel s
              end in
    drv (esp_lcd_panel_init (panel_handle s1))
      (drv (esp_lcd_panel_reset (panel_handle s1)) s1).
Proof.
  unfold panel_ok, lcd_panel_init.
  intros [[H1 H2]%andb_true_iff H3]%andb_true_iff. cbv zeta.
  rewrite H1, H2, H3. reflexivity.
Qed.

Lemma backlight_init_ok env s :
  backlight_ok env = true ->
  final (backlight_init env s)
  = set_backlight_initialized true
      (drv ledc_update_duty
         (drv (ledc_set_duty 255) (drv ledc_channel_config (drv ledc_timer_config s)))).
Proof.
  unfold backlight_ok, backlight_init.
  intros [[[H1 H2]%andb_true_iff H3]%andb_true_iff H4]%andb_true_iff. cbv zeta.
  rewrite H1, H2, H3, H4. reflexivity.
Qed.

Lemma touch_init_ok env s :
  touch_ok env = true ->
  (touch_init env s).2
  = match new_i2c_gt911_out env with
    | Some h =>
        set_touch_handle h
          (drv esp_lcd_touch_new_i2c_gt911 (drv esp_lcd_new_panel_io_i2c s))
    | None => drv esp_lcd_touch_new_i2c_gt911 (drv esp_lcd_new_panel_io_i2c s)
    end.
Proof.
  unfold touch_ok, touch_init. intros [H1 H2]%andb_true_iff. cbv zeta.
  rewrite H1, H2. reflexivity.
Qed.

(** X20: when every stage succeeds the drivers are called in this
    order and no other: I2C, the panel (created, reset, initialised),
    the four LEDC calls that put the backlight to 255, the touch
    controller, the LVGL port, the display and the touch input.  The
    panel that is reset, initialised and handed to LVGL is the one the
    constructor stored; the display returned is the one LVGL gave, and
    the touch input is attached to it; nothing is released. *)
Theorem lcd_init_success_path (env : display_env) (s : display_state) :
  display_all_ok env = true -> display_up env s.
Proof.
  unfold display_all_ok, added_ok.
  intros [[[[[Hi2c Hpanel]%andb_true_iff Hbl]%andb_true_iff
            Htouch]%andb_true_iff Hport]%andb_true_iff
          [Hdisp Hind]%andb_true_iff]%andb_true_iff.
  apply negb_true_iff in Hdisp, Hind.
  unfold display_up. cbv zeta.
  rewrite lcd_init_stages. cbv zeta.
  rewrite Hi2c, Hpanel, Hbl, Htouch, Hport, Hdisp, Hind. cbn [negb final returned].
  rewrite (touch_init_ok env _ Htouch), (backlight_init_ok env _ Hbl),
    (lcd_panel_init_ok env _ Hpanel), (i2c_init_ok env _ Hi2c).
  cbv zeta.
  destruct s as [ph th ld bl ic calls].
  destruct (new_rgb_panel_out env) as [hp|];
    destruct (new_i2c_gt911_out env) as [ht|];
    stage_step; cbn [default];
    rewrite <- !app_assoc; cbn [app]; repeat split; reflexivity.
Qed.

Lemma lcd_init_success_path_witness : display_up display_ok_env display_power_on.
Proof.
  apply (lcd_init_success_path display_ok_env display_power_on).
  vm_compute. reflexivity.
Defined.

(** Calls other than the two of the LVGL port do not count. *)
Lemma count_driver_set_lvgl_disp p v s :
  count_driver p (driver_calls (set_lvgl_disp v s)) = count_driver p (driver_calls s).
Proof. reflexivity. Qed.

Lemma i2c_init_frame env s :
  lvgl_disp (i2c_init env s).2 = lvgl_disp s /\
  backlight_initialized (i2c_init env s).2 = backlight_initialized s /\
  forall p, p i2c_param_config = false -> p i2c_driver_install = false ->
    count_driver p (driver_calls (i2c_init env s).2) = count_driver p (driver_calls s).
Proof.
  unfold i2c_init. cbv zeta.
  destruct (i2c_param_config_ret env =? ESP_OK);
    [destruct (i2c_driver_install_ret env =? ESP_OK)|];
    cbn [negb snd]; (split; [reflexivity|split; [reflexivity|]]);
    intros p H1 H2;
    change (driver_calls (set_i2c_initialized ?v ?x)) with (driver_calls x);
    rewrite ?count_driver_drv, ?H1, ?H2; lia.
Qed.

Lemma lcd_panel_init_frame env s :
  lvgl_disp (lcd_panel_init env s).2 = lvgl_disp s /\
  backlight_initialized (lcd_panel_init env s).2 = backlight_initialized s /\
  forall p, p esp_lcd_new_rgb_panel = false ->
    (forall h, p (esp_lcd_panel_reset h) = false) ->
    (forall h, p (esp_lcd_panel_init h) = false) ->
    count_driver p (driver_calls (lcd_panel_init env s).2)
    = count_driver p (driver_calls s).
Proof.
  unfold lcd_panel_init. cbv zeta.
  destruct (new_rgb_panel_out env) as [hp|];
    (destruct (new_rgb_panel_ret env =? ESP_OK);
     [destruct (panel_reset_ret env =? ESP_OK);
      [destruct (panel_init_ret env =? ESP_OK)|]|]);
    cbn [negb snd]; (split; [reflexivity|split; [reflexivity|]]);
    intros p H1 H2 H3;
    rewrite ?count_driver_drv;
    change (driver_calls (set_panel_handle ?v ?x)) with (driver_calls x);
    rewrite ?count_driver_drv, ?H1, ?H2, ?H3; lia.
Qed.

Lemma backlight_init_frame env s :
  lvgl_disp (final (backlight_init env s)) = lvgl_disp s /\
  (backlight_ok env = true ->
   backlight_initialized (final (backlight_init env s)) = true) /\
  forall p, p ledc_timer_config = false -> p ledc_channel_config = false ->
    (forall d, p (ledc_set_duty d) = false) -> p ledc_update_duty = false ->
    count_driver p (driver_calls (final (backlight_init env s)))
    = count_driver p (driver_calls s).
Proof.
  split; [|split].
  - unfold backlight_init. cbv zeta.
    repeat match goal with |- context [if ?b then _ else _] => destruct b end;
      reflexivity.
  - intros H. rewrite (backlight_init_ok env s H). reflexivity.
  - intros p H1 H2 H3 H4. unfold backlight_init. cbv zeta.
    repeat match goal with |- context [if ?b then _ else _] => destruct b end;
      cbn [final];
      change (driver_calls (set_backlight_initialized ?v ?x)) with (driver_calls x);
      rewrite ?count_driver_drv, ?H1, ?H2, ?H3, ?H4; lia.
Qed.

Lemma touch_init_frame env s :
  lvgl_disp (touch_init env s).2 = lvgl_disp s /\
  backlight_initialized (touch_init env s).2 = backlight_initialized s /\
  forall p, p esp_lcd_new_panel_io_i2c = false ->
    p esp_lcd_touch_new_i2c_gt911 = false ->
    count_driver p (driver_calls (touch_init env s).2) = count_driver p (driver_calls s).
Proof.
  unfold touch_init. cbv zeta.
  destruct (new_i2c_gt911_out env) as [ht|];
    (destruct (new_panel_io_i2c_ret env =? ESP_OK);
     [destruct (new_i2c_gt911_ret env =? ESP_OK)|]);
    cbn [negb snd]; (split; [reflexivity|split; [reflexivity|]]);
    intros p H1 H2;
    change (driver_calls (set_touch_handle ?v ?x)) with (driver_calls x);
    rewrite ?count_driver_drv, ?H1, ?H2; lia.
Qed.

(** The stages before the LVGL port make no call to it. *)
Lemma count_before_port p env s :
  (forall c, p c = true -> c = lvgl_port_init \/ c = lvgl_port_deinit) ->
  count_driver p (driver_calls (i2c_init env s).2) = count_driver p (driver_calls s) /\
  count_driver p (driver_calls (lcd_panel_init env s).2)
    = count_driver p (driver_calls s) /\
  count_driver p (driver_calls (final (backlight_init env s)))
    = count_driver p (driver_calls s) /\
  count_driver p (driver_calls (touch_init env s).2) = count_driver p (driver_calls s) /\
  count_driver p (driver_calls (cleanup_resources s)) = count_driver p (driver_calls s) /\
  (forall a, p (lvgl_port_add_disp_rgb a) = false) /\
  (forall a b, p (lvgl_port_add_touch a b) = false).
Proof.
  intros Hp.
  assert (Hno : forall c, c <> lvgl_port_init -> c <> lvgl_port_deinit -> p c = false).
  { intros c H1 H2. destruct (p c) eqn:E; [|reflexivity].
    destruct (Hp c E); contradiction. }
  split; [apply i2c_init_frame; apply Hno; discriminate|].
  split; [apply lcd_panel_init_frame; intros; apply Hno; discriminate|].
  split; [apply backlight_init_frame; intros; apply Hno; discriminate|].
  split; [apply touch_init_frame; apply Hno; discriminate|].
  split; [apply cleanup_count; intros; apply Hno; discriminate|].
  split; intros; apply Hno; discriminate.
Qed.

Lemma port_only_init c :
  is_port_init c = true -> c = lvgl_port_init \/ c = lvgl_port_deinit.
Proof. destruct c; try discriminate. left; reflexivity. Qed.

Lemma port_only_deinit c :
  is_port_deinit c = true -> c = lvgl_port_init \/ c = lvgl_port_deinit.
Proof. destruct c; try discriminate. right; reflexivity. Qed.

Ltac count_port H :=
  repeat first
    [ rewrite (fun s => proj1 (proj2 (proj2 (proj2 (proj2 (H s))))))
    | rewrite count_driver_set_lvgl_disp
    | rewrite count_driver_drv
    | rewrite (fun s => proj1 (proj2 (proj2 (proj2 (H s)))))
    | rewrite (fun s => proj1 (proj2 (proj2 (H s))))
    | rewrite (fun s => proj1 (proj2 (H s)))
    | rewrite (fun s => proj1 (H s))
    | rewrite (proj1 (proj2 (proj2 (proj2 (proj2 (proj2 (H display_power_on)))))))
    | rewrite (proj2 (proj2 (proj2 (proj2 (proj2 (proj2 (H display_power_on))))))) ].

(** X21: over one run [lvgl_port_init] is called once if the four
    stages before it succeed and not at all otherwise, and
    [lvgl_port_deinit] is called once exactly when [lvgl_port_init]
    succeeded and LVGL then refused the display or the touch input: a
    port that failed to initialise is never deinitialised, one that was
    initialised and cannot be used always is. *)
Theorem lvgl_port_init_deinit_paired (env : display_env) (s : display_state) :
  port_paired env s.
Proof.
  unfold port_paired, added_ok. cbv zeta.
  pose proof (fun s => count_before_port is_port_init env s port_only_init) as Hi.
  pose proof (fun s => count_before_port is_port_deinit env s port_only_deinit) as Hd.
  lcd_stages env; (split; [count_port Hi|count_port Hd]);
    cbn [is_port_init is_port_deinit]; lia.
Qed.

Lemma cleanup_backlight s :
  backlight_initialized (cleanup_resources s) = backlight_initialized s.
Proof. apply cleanup_keeps. Qed.

Lemma cleanup_lvgl_disp s : lvgl_disp (cleanup_resources s) = lvgl_disp s.
Proof. apply cleanup_keeps. Qed.

Lemma touch_init_backlight env s :
  backlight_initialized (touch_init env s).2 = backlight_initialized s.
Proof. apply touch_init_frame. Qed.

Lemma SetBrightness_drives brightness s :
  backlight_initialized s = true ->
  suntonEsp32s3SetBrightness brightness ESP_OK ESP_OK s
  = Passed tt (drv ledc_update_duty (drv (ledc_set_duty brightness) s)).
Proof.
  intros H. unfold suntonEsp32s3SetBrightness. rewrite H. reflexivity.
Qed.

(** X22: [cleanup_resources] takes back neither the backlight nor the
    display pointer.  When the I2C bus and the panel came up and
    [suntonEsp32s3LcdInit] then hands back [nullptr], the backlight is
    still marked as initialised, so that [suntonEsp32s3SetBrightness]
    goes on to drive the LEDC with the duty it is given; and if LVGL had
    accepted the display before refusing the touch input,
    [lvgl_disp] still holds that display although the port was
    deinitialised and [nullptr] was returned. *)
Theorem failed_init_keeps_backlight (env : display_env) (brightness : Z)
    (s : display_state) :
  i2c_ok env = true -> panel_ok env = true ->
  returned (suntonEsp32s3LcdInit env s) = Some nullptr ->
  backlight_survives env brightness s.
Proof.
  intros Hi Hp Hret. unfold backlight_survives. cbv zeta.
  assert (Hbl : backlight_ok env = true).
  { revert Hret. rewrite lcd_init_stages. cbv zeta. rewrite Hi, Hp. cbn [negb].
    destruct (backlight_ok env); [reflexivity|discriminate]. }
  assert (Hfin : backlight_initialized (final (suntonEsp32s3LcdInit env s)) = true /\
                 (touch_ok env && port_ok env
                  && negb (add_disp_rgb_ret env =? nullptr) = true ->
                  lvgl_disp (final (suntonEsp32s3LcdInit env s))
                  = add_disp_rgb_ret env)).
  { clear Hret. revert Hi Hp Hbl. lcd_stages env; intros Hi Hp Hbl';
      try discriminate;
      match goal with
      | |- context [backlight_init env ?x] =>
          pose proof (proj1 (proj2 (backlight_init_frame env x)) Hbl) as B
      end;
      rewrite ?cleanup_backlight, ?cleanup_lvgl_disp;
      stage_step;
      rewrite ?touch_init_backlight;
      (split; [exact B|intros H; try discriminate H; reflexivity]). }
  destruct Hfin as [H1 H2].
  split; [exact H1|]. split; [apply SetBrightness_drives, H1|].
  intros H. split; [apply H2, H|].
  rewrite (H2 H).
  apply andb_true_iff in H as [_ H]. apply negb_true_iff, Z.eqb_neq in H. exact H.
Qed.

Lemma failed_init_keeps_backlight_witness :
  backlight_survives no_touch_input_env 128 display_power_on.
Proof.
  apply (failed_init_keeps_backlight no_touch_input_env 128 display_power_on);
    vm_compute; reflexivity.
Defined.

(** ** Giving the storage back *)

(** X23: the two unmount functions agree with the two mounts on what
    "mounted" means.  [unmountFATFS] calls the driver exactly when
    [app_main] counts the flash as storage; the [-1] that [mountFATFS]
    returns on failure is refused without a driver call.  With no card
    held before, [unmountSDCARD] calls the driver exactly when
    [mountSDCARD] answered [ESP_OK], and frees the SPI bus only after
    the driver unmounted the card.  A null mount point or a null card
    makes either function return without a driver call. *)
Theorem unmount_matches_mount (env : boot_env) (unmount_ret : esp_err_t) (w : world) :
  sdcard (main w) = None -> storage_given_back env unmount_ret w.
Proof.
  intros Hnone. unfold storage_given_back. cbv zeta.
  destruct (mountSDCARD_spec (spi_bus_initialize_ret env) (sdspi_mount_ret env) w)
    as (_ & _ & _ & Hcard).
  rewrite Hcard, Hnone. fold (sd_mounted env).
  unfold flash_mounted, unmountFATFS.
  split; [|split; [|split; [|split; [|split]]]].
  - set (h := mountFATFS (spiflash_mount_ret env) (spiflash_handle env)).
    destruct (Z.ltb_spec h 0), (Z.leb_spec 0 h); try lia; reflexivity.
  - intros Hret. unfold mountFATFS.
    destruct (spiflash_mount_ret env =? ESP_OK) eqn:E;
      [apply Z.eqb_eq in E; contradiction|reflexivity].
  - unfold unmountSDCARD.
    destruct (sd_mounted env); [|reflexivity].
    destruct (unmount_ret =? ESP_OK); reflexivity.
  - intros h'. destruct (h' <? 0); reflexivity.
  - intros c. reflexivity.
  - intros [mp|]; reflexivity.
Qed.

Lemma unmount_matches_mount_witness :
  storage_given_back both_stores_env ESP_OK (power_on noon).
Proof.
  apply (unmount_matches_mount both_stores_env ESP_OK (power_on noon)).
  reflexivity.
Defined.

(** ** The settings view *)

Lemma elem_of_one {A : Type} (x y : A) : x ∈ [y] -> x = y.
Proof.
  intros [->|H]%elem_of_cons; [reflexivity|].
  apply elem_of_nil in H. contradiction.
Qed.

(** X24: [handleSave] makes at most one call.  It saves only when all
    three text areas exist, and then with their texts; the port it
    saves is the current one or lies in 1..65535, so a valid current
    port is never replaced by an invalid one: an empty field, a text
    that does not start with a number, zero, a negative number and
    anything above 65535 all leave the current port in place.  It
    cancels only when a text area is missing. *)
Theorem handleSave_checks_port (v : SettingsView) : save_checked v.
Proof.
  unfold save_checked, handleSave, valid_port.
  destruct (usernameInput v) as [u0|], (passwordInput v) as [p0|],
    (portInput v) as [t0|]; cbv zeta;
    try (split; [destruct (onCancel v); cbn; lia|];
         split; [intros u p q H; destruct (onCancel v);
                 [apply elem_of_one in H; discriminate
                 |apply elem_of_nil in H; contradiction]|];
         split; [intros _; auto|];
         intros u p text; discriminate).
  set (q0 := if 0 <? strlen t0
             then if (0 <? atoi t0) && (atoi t0 <=? 65535) then atoi t0
                  else currentPort v
             else currentPort v).
  assert (Hq : q0 = currentPort v \/ 1 <= q0 <= 65535).
  { subst q0. destruct (0 <? strlen t0); [|left; reflexivity].
    destruct (Z.ltb_spec 0 (atoi t0)), (Z.leb_spec (atoi t0) 65535);
      cbn [andb]; auto. right. lia. }
  split; [destruct (onSave v); cbn; lia|].
  split.
  { intros u p q H. destruct (onSave v);
      [|apply elem_of_nil in H; contradiction].
    apply elem_of_one in H. injection H as -> -> ->.
    split; [reflexivity|]. split; [reflexivity|]. split; [exact Hq|].
    intros Hc. destruct Hq as [Hq|Hq]; [rewrite Hq; exact Hc|exact Hq]. }
  split.
  { intros H. destruct (onSave v);
      [apply elem_of_one in H; discriminate
      |apply elem_of_nil in H; contradiction]. }
  intros u p text [= ->] [= ->] [= ->] Hs Hbad. rewrite Hs.
  do 2 f_equal. subst q0.
  destruct Hbad as [->|Hbad]; [reflexivity|].
  destruct (0 <? strlen text); [|reflexivity].
  destruct (Z.ltb_spec 0 (atoi text)), (Z.leb_spec (atoi text) 65535);
    cbn [andb]; try reflexivity; lia.
Qed.

(** *** Printing and reading back a port *)

Lemma digit_code d :
  0 <= d < 10 -> Z.of_nat (nat_of_ascii (digit (Z.to_nat d))) = 48 + d.
Proof.
  intros Hd. unfold digit.
  assert (Hm : (Z.to_nat d mod 10 = Z.to_nat d)%nat) by (apply Nat.mod_small; lia).
  rewrite Hm, nat_ascii_embedding by lia. lia.
Qed.

Lemma isdigit_digit n : isdigit (digit n) = true.
Proof.
  unfold isdigit, digit. cbv zeta.
  pose proof (Nat.mod_upper_bound n 10 ltac:(lia)) as Hm.
  rewrite nat_ascii_embedding by lia.
  apply andb_true_iff. split; apply Nat.leb_le; lia.
Qed.

Lemma isdigit_plain c :
  isdigit c = true ->
  isspace c = false /\ Ascii.eqb c "-" = false /\ Ascii.eqb c "+" = false.
Proof.
  destruct c as [[] [] [] [] [] [] [] []]; intros H; try discriminate H;
    repeat split.
Qed.

Lemma leading_digits_snoc acc l d :
  Forall (fun c => isdigit c = true) l -> isdigit d = true ->
  leading_digits acc (l ++ [d])
  = leading_digits acc l * 10 + (Z.of_nat (nat_of_ascii d) - 48).
Proof.
  intros Hl Hd. revert acc. induction Hl as [|c l Hc Hl IH]; intros acc.
  - cbn [app leading_digits]. rewrite Hd. reflexivity.
  - cbn [app leading_digits]. rewrite Hc. apply IH.
Qed.

Lemma leading_digits_nonneg s acc : 0 <= acc -> 0 <= leading_digits acc s.
Proof.
  revert acc. induction s as [|c s IH]; intros acc Hacc; cbn [leading_digits];
    [exact Hacc|].
  destruct (isdigit c) eqn:Hc; [|exact Hacc].
  apply IH. unfold isdigit in Hc. cbv zeta in Hc.
  apply andb_true_iff in Hc as [Hc _]. apply Nat.leb_le in Hc. lia.
Qed.

Lemma dec_digits_isdigit f n : Forall (fun c => isdigit c = true) (dec_digits f n).
Proof.
  revert n. induction f as [|f IH]; intros n; cbn [dec_digits]; [constructor|].
  destruct (n <? 10).
  - constructor; [apply isdigit_digit|constructor].
  - apply Forall_app. split; [apply IH|].
    constructor; [apply isdigit_digit|constructor].
Qed.

Lemma dec_digits_value f n :
  0 <= n < 10 ^ Z.of_nat f -> leading_digits 0 (dec_digits f n) = n.
Proof.
  revert n. induction f as [|f IH]; intros n Hn.
  { change (10 ^ Z.of_nat 0) with 1 in Hn. cbn [dec_digits leading_digits]. lia. }
  cbn [dec_digits]. destruct (Z.ltb_spec n 10) as [Hlt|Hge].
  - cbn [leading_digits]. rewrite isdigit_digit, digit_code by lia. lia.
  - rewrite leading_digits_snoc
      by (try apply dec_digits_isdigit; apply isdigit_digit).
    rewrite digit_code by (apply Z.mod_pos_bound; lia).
    rewrite IH.
    + pose proof (Z.div_mod n 10 ltac:(lia)). lia.
    + rewrite Nat2Z.inj_succ, Z.pow_succ_r in Hn by lia.
      split; [apply Z.div_pos; lia|apply Z.div_lt_upper_bound; lia].
Qed.

Lemma length_dec_digits f n k :
  0 <= n < 10 ^ Z.of_nat k -> (1 <= k)%nat -> (length (dec_digits f n) <= k)%nat.
Proof.
  revert n k. induction f as [|f IH]; intros n k Hn Hk; cbn [dec_digits];
    [cbn; lia|].
  destruct (Z.ltb_spec n 10) as [Hlt|Hge]; [cbn; lia|].
  rewrite length_app. cbn [length].
  destruct k as [|k]; [lia|].
  rewrite Nat2Z.inj_succ, Z.pow_succ_r in Hn by lia.
  destruct k as [|k].
  { change (10 ^ Z.of_nat 0) with 1 in Hn. lia. }
  assert (length (dec_digits f (n / 10)) <= S k)%nat; [|lia].
  apply IH; [|lia].
  split; [apply Z.div_pos; lia|apply Z.div_lt_upper_bound; lia].
Qed.

Lemma dec_digits_head f n :
  exists c r, dec_digits (S f) n = c :: r /\ isdigit c = true.
Proof.
  pose proof (dec_digits_isdigit (S f) n) as Hall.
  destruct (dec_digits (S f) n) as [|c r] eqn:E.
  - exfalso. cbn [dec_digits] in E. destruct (n <? 10); [discriminate|].
    destruct (dec_digits f (n / 10)); discriminate.
  - exists c, r. split; [reflexivity|]. inversion Hall; assumption.
Qed.

Lemma atoi_dec_digits f n :
  0 <= n < 10 ^ Z.of_nat (S f) ->
  atoi (dec_digits (S f) n) = n /\ 0 < strlen (dec_digits (S f) n).
Proof.
  intros Hn. pose proof (dec_digits_value (S f) n Hn) as Hv.
  destruct (dec_digits_head f n) as (c & r & E & Hc). rewrite E in *.
  destruct (isdigit_plain c Hc) as (H1 & H2 & H3).
  split; [|unfold strlen; cbn [length]; lia].
  unfold atoi. cbn [skip_spaces]. rewrite H1, H2, H3. exact Hv.
Qed.

Lemma atoi_minus s : atoi ("-"%char :: s) <= 0.
Proof.
  unfold atoi. cbn [skip_spaces].
  change (isspace "-") with false. cbv iota.
  change (Ascii.eqb "-" "-") with true. cbv iota.
  pose proof (leading_digits_nonneg s 0 ltac:(lia)). lia.
Qed.

Lemma dec_digits_length_ge f n k :
  (1 <= k <= f)%nat -> 10 ^ (Z.of_nat k - 1) <= n ->
  (k <= length (dec_digits f n))%nat.
Proof.
  revert n k. induction f as [|f IH]; intros n k Hk Hn; [lia|].
  cbn [dec_digits]. destruct (Z.ltb_spec n 10) as [Hlt|Hge].
  - cbn [length]. destruct (Nat.eq_dec k 1%nat) as [->|Hne]; [lia|].
    exfalso.
    assert (10 ^ 1 <= 10 ^ (Z.of_nat k - 1)) by (apply Z.pow_le_mono_r; lia).
    lia.
  - rewrite length_app. cbn [length].
    destruct (Nat.eq_dec k 1%nat) as [->|Hne]; [lia|].
    assert (k - 1 <= length (dec_digits f (n / 10)))%nat; [|lia].
    apply IH; [lia|].
    apply Z.div_le_lower_bound; [lia|].
    replace (Z.of_nat k - 1) with (Z.succ (Z.of_nat (k - 1) - 1)) in Hn by lia.
    rewrite Z.pow_succ_r in Hn by lia. exact Hn.
Qed.

Lemma take_dec_digits k f n m :
  (1 <= m)%nat -> (m + k <= f)%nat ->
  10 ^ (Z.of_nat (m + k) - 1) <= n < 10 ^ Z.of_nat (m + k) ->
  take m (dec_digits f n) = dec_digits (f - k) (n / 10 ^ Z.of_nat k) /\
  10 ^ (Z.of_nat m - 1) <= n / 10 ^ Z.of_nat k < 10 ^ Z.of_nat m.
Proof.
  revert f n. induction k as [|k IH]; intros f n Hm Hf Hn.
  - change (10 ^ Z.of_nat 0) with 1. rewrite Z.div_1_r, Nat.sub_0_r.
    rewrite Nat.add_0_r in Hn. split; [|exact Hn].
    apply take_ge. apply length_dec_digits; [lia|lia].
  - destruct f as [|f]; [lia|].
    assert (Hge : 10 <= n).
    { assert (10 ^ 1 <= 10 ^ (Z.of_nat (m + S k) - 1))
        by (apply Z.pow_le_mono_r; lia). lia. }
    cbn [dec_digits]. destruct (Z.ltb_spec n 10) as [Hlt|_]; [lia|].
    assert (Hn' : 10 ^ (Z.of_nat (m + k) - 1) <= n / 10 < 10 ^ Z.of_nat (m + k)).
    { replace (Z.of_nat (m + S k)) with (Z.succ (Z.of_nat (m + k))) in Hn by lia.
      rewrite Z.pow_succ_r in Hn by lia.
      replace (Z.succ (Z.of_nat (m + k)) - 1)
        with (Z.succ (Z.of_nat (m + k) - 1)) in Hn by lia.
      rewrite Z.pow_succ_r in Hn by lia.
      split; [apply Z.div_le_lower_bound; lia|apply Z.div_lt_upper_bound; lia]. }
    rewrite take_app_le
      by (etrans; [|apply (dec_digits_length_ge f (n / 10) (m + k)); [lia|apply Hn']];
          lia).
    destruct (IH f (n / 10) Hm ltac:(lia) Hn') as [Ht Hb].
    rewrite Ht. replace (S f - S k)%nat with (f - k)%nat by lia.
    replace (n / 10 ^ Z.of_nat (S k)) with (n / 10 / 10 ^ Z.of_nat k).
    + split; [reflexivity|exact Hb].
    + rewrite Nat2Z.inj_succ, Z.pow_succ_r by lia.
      rewrite Z.div_div by lia. reflexivity.
Qed.

(** What [atoi] makes of a number that the 8-byte buffer cut. *)
Lemma atoi_truncated n :
  10 ^ 7 <= n < 2 ^ 31 ->
  65535 < atoi (take 7 (dec_digits 10 n)) /\ 0 < strlen (take 7 (dec_digits 10 n)).
Proof.
  intros Hn.
  assert (Hk : exists k, (1 <= k <= 3)%nat /\
             10 ^ (Z.of_nat (7 + k) - 1) <= n < 10 ^ Z.of_nat (7 + k)).
  { destruct (Z.lt_ge_cases n (10 ^ 8)); [exists 1%nat; split; [lia|]|
      destruct (Z.lt_ge_cases n (10 ^ 9)); [exists 2%nat; split; [lia|]|
        exists 3%nat; split; [lia|]]];
      cbn [Nat.add Z.of_nat Pos.of_succ_nat Pos.succ Z.sub Z.add Z.opp Z.pos_sub
           Pos.pred_double]; lia. }
  destruct Hk as (k & Hk & Hb).
  destruct (take_dec_digits k 10 n 7 ltac:(lia) ltac:(lia) Hb) as [Ht Hq].
  rewrite Ht.
  change (10 ^ (Z.of_nat 7 - 1)) with 1000000 in Hq.
  change (10 ^ Z.of_nat 7) with 10000000 in Hq.
  set (q := n / 10 ^ Z.of_nat k) in *.
  destruct (10 - k)%nat as [|f] eqn:Ef; [lia|].
  assert (Hf : 0 <= q < 10 ^ Z.of_nat (S f)).
  { split; [lia|].
    assert (10 ^ 7 <= 10 ^ Z.of_nat (S f)) by (apply Z.pow_le_mono_r; lia).
    lia. }
  destruct (atoi_dec_digits f q Hf) as [Hv Hlen].
  rewrite Hv. split; [lia|exact Hlen].
Qed.

(** What [handleSave] does with a port field that reads back as [p]. *)
Lemma handleSave_port u p text cur s c :
  0 < strlen text ->
  handleSave {| usernameInput := Some u; passwordInput := Some p;
                portInput := Some text; currentUsername := u;
                currentPassword := p; currentPort := cur;
                onSave := s; onCancel := c |}
  = if s
    then [onSave_call u p (if (0 <? atoi text) && (atoi text <=? 65535)
                           then atoi text else cur)]
    else [].
Proof.
  intros Hlen. unfold handleSave.
  cbn [usernameInput passwordInput portInput currentPort onSave]. cbv zeta.
  destruct (Z.ltb_spec 0 (strlen text)); [reflexivity|lia].
Qed.

(** X25: saving without an edit hands back what the view was started
    with: the user name, the password and the very port, for every
    [int] port, valid or not.  The port is printed into an 8-byte
    buffer and read back with [atoi]; a port of more than seven
    characters is cut by the buffer, and what is left never reads back
    as a valid port, so the current port is kept.  A valid port typed
    into the field is the port saved.  After [onStop] a save is turned
    into a cancel. *)
Theorem save_returns_what_was_started (username password : c_str) (port : Z)
    (v : SettingsView) :
  - 2 ^ 31 <= port < 2 ^ 31 -> saved_as_started username password port v.
Proof.
  intros Hport. unfold saved_as_started. cbv zeta.
  split; [|split].
  - unfold onStart. change (snprintf 8 ?x) with (take 7 x).
    unfold print_int. destruct (Z.ltb_spec port 0) as [Hneg|Hpos].
    + cbn [take]. rewrite handleSave_port by (unfold strlen; cbn [length]; lia).
      destruct (onSave v); [|reflexivity].
      pose proof (atoi_minus (take 6 (dec_digits 10 (- port)))) as Hm.
      destruct (Z.ltb_spec 0 (atoi ("-"%char :: take 6 (dec_digits 10 (- port)))));
        [lia|reflexivity].
    + destruct (Z.lt_ge_cases port (10 ^ 7)) as [Hsmall|Hbig].
      * assert (H10 : 0 <= port < 10 ^ Z.of_nat 10)
          by (change (10 ^ Z.of_nat 10) with 10000000000; lia).
        assert (H7 : 0 <= port < 10 ^ Z.of_nat 7)
          by (change (10 ^ Z.of_nat 7) with 10000000; lia).
        rewrite take_ge by (apply (length_dec_digits 10 port 7); [exact H7|lia]).
        destruct (atoi_dec_digits 9 port H10) as [Hv Hlen].
        rewrite handleSave_port by exact Hlen. rewrite Hv.
        destruct (onSave v); [|reflexivity].
        destruct ((0 <? port) && (port <=? 65535)); reflexivity.
      * destruct (atoi_truncated port ltac:(lia)) as [Hv Hlen].
        rewrite handleSave_port by exact Hlen.
        destruct (onSave v); [|reflexivity].
        destruct (Z.leb_spec (atoi (take 7 (dec_digits 10 port))) 65535); [lia|].
        rewrite andb_false_r. reflexivity.
  - unfold handleSave, onStop, onStart.
    cbn [usernameInput passwordInput portInput onCancel]. reflexivity.
  - intros q Hq. unfold valid_port in Hq.
    unfold edit_port, onStart.
    cbn [usernameInput passwordInput portInput currentUsername currentPassword
         currentPort onSave onCancel].
    unfold print_int. destruct (Z.ltb_spec q 0) as [Hneg|_]; [lia|].
    assert (H10 : 0 <= q < 10 ^ Z.of_nat 10)
      by (change (10 ^ Z.of_nat 10) with 10000000000; lia).
    destruct (atoi_dec_digits 9 q H10) as [Hv Hlen].
    rewrite handleSave_port by exact Hlen. rewrite Hv.
    destruct (onSave v); [|reflexivity].
    destruct (Z.ltb_spec 0 q), (Z.leb_spec q 65535); try lia. reflexivity.
Qed.

Lemma save_returns_what_was_started_witness :
  saved_as_started (lit "esp32") (lit "secret") 21 fresh_view.
Proof.
  apply (save_returns_what_was_started (lit "esp32") (lit "secret") 21 fresh_view).
  lia.
Defined.
